(** * Batch-Image-OCR: the batch processing engine of [batch_ocr.py]

    A shallow embedding of class [BatchOCR] ([__init__], [process_image],
    [process_batch], [save_to_json]) and the properties of its batch loop,
    its failure isolation, its progress reporting and its serialisation;
    then of the settings file of [config.py] and of the methods of
    [gui.py] that select files, run a batch and set the engine path.

    Python objects live in a store ([heap]); everything outside the
    interpreter (the file system, the Tesseract executable, the progress
    observer) is an environment [Env] acting on an abstract world [W].
    Every call that leaves the module is logged in a [trace], together
    with what it returned. *)

From Stdlib Require Import NArith Lia.
From stdpp Require Import base list strings.

Set Default Proof Using "Type".
Set Warnings "-clear-no-such-hyp,-register-all".

(** ** Python strings *)

(** A [str] is a sequence of Unicode code points. *)
Definition pystr := list N.

(** String literals of the source, as code points (ASCII only). *)
Definition py (s : string) : pystr :=
  map Ascii.N_of_ascii (String.list_ascii_of_string s).

(** [str.isspace] for one code point: the table of
    [_PyUnicode_IsWhitespace]. *)
Definition isspace (c : N) : bool :=
  ((0x09 <=? c) && (c <=? 0x0D) || (0x1C <=? c) && (c <=? 0x20)
   || (c =? 0x85) || (c =? 0xA0) || (c =? 0x1680)
   || (0x2000 <=? c) && (c <=? 0x200A)
   || (c =? 0x2028) || (c =? 0x2029) || (c =? 0x202F)
   || (c =? 0x205F) || (c =? 0x3000))%N.

Fixpoint lstrip (s : pystr) : pystr :=
  match s with
  | c :: s' => if isspace c then lstrip s' else s
  | [] => []
  end.

Definition rstrip (s : pystr) : pystr := reverse (lstrip (reverse s)).

(** [text.strip()]: both ends, no argument. *)
Definition strip (s : pystr) : pystr := rstrip (lstrip s).

(** ** Python dictionaries

    A [dict] of [str] to [str] keeps its keys in the order of their first
    insertion; assigning to a key that is present replaces the value in
    place. *)
Abbreviation pydict := (list (pystr * pystr)) (only parsing).

Fixpoint dict_set (k v : pystr) (d : pydict) : pydict :=
  match d with
  | [] => [(k, v)]
  | (k', v') :: d' =>
      if decide (k' = k) then (k, v) :: d' else (k', v') :: dict_set k v d'
  end.

Fixpoint dict_get (d : pydict) (k : pystr) : option pystr :=
  match d with
  | [] => None
  | (k', v') :: d' => if decide (k' = k) then Some v' else dict_get d' k
  end.

Definition dict_keys (d : pydict) : list pystr := d.*1.

(** The dictionary obtained by assigning the pairs of [kvs] from left to
    right, starting from [d]. *)
Definition dict_update (d : pydict) (kvs : list (pystr * pystr)) : pydict :=
  foldl (λ acc kv, dict_set kv.1 kv.2 acc) d kvs.

(** The distinct elements of a list, in the order of their first
    occurrence. *)
Fixpoint first_occurrences (l : list pystr) : list pystr :=
  match l with
  | [] => []
  | x :: l' => x :: filter (λ y, y ≠ x) (first_occurrences l')
  end.

(** ** [json.dump(obj, f, indent=4, ensure_ascii=False)] on a [dict] of
    strings *)

Definition hex_digit (n : N) : N :=
  (if n <? 10 then 48 + n else 87 + n)%N.

(** [ESCAPE_DCT] of [json.encoder], applied to the characters matched by
    [ESCAPE]: the quote, the backslash and the code points below 0x20. *)
Definition json_escape_char (c : N) : pystr :=
  (if c =? 34 then [92; 34]            (* quote *)
   else if c =? 92 then [92; 92]       (* backslash *)
   else if c =? 8 then [92; 98]        (* \b *)
   else if c =? 12 then [92; 102]      (* \f *)
   else if c =? 10 then [92; 110]      (* \n *)
   else if c =? 13 then [92; 114]      (* \r *)
   else if c =? 9 then [92; 116]       (* \t *)
   else if c <? 32 then [92; 117; 48; 48; hex_digit (c / 16); hex_digit (c mod 16)]
   else [c])%N.

(** [py_encode_basestring]: the string between double quotes. *)
Definition json_string (s : pystr) : pystr :=
  [34%N] ++ concat (map json_escape_char s) ++ [34%N].

Definition json_item (kv : pystr * pystr) : pystr :=
  py "    " ++ json_string kv.1 ++ py ": " ++ json_string kv.2.

Fixpoint join (sep : pystr) (xs : list pystr) : pystr :=
  match xs with
  | [] => []
  | [x] => x
  | x :: xs' => x ++ sep ++ join sep xs'
  end.

Definition json_dumps (d : pydict) : pystr :=
  match d with
  | [] => py "{}"
  | _ => py "{" ++ [10%N] ++ join ([44%N; 10%N]) (map json_item d)
         ++ [10%N] ++ py "}"
  end.

(** ** Exceptions, objects, events *)

(** The classes of [Exception] that occur.  [ExternalError] stands for
    whatever subclass of [Exception] a library call raises ([OSError],
    [UnidentifiedImageError], [TesseractNotFoundError],
    [UnicodeEncodeError], ...). *)
Inductive exn_class := RuntimeError | TypeError | AttributeError | ExternalError.

Record exn := PyExn { exn_cls : exn_class; exn_str : pystr }.

(** Addresses of objects. *)
Abbreviation loc := nat (only parsing).

Inductive obj :=
| PyList (items : list pystr)
| PyDict (d : pydict)
| PyBatchOCR (tesseract_available : option bool).
    (* [None]: the attribute has not been assigned yet *)

(** Calls that leave the module, each with what it returned. *)
Inductive event :=
| EvProbe (ok : bool)                          (* pytesseract.get_tesseract_version() *)
| EvProgress (i total : nat) (label : pystr)   (* callback(i, total, label) *)
| EvOpen (path : pystr) (ok : bool)            (* Image.open(path) *)
| EvOcr (r : option pystr)                     (* pytesseract.image_to_string(img) *)
| EvPrint (line : pystr)                       (* print(line) *)
| EvOpenW (path : pystr) (ok : bool)           (* open(path, 'w', encoding='utf-8') *)
| EvDump (path text : pystr) (ok : bool).      (* json.dump(..., f, ...) and closing f *)

Inductive outcome (A : Type) :=
| Ok (a : A)
| Raise (e : exn).
Arguments Ok {A} a.
Arguments Raise {A} e.

Definition of_sum {A} (r : exn + A) : outcome A :=
  match r with inl e => Raise e | inr a => Ok a end.

Definition of_status (r : option exn) : outcome unit :=
  match r with Some e => Raise e | None => Ok tt end.

Definition is_raise {A} (r : outcome A) : bool :=
  match r with Raise _ => true | Ok _ => false end.

(** ** The environment *)

(** What the module calls and does not define.  [W] is the state of the
    outside world, [image] the type of decoded images. *)
Record Env (W image : Type) := {
  platform_system : W → pystr;
  os_path_exists : pystr → W → bool;
  os_path_basename : pystr → pystr;
  (* the first argument is [pytesseract.pytesseract.tesseract_cmd] *)
  get_tesseract_version : pystr → W → option exn * W;
  Image_open : pystr → W → (exn + image) * W;
  image_to_string : pystr → image → W → (exn + pystr) * W;
  open_w : pystr → W → option exn * W;
  (* writing the encoded text to the opened file and closing it *)
  write_close : pystr → pystr → W → option exn * W;
}.
Arguments platform_system {W image}.
Arguments os_path_exists {W image}.
Arguments os_path_basename {W image}.
Arguments get_tesseract_version {W image}.
Arguments Image_open {W image}.
Arguments image_to_string {W image}.
Arguments open_w {W image}.
Arguments write_close {W image}.

Record State (W : Type) := mkState {
  heap : list obj;            (* Python objects, by address *)
  tesseract_cmd : pystr;      (* pytesseract.pytesseract.tesseract_cmd *)
  world : W;
  trace : list event;         (* oldest first *)
}.
Arguments mkState {W}.
Arguments heap {W}.
Arguments tesseract_cmd {W}.
Arguments world {W}.
Arguments trace {W}.

(** The events of [s'] that are not yet in [s], when [s'] follows [s]. *)
Definition emitted {W} (s s' : State W) : list event :=
  drop (length (trace s)) (trace s').

Section BatchOCR.

Context {W image : Type}.
Variable E : Env W image.

(** A computation: runs in a state, returns or raises, leaves a state. *)
Definition M (A : Type) : Type := State W → outcome A * State W.

(** The progress observer, [callback(i, total, label)].  It is outside the
    module: it acts on the world and returns or raises; it is handed two
    integers and a string, none of the objects of the batch. *)
Definition Callback : Type := nat → nat → pystr → W → option exn * W.

Definition ret {A} (a : A) : M A := λ s, (Ok a, s).

Definition bind {A B} (m : M A) (k : A → M B) : M B :=
  λ s, match m s with
       | (Ok a, s') => k a s'
       | (Raise e, s') => (Raise e, s')
       end.

Definition raise {A} (e : exn) : M A := λ s, (Raise e, s).

(** [try: m  except Exception as e: h e] *)
Definition try_except {A} (m : M A) (h : exn → M A) : M A :=
  λ s, match m s with
       | (Ok a, s') => (Ok a, s')
       | (Raise e, s') => h e s'
       end.

Declare Scope py_scope.
Notation "x ← y ; z" := (bind y (λ x, z))
  (at level 20, y at level 100, z at level 200, only parsing) : py_scope.
Notation "y ;; z" := (bind y (λ _, z))
  (at level 100, z at level 200, only parsing, right associativity) : py_scope.
Local Open Scope py_scope.

Definition set_heap (h : list obj) (s : State W) : State W :=
  mkState h (tesseract_cmd s) (world s) (trace s).
Definition set_tesseract_cmd (c : pystr) (s : State W) : State W :=
  mkState (heap s) c (world s) (trace s).
Definition set_world (w : W) (s : State W) : State W :=
  mkState (heap s) (tesseract_cmd s) w (trace s).
Definition log (ev : event) (s : State W) : State W :=
  mkState (heap s) (tesseract_cmd s) (world s) (trace s ++ [ev]).

(** *** Objects *)

Definition alloc (o : obj) : M loc :=
  λ s, (Ok (length (heap s)), set_heap (heap s ++ [o]) s).

Definition type_error {A} : M A := raise (PyExn TypeError (py "TypeError")).
Definition attribute_error {A} : M A :=
  raise (PyExn AttributeError (py "AttributeError")).

(** [len(x)] *)
Definition len (x : loc) : M nat :=
  λ s, match heap s !! x with
       | Some (PyList xs) => ret (length xs) s
       | Some (PyDict d) => ret (length d) s
       | _ => type_error s
       end.

(** The elements a [for] loop over [x] visits.  The loops of this module
    assign to no list and to no dictionary they iterate over, so the
    elements are those present when the loop starts. *)
Definition iter (x : loc) : M (list pystr) :=
  λ s, match heap s !! x with
       | Some (PyList xs) => ret xs s
       | Some (PyDict d) => ret (dict_keys d) s
       | _ => type_error s
       end.

(** [x.items()] *)
Definition items (x : loc) : M (list (pystr * pystr)) :=
  λ s, match heap s !! x with
       | Some (PyDict d) => ret d s
       | _ => attribute_error s
       end.

(** [x[k] = v] *)
Definition setitem (x : loc) (k v : pystr) : M unit :=
  λ s, match heap s !! x with
       | Some (PyDict d) => (Ok tt, set_heap (<[x := PyDict (dict_set k v d)]> (heap s)) s)
       | _ => type_error s
       end.

(** [self.tesseract_available] *)
Definition get_tesseract_available (self : loc) : M bool :=
  λ s, match heap s !! self with
       | Some (PyBatchOCR (Some b)) => ret b s
       | _ => attribute_error s
       end.

(** [self.tesseract_available = b] *)
Definition set_tesseract_available (self : loc) (b : bool) : M unit :=
  λ s, match heap s !! self with
       | Some (PyBatchOCR _) => (Ok tt, set_heap (<[self := PyBatchOCR (Some b)]> (heap s)) s)
       | _ => attribute_error s
       end.

Fixpoint for_each {A} (xs : list A) (body : A → M unit) : M unit :=
  match xs with
  | [] => ret tt
  | x :: xs' => body x ;; for_each xs' body
  end.

Fixpoint enumerate_from {A} (i : nat) (xs : list A) : list (nat * A) :=
  match xs with
  | [] => []
  | x :: xs' => (i, x) :: enumerate_from (S i) xs'
  end.

Definition enumerate {A} (xs : list A) : list (nat * A) := enumerate_from 0 xs.

(** *** Calls into the environment *)

Definition call_platform_system : M pystr :=
  λ s, (Ok (platform_system E (world s)), s).

Definition call_os_path_exists (path : pystr) : M bool :=
  λ s, (Ok (os_path_exists E path (world s)), s).

Definition basename (path : pystr) : pystr := os_path_basename E path.

Definition call_get_tesseract_version : M unit :=
  λ s, let '(r, w) := get_tesseract_version E (tesseract_cmd s) (world s) in
       (of_status r, log (EvProbe (bool_decide (r = None))) (set_world w s)).

Definition call_Image_open (path : pystr) : M image :=
  λ s, let '(r, w) := Image_open E path (world s) in
       (of_sum r, log (EvOpen path (match r with inr _ => true | inl _ => false end)) (set_world w s)).

Definition call_image_to_string (img : image) : M pystr :=
  λ s, let '(r, w) := image_to_string E (tesseract_cmd s) img (world s) in
       (of_sum r,
        log (EvOcr (match r with inr t => Some t | inl _ => None end)) (set_world w s)).

Definition call_callback (cb : Callback) (i total : nat) (label : pystr) : M unit :=
  λ s, let '(r, w) := cb i total label (world s) in
       (of_status r, log (EvProgress i total label) (set_world w s)).

Definition print (line : pystr) : M unit := λ s, (Ok tt, log (EvPrint line) s).

Definition call_open_w (path : pystr) : M unit :=
  λ s, let '(r, w) := open_w E path (world s) in
       (of_status r, log (EvOpenW path (bool_decide (r = None))) (set_world w s)).

Definition call_json_dump (path : pystr) (d : pydict) : M unit :=
  λ s, let text := json_dumps d in
       let '(r, w) := write_close E path text (world s) in
       (of_status r, log (EvDump path text (bool_decide (r = None))) (set_world w s)).

(** *** class BatchOCR *)

Definition truthy (cmd : option pystr) : bool :=
  match cmd with
  | Some (_ :: _) => true
  | _ => false
  end.

(** Common installation paths on Windows. *)
Definition possible_paths : list pystr :=
  [ py "C:\Program Files\Tesseract-OCR\tesseract.exe";
    py "C:\Program Files (x86)\Tesseract-OCR\tesseract.exe" ].

(** [for path in paths: if os.path.exists(path): tesseract_cmd = path; break] *)
Fixpoint first_existing (paths : list pystr) (cmd : option pystr)
  : M (option pystr) :=
  match paths with
  | [] => ret cmd
  | path :: paths' =>
      found ← call_os_path_exists path;
      if found then ret (Some path) else first_existing paths' cmd
  end.

Definition __init__ (self : loc) (cmd : option pystr) : M unit :=
  cmd ← (if negb (truthy cmd) then
            system ← call_platform_system;
            if bool_decide (system = py "Windows")
            then first_existing possible_paths cmd
            else ret cmd
          else ret cmd);
  (if truthy cmd
   then λ s, (Ok tt, set_tesseract_cmd (default [] cmd) s)
   else ret tt);;
  try_except
    (call_get_tesseract_version;;
     set_tesseract_available self true)
    (λ _, set_tesseract_available self false).

(** [BatchOCR(tesseract_cmd)]: a new object, initialised. *)
Definition BatchOCR (cmd : option pystr) : M loc :=
  self ← alloc (PyBatchOCR None);
  __init__ self cmd;;
  ret self.

Definition unavailable_msg : pystr :=
  py "Tesseract OCR is not installed or not in your PATH. "
  ++ py "Please install Tesseract OCR and make sure it's in your PATH, "
  ++ py "or provide the path to the executable when initializing BatchOCR. "
  ++ py "See README file for installation instructions.".

Definition EngineUnavailable : exn := PyExn RuntimeError unavailable_msg.

Definition process_image (self : loc) (image_path : pystr) : M pystr :=
  available ← get_tesseract_available self;
  if negb available then raise EngineUnavailable
  else
    try_except
      (img ← call_Image_open image_path;
       text ← call_image_to_string img;
       ret (strip text))
      (λ e,
         print (py "Error processing " ++ image_path ++ py ": " ++ exn_str e);;
         ret []).

Definition process_batch (self image_paths : loc) (callback : option Callback)
  : M loc :=
  results ← alloc (PyDict []);
  total ← len image_paths;
  paths ← iter image_paths;
  for_each (enumerate paths) (λ '(i, path),
    (match callback with
     | Some cb => call_callback cb i total (basename path)
     | None => ret tt
     end);;
    text ← process_image self path;
    setitem results path text);;
  ret results.

Definition save_to_json (self results : loc) (output_path : pystr) : M bool :=
  try_except
    (kvs ← items results;
     formatted_results ← alloc (PyDict []);
     for_each kvs (λ '(k, v), setitem formatted_results (basename k) v);;
     call_open_w output_path;;
     d ← items formatted_results;
     call_json_dump output_path d;;
     ret true)
    (λ e,
       print (py "Error saving results to " ++ output_path ++ py ": " ++ exn_str e);;
       ret false).

End BatchOCR.

(** ** Reading a trace *)

(** The progress notifications, as [(index, total, label)]. *)
Fixpoint progress_events (evs : list event) : list (nat * nat * pystr) :=
  match evs with
  | [] => []
  | EvProgress i total label :: evs' => (i, total, label) :: progress_events evs'
  | _ :: evs' => progress_events evs'
  end.

(** The recognition attempts: the image that was opened and the text the
    engine returned for it, [None] when opening or recognition failed. *)
Fixpoint attempts (evs : list event) : list (pystr * option pystr) :=
  match evs with
  | [] => []
  | EvOpen path false :: evs' => (path, None) :: attempts evs'
  | EvOpen path true :: EvOcr r :: evs' => (path, r) :: attempts evs'
  | _ :: evs' => attempts evs'
  end.

(** Notifications and starts of attempts, in the order they happened. *)
Inductive step :=
| Announce (i total : nat) (label : pystr)
| Attempt (path : pystr).


(** The availability probes. *)
Fixpoint probes (evs : list event) : list bool :=
  match evs with
  | [] => []
  | EvProbe ok :: evs' => ok :: probes evs'
  | _ :: evs' => probes evs'
  end.


(** What [process_image] returns for an attempt. *)
Definition text_of (o : option pystr) : pystr :=
  match o with
  | Some t => strip t
  | None => []
  end.

(** ** The methods, read off the environment

    What a call does when the receiver and the arguments are what the
    annotations say, as functions of the world: the reference points of
    the run lemmas below. *)

Section Runs.

Context {W image : Type}.
Variable E : Env W image.

(** The line [process_image] prints when an attempt fails. *)
Definition error_line (path : pystr) (e : exn) : pystr :=
  py "Error processing " ++ path ++ py ": " ++ exn_str e.

(** One attempt on [path], read off the environment: the engine's text,
    the world afterwards, the events. *)
Definition recognise (cmd path : pystr) (w : W)
  : option pystr * W * list event :=
  match Image_open E path w with
  | (inl e, w1) => (None, w1, [EvOpen path false; EvPrint (error_line path e)])
  | (inr img, w1) =>
      match image_to_string E cmd img w1 with
      | (inl e, w2) =>
          (None, w2, [EvOpen path true; EvOcr None; EvPrint (error_line path e)])
      | (inr t, w2) => (Some t, w2, [EvOpen path true; EvOcr (Some t)])
      end
  end.

(** An observer that returns normally, whatever it is called with; no
    observer at all is one. *)
Definition returns (cb : option (Callback (W := W))) : Prop :=
  ∀ f i total label w, cb = Some f → (f i total label w).1 = None.

(** The iterations of the loop of [process_batch] from index [i] on, for
    an observer that returns. *)
Fixpoint batch_run (cb : option (Callback (W := W))) (total : nat) (cmd : pystr)
    (i : nat) (paths : list pystr) (w : W)
  : list (option pystr) * W * list event :=
  match paths with
  | [] => ([], w, [])
  | path :: paths' =>
      let w0 := match cb with
                | Some f => (f i total (basename E path) w).2
                | None => w
                end in
      let evs0 := match cb with
                  | Some _ => [EvProgress i total (basename E path)]
                  | None => []
                  end in
      let r1 := recognise cmd path w0 in
      let r2 := batch_run cb total cmd (S i) paths' r1.1.2 in
      (r1.1.1 :: r2.1.1, r2.1.2, evs0 ++ r1.2 ++ r2.2)
  end.

(** The body of the loop of [process_batch]. *)
Definition loop_body (self results : loc) (cb : option (Callback (W := W)))
    (total : nat) : nat * pystr → M unit :=
  λ '(i, path),
    bind (match cb with
          | Some f => call_callback f i total (basename E path)
          | None => ret tt
          end)
      (λ _, bind (process_image E self path)
                 (λ text, setitem results path text)).



(** The pairs the comprehension of [save_to_json] assigns. *)
Definition renamed (d : pydict) : list (pystr * pystr) :=
  (λ kv, (basename E kv.1, kv.2)) <$> d.

(** [formatted_results] for the results [d]. *)
Definition formatted (d : pydict) : pydict := dict_update [] (renamed d).

(** The line [save_to_json] prints when saving fails. *)
Definition save_error_line (path : pystr) (e : exn) : pystr :=
  py "Error saving results to " ++ path ++ py ": " ++ exn_str e.

(** What [save_to_json] does on a dictionary, by the cases of the two
    calls that can fail. *)
Definition save_run (d : pydict) (output_path : pystr) (w : W)
  : bool * W * list event :=
  match open_w E output_path w with
  | (Some e, w1) =>
      (false, w1,
       [EvOpenW output_path false; EvPrint (save_error_line output_path e)])
  | (None, w1) =>
      let text := json_dumps (formatted d) in
      match write_close E output_path text w1 with
      | (Some e, w2) =>
          (false, w2,
           [EvOpenW output_path true; EvDump output_path text false;
            EvPrint (save_error_line output_path e)])
      | (None, w2) =>
          (true, w2, [EvOpenW output_path true; EvDump output_path text true])
      end
  end.

(** The first of [paths] that exists in the world [w], else [cmd]. *)
Fixpoint first_existing_in (w : W) (paths : list pystr) (cmd : option pystr)
  : option pystr :=
  match paths with
  | [] => cmd
  | path :: paths' =>
      if os_path_exists E path w then Some path
      else first_existing_in w paths' cmd
  end.

(** The value of the local [tesseract_cmd] after the discovery step. *)
Definition discovered_cmd (cmd : option pystr) (w : W) : option pystr :=
  if negb (truthy cmd) then
    if bool_decide (platform_system E w = py "Windows")
    then first_existing_in w possible_paths cmd
    else cmd
  else cmd.

(** The value of [pytesseract.pytesseract.tesseract_cmd] at the probe. *)
Definition configured_cmd (cmd : option pystr) (s : State W) : pystr :=
  let c := discovered_cmd cmd (world s) in
  if truthy c then default [] c else tesseract_cmd s.

End Runs.

(** ** A concrete environment

    A POSIX machine on which Tesseract answers under the command
    [tesseract] only; the world is a clock that every call advances, and
    recognised text carries the time of the call, so that two attempts on
    one file give different texts. *)

Fixpoint rfind_from (c : N) (s : pystr) (i : nat) (last : Z) : Z :=
  match s with
  | [] => last
  | x :: s' => rfind_from c s' (S i) (if (x =? c)%N then Z.of_nat i else last)
  end.

(** [s.rfind(c)] *)
Definition rfind (c : N) (s : pystr) : Z := rfind_from c s 0 (-1).

(** [posixpath.basename]: [i = p.rfind('/') + 1; return p[i:]]. *)
Definition posix_basename (p : pystr) : pystr :=
  drop (Z.to_nat (rfind 47 p + 1)) p.

Definition demo_env : Env nat pystr := {|
  platform_system := λ _, py "Linux";
  os_path_exists := λ _ _, false;
  os_path_basename := posix_basename;
  get_tesseract_version := λ cmd w,
    if bool_decide (cmd = py "tesseract") then (None, S w)
    else (Some (PyExn ExternalError (py "tesseract is not installed")), S w);
  Image_open := λ path w,
    if bool_decide (posix_basename path = py "corrupt.png")
    then (inl (PyExn ExternalError (py "cannot identify image file")), S w)
    else (inr path, S w);
  image_to_string := λ _ img w,
    (inr (py "  text of " ++ posix_basename img ++ py " at "
          ++ [(48 + N.of_nat w)%N; 10%N]), S w);
  open_w := λ path w,
    if bool_decide (path = [])
    then (Some (PyExn ExternalError (py "No such file or directory")), S w)
    else (None, S w);
  write_close := λ _ _ w, (None, S w);
|}.

(** An observer that only lets time pass. *)
Definition tick : Callback (W := nat) := λ _ _ _ w, (None, S w).

(** An observer that raises when it is told of item [k]. *)
Definition stop_at (k : nat) : Callback (W := nat) :=
  λ i _ _ w,
    if bool_decide (i = k)
    then (Some (PyExn ExternalError (py "observer failed")), S w)
    else (None, S w).

(** An engine, available or not, and a list of paths at address 1. *)
Definition demo_state (available : bool) (paths : list pystr) : State nat :=
  mkState [PyBatchOCR (Some available); PyList paths] (py "tesseract") 0 [].

(** Results at address 1. *)
Definition demo_results (d : pydict) : State nat :=
  mkState [PyBatchOCR (Some true); PyDict d] (py "tesseract") 0 [].

(** ** Further readers of a trace *)

(** The events of recognition: notifying the observer, opening an image,
    recognising it, printing. *)
Definition recognition_event (ev : event) : bool :=
  match ev with
  | EvProgress _ _ _ | EvOpen _ _ | EvOcr _ | EvPrint _ => true
  | EvProbe _ | EvOpenW _ _ | EvDump _ _ _ => false
  end.

(** The events of saving: opening for writing, writing, printing. *)
Definition saving_event (ev : event) : bool :=
  match ev with
  | EvOpenW _ _ | EvDump _ _ _ | EvPrint _ => true
  | EvProbe _ | EvProgress _ _ _ | EvOpen _ _ | EvOcr _ => false
  end.

(** The paths of the files opened for writing or written. *)
Fixpoint disk_writes (evs : list event) : list pystr :=
  match evs with
  | [] => []
  | EvOpenW path _ :: evs' => path :: disk_writes evs'
  | EvDump path _ _ :: evs' => path :: disk_writes evs'
  | _ :: evs' => disk_writes evs'
  end.

(** ** A second concrete environment

    A Windows machine on which only the second of the common
    installation paths exists, and on which Tesseract answers under that
    path only. *)
Definition windows_env : Env nat pystr := {|
  platform_system := λ _, py "Windows";
  os_path_exists := λ path _,
    bool_decide (path = py "C:\Program Files (x86)\Tesseract-OCR\tesseract.exe");
  os_path_basename := posix_basename;
  get_tesseract_version := λ cmd w,
    if bool_decide (cmd = py "C:\Program Files (x86)\Tesseract-OCR\tesseract.exe")
    then (None, S w)
    else (Some (PyExn ExternalError (py "tesseract is not installed")), S w);
  Image_open := λ path w, (inr path, S w);
  image_to_string := λ _ img w, (inr img, S w);
  open_w := λ _ w, (None, S w);
  write_close := λ _ _ w, (None, S w);
|}.

(** ** [config.py]: the settings file

    The settings are a JSON document in [CONFIG_FILE].  What [json.load]
    returns is any JSON value; the functions below are written for a
    dictionary and meet the other values through Python's [in], item
    assignment and [.get]. *)

Module Config.

(** The values [json.load] returns.  A number is kept as its literal. *)
Inductive json :=
| JNull
| JBool (b : bool)
| JNum (literal : pystr)
| JStr (s : pystr)
| JList (l : list json)
| JDict (d : list (pystr * json)).

(** Dictionaries with [str] keys, in insertion order. *)
Fixpoint dict_set (k : pystr) (v : json) (d : list (pystr * json))
  : list (pystr * json) :=
  match d with
  | [] => [(k, v)]
  | (k', v') :: d' =>
      if decide (k' = k) then (k, v) :: d' else (k', v') :: dict_set k v d'
  end.

Fixpoint dict_get (d : list (pystr * json)) (k : pystr) : option json :=
  match d with
  | [] => None
  | (k', v') :: d' => if decide (k' = k) then Some v' else dict_get d' k
  end.

Fixpoint startswith (prefix s : pystr) : bool :=
  match prefix, s with
  | [], _ => true
  | a :: prefix', b :: s' => (a =? b)%N && startswith prefix' s'
  | _ :: _, [] => false
  end.

(** [needle in hay] for two strings. *)
Fixpoint contains (needle hay : pystr) : bool :=
  startswith needle hay
  || match hay with
     | [] => false
     | _ :: hay' => contains needle hay'
     end.

Definition is_str (key : pystr) (v : json) : bool :=
  match v with
  | JStr s => bool_decide (s = key)
  | _ => false
  end.

Definition TypeError_ : exn := PyExn TypeError (py "TypeError").
Definition AttributeError_ : exn := PyExn AttributeError (py "AttributeError").

(** [key in config], for a [str] key.  The text of the interpreter's
    own exceptions is not modelled. *)
Definition py_in (key : pystr) (config : json) : exn + bool :=
  match config with
  | JDict d => inr (bool_decide (key ∈ d.*1))
  | JList l => inr (existsb (is_str key) l)
  | JStr s => inr (contains key s)
  | JNull | JBool _ | JNum _ => inl TypeError_
  end.

(** [config[key] = value], for a [str] key. *)
Definition py_setitem (config : json) (key : pystr) (value : json)
  : exn + json :=
  match config with
  | JDict d => inr (JDict (dict_set key value d))
  | _ => inl TypeError_
  end.

(** [config.get(key, default)] *)
Definition py_get (config : json) (key : pystr) (default : json)
  : exn + json :=
  match config with
  | JDict d => inr (from_option id default (dict_get d key))
  | _ => inl AttributeError_
  end.

Definition DEFAULT_CONFIG : list (pystr * json) :=
  [ (py "tesseract_path", JNull);
    (py "last_output_dir", JNull);
    (py "last_input_dir", JNull) ].

(** Calls that leave the module, each with what it returned. *)
Inductive cfg_event :=
| Makedirs (path : pystr) (ok : bool)          (* os.makedirs(path) *)
| Load (path : pystr) (r : option json)        (* open(path, 'r'); json.load(f) *)
| Dump (path : pystr) (v : json) (ok : bool)   (* open(path, 'w'); json.dump(v, f, indent=4) *)
| Print (line : pystr).                        (* print(line) *)

(** What the module calls and does not define.  [CONFIG_DIR] and
    [CONFIG_FILE] are computed once, when the module is imported. *)
Record Env (W : Type) := {
  CONFIG_DIR : pystr;
  CONFIG_FILE : pystr;
  os_path_exists : pystr → W → bool;
  os_makedirs : pystr → W → option exn * W;
  json_load : pystr → W → (exn + json) * W;
  json_dump : pystr → json → W → option exn * W;
}.
Arguments CONFIG_DIR {W}.
Arguments CONFIG_FILE {W}.
Arguments os_path_exists {W}.
Arguments os_makedirs {W}.
Arguments json_load {W}.
Arguments json_dump {W}.

Record State (W : Type) := mkState {
  world : W;
  trace : list cfg_event;     (* oldest first *)
}.
Arguments mkState {W}.
Arguments world {W}.
Arguments trace {W}.

Definition emitted {W} (s s' : State W) : list cfg_event :=
  drop (length (trace s)) (trace s').

(** The settings written, in order. *)
Fixpoint dumps (evs : list cfg_event) : list json :=
  match evs with
  | [] => []
  | Dump _ v _ :: evs' => v :: dumps evs'
  | _ :: evs' => dumps evs'
  end.

(** What was read, in order. *)
Fixpoint loads (evs : list cfg_event) : list (option json) :=
  match evs with
  | [] => []
  | Load _ r :: evs' => r :: loads evs'
  | _ :: evs' => loads evs'
  end.

Section Functions.

Context {W : Type}.
Variable E : Env W.

Definition M (A : Type) : Type := State W → outcome A * State W.

Definition ret {A} (a : A) : M A := λ s, (Ok a, s).

Definition bind {A B} (m : M A) (k : A → M B) : M B :=
  λ s, match m s with
       | (Ok a, s') => k a s'
       | (Raise e, s') => (Raise e, s')
       end.

Definition try_except {A} (m : M A) (h : exn → M A) : M A :=
  λ s, match m s with
       | (Ok a, s') => (Ok a, s')
       | (Raise e, s') => h e s'
       end.

(** The result of an operation of the interpreter. *)
Definition lift {A} (r : exn + A) : M A := λ s, (of_sum r, s).

Declare Scope cfg_scope.
Notation "x ← y ; z" := (bind y (λ x, z))
  (at level 20, y at level 100, z at level 200, only parsing) : cfg_scope.
Notation "y ;; z" := (bind y (λ _, z))
  (at level 100, z at level 200, only parsing, right associativity) : cfg_scope.
Local Open Scope cfg_scope.

Definition log (ev : cfg_event) (w : W) (s : State W) : State W :=
  mkState w (trace s ++ [ev]).

Definition call_exists (path : pystr) : M bool :=
  λ s, (Ok (os_path_exists E path (world s)), s).

Definition call_makedirs (path : pystr) : M unit :=
  λ s, let '(r, w) := os_makedirs E path (world s) in
       (of_status r, log (Makedirs path (bool_decide (r = None))) w s).

Definition call_json_load (path : pystr) : M json :=
  λ s, let '(r, w) := json_load E path (world s) in
       (of_sum r,
        log (Load path (match r with inr v => Some v | inl _ => None end)) w s).

Definition call_json_dump (path : pystr) (v : json) : M unit :=
  λ s, let '(r, w) := json_dump E path v (world s) in
       (of_status r, log (Dump path v (bool_decide (r = None))) w s).

Definition print (line : pystr) : M unit :=
  λ s, (Ok tt, log (Print line) (world s) s).

Definition ensure_config_dir : M unit :=
  found ← call_exists (CONFIG_DIR E);
  if negb found then
    try_except
      (call_makedirs (CONFIG_DIR E))
      (λ e, print (py "Warning: Could not create config directory: " ++ exn_str e))
  else ret tt.

(** [for key in defaults: if key not in config: config[key] = defaults[key]] *)
Fixpoint fill_missing (defaults : list (pystr * json)) (config : json)
  : M json :=
  match defaults with
  | [] => ret config
  | (key, value) :: defaults' =>
      present ← lift (py_in key config);
      config ← (if negb present then lift (py_setitem config key value)
                else ret config);
      fill_missing defaults' config
  end.

Definition load_config : M json :=
  ensure_config_dir;;
  found ← call_exists (CONFIG_FILE E);
  if negb found then ret (JDict DEFAULT_CONFIG)
  else
    try_except
      (config ← call_json_load (CONFIG_FILE E);
       config ← fill_missing DEFAULT_CONFIG config;
       ret config)
      (λ e,
         print (py "Warning: Could not load config file: " ++ exn_str e);;
         ret (JDict DEFAULT_CONFIG)).

Definition save_config (config : json) : M bool :=
  ensure_config_dir;;
  try_except
    (call_json_dump (CONFIG_FILE E) config;;
     ret true)
    (λ e,
       print (py "Warning: Could not save config file: " ++ exn_str e);;
       ret false).

Definition update_config (key : pystr) (value : json) : M bool :=
  config ← load_config;
  config ← lift (py_setitem config key value);
  save_config config.

Definition get_config_value (key : pystr) (default : json) : M json :=
  config ← load_config;
  lift (py_get config key default).

(** *** The functions, read off the environment *)

(** What [ensure_config_dir] does in the world [w]: the world afterwards
    and the events. *)
Definition ensure_run (w : W) : W * list cfg_event :=
  if os_path_exists E (CONFIG_DIR E) w then (w, [])
  else
    match os_makedirs E (CONFIG_DIR E) w with
    | (None, w1) => (w1, [Makedirs (CONFIG_DIR E) true])
    | (Some e, w1) =>
        (w1, [Makedirs (CONFIG_DIR E) false;
              Print (py "Warning: Could not create config directory: "
                     ++ exn_str e)])
    end.

(** The dictionary [d] with the missing entries of [defaults] added. *)
Definition completed (defaults d : list (pystr * json)) : list (pystr * json) :=
  foldl (λ acc kv, if bool_decide (kv.1 ∈ acc.*1) then acc
                   else dict_set kv.1 kv.2 acc) d defaults.

(** The loop of [load_config] on the value [config], without the
    state: the value it ends with, or the exception that stops it. *)
Fixpoint filled (defaults : list (pystr * json)) (config : json)
  : exn + json :=
  match defaults with
  | [] => inr config
  | (key, value) :: defaults' =>
      match py_in key config with
      | inl e => inl e
      | inr true => filled defaults' config
      | inr false =>
          match py_setitem config key value with
          | inl e => inl e
          | inr config' => filled defaults' config'
          end
      end
  end.

Definition load_warning (e : exn) : pystr :=
  py "Warning: Could not load config file: " ++ exn_str e.

Definition save_warning (e : exn) : pystr :=
  py "Warning: Could not save config file: " ++ exn_str e.

(** What [load_config] does in the world [w]: the value returned, the
    world afterwards and the events. *)
Definition load_run (w : W) : json * W * list cfg_event :=
  let '(w0, evs0) := ensure_run w in
  if os_path_exists E (CONFIG_FILE E) w0 then
    match json_load E (CONFIG_FILE E) w0 with
    | (inl e, w1) =>
        (JDict DEFAULT_CONFIG, w1,
         evs0 ++ [Load (CONFIG_FILE E) None; Print (load_warning e)])
    | (inr v, w1) =>
        match filled DEFAULT_CONFIG v with
        | inr v' => (v', w1, evs0 ++ [Load (CONFIG_FILE E) (Some v)])
        | inl e =>
            (JDict DEFAULT_CONFIG, w1,
             evs0 ++ [Load (CONFIG_FILE E) (Some v); Print (load_warning e)])
        end
    end
  else (JDict DEFAULT_CONFIG, w0, evs0).

(** What [save_config config] does in the world [w]. *)
Definition save_run (config : json) (w : W) : bool * W * list cfg_event :=
  let '(w0, evs0) := ensure_run w in
  match json_dump E (CONFIG_FILE E) config w0 with
  | (None, w1) => (true, w1, evs0 ++ [Dump (CONFIG_FILE E) config true])
  | (Some e, w1) =>
      (false, w1,
       evs0 ++ [Dump (CONFIG_FILE E) config false; Print (save_warning e)])
  end.

End Functions.

(** An idealised file system: the directories that exist and the JSON
    documents stored in files.  Every call succeeds, except reading a
    file that holds no document. *)
Record disk := mkDisk {
  dirs : list pystr;
  files : list (pystr * json);
}.

Definition memory_env : Env disk := {|
  CONFIG_DIR := py "/home/u/.batch_image_ocr";
  CONFIG_FILE := py "/home/u/.batch_image_ocr/config.json";
  os_path_exists := λ path w,
    bool_decide (path ∈ dirs w) || bool_decide (path ∈ (files w).*1);
  os_makedirs := λ path w, (None, mkDisk (path :: dirs w) (files w));
  json_load := λ path w,
    match dict_get (files w) path with
    | Some v => (inr v, w)
    | None => (inl (PyExn ExternalError (py "No such file or directory")), w)
    end;
  json_dump := λ path v w, (None, mkDisk (dirs w) (dict_set path v (files w)));
|}.

End Config.

(** ** [gui.py]: the selection, the processing run, the engine path

    The methods of [OCRApplication] that hold logic.  The Python side of
    the application is the record [App]; Tk is an external collaborator:
    every call into a widget, a dialog or the scheduler is an event, and
    what Tk is asked is answered by the environment.  Widget construction
    and layout, the clipboard and the body of [_update_progress] (a
    floating-point percentage and three Tk calls) are not modelled. *)

Module Gui.

(** The controls that [_set_ui_state] switches. *)
Inductive widget :=
| add_btn | add_folder_btn | paste_btn | clear_btn
| output_btn | display_output_checkbox | tesseract_btn | process_btn.

Inductive gui_event :=
| ListInsert (label : pystr)              (* self.file_list.insert(tk.END, label) *)
| ListClear                               (* self.file_list.delete(0, tk.END) *)
| ShowInfo (title message : pystr)        (* messagebox.showinfo *)
| ShowWarning (title message : pystr)     (* messagebox.showwarning *)
| ShowError (title message : pystr)       (* messagebox.showerror *)
| SetState (w : widget) (enabled : bool)  (* w['state'] = tk.NORMAL / tk.DISABLED *)
| TesseractVarSet (text : pystr)          (* self.tesseract_path_var.set(text) *)
| ThreadStart                             (* Thread(target=self._run_processing).start() *)
| AfterDisplay (text : pystr)             (* root.after(0, lambda: self._display_ocr_output(text)) *)
| AfterComplete (success display_in_gui : bool)
                                          (* root.after(0, lambda: self._processing_complete(..)) *)
| AfterError.                             (* root.after(0, lambda: self._processing_error(str(e))) *)

(** What the methods ask of Tk, of [os] and of [str]. *)
Record Toolkit (W : Type) := {
  askopenfilenames : pystr → W → list pystr * W;   (* by initialdir *)
  askopenfilename : W → pystr * W;
  os_walk : pystr → W → list (pystr * list pystr); (* (root, files) *)
  os_path_join : pystr → pystr → pystr;
  os_path_dirname : pystr → pystr;
  os_path_isdir : pystr → W → bool;
  os_path_isfile : pystr → W → bool;
  str_lower : pystr → pystr;
  splitlist : pystr → list pystr;
  display_output_var_get : W → bool;
  update_progress : nat → nat → pystr → W → W;     (* the Tk calls of _update_progress *)
}.
Arguments askopenfilenames {W}.
Arguments askopenfilename {W}.
Arguments os_walk {W}.
Arguments os_path_join {W}.
Arguments os_path_dirname {W}.
Arguments os_path_isdir {W}.
Arguments os_path_isfile {W}.
Arguments str_lower {W}.
Arguments splitlist {W}.
Arguments display_output_var_get {W}.
Arguments update_progress {W}.

(** The attributes of the application object. *)
Record App := mkApp {
  selected_files : nat;            (* the address of the list *)
  output_path : option pystr;
  ocr_processor : nat;             (* the address of the BatchOCR object *)
  tesseract_path : option pystr;
  last_input_dir : pystr;
}.

Record Session (W : Type) := mkSession {
  base : State W;                          (* objects, world, events of batch_ocr *)
  cfg_trace : list Config.cfg_event;       (* events of config *)
  gui_trace : list gui_event;              (* calls into Tk, oldest first *)
  app : App;
}.
Arguments mkSession {W}.
Arguments base {W}.
Arguments cfg_trace {W}.
Arguments gui_trace {W}.
Arguments app {W}.

Definition gui_emitted {W} (s s' : Session W) : list gui_event :=
  drop (length (gui_trace s)) (gui_trace s').

Definition image_extensions : list pystr :=
  [py ".png"; py ".jpg"; py ".jpeg"; py ".bmp"; py ".tiff"; py ".tif"; py ".gif"].

(** [s.endswith(suffix)] *)
Definition endswith (s suffix : pystr) : bool :=
  Config.startswith (reverse suffix) (reverse s).

(** [s.endswith(image_extensions)], for the tuple of extensions. *)
Definition endswith_image_extension (s : pystr) : bool :=
  existsb (endswith s) image_extensions.

(** The labels inserted into the list box, in order, since it was last
    cleared. *)
Definition listbox (evs : list gui_event) : list pystr :=
  foldl (λ acc ev, match ev with
                   | ListInsert label => acc ++ [label]
                   | ListClear => []
                   | _ => acc
                   end) [] evs.

(** The messages shown as warnings. *)
Fixpoint warnings (evs : list gui_event) : list (pystr * pystr) :=
  match evs with
  | [] => []
  | ShowWarning title message :: evs' => (title, message) :: warnings evs'
  | _ :: evs' => warnings evs'
  end.

Section Methods.

Context {W image : Type}.
Variable E : Env W image.
Variable CE : Config.Env W.
Variable TK : Toolkit W.

(** A method body: runs in a session, returns or raises. *)
Definition G (A : Type) : Type := Session W → outcome A * Session W.

Definition gret {A} (a : A) : G A := λ s, (Ok a, s).

Definition gbind {A B} (m : G A) (k : A → G B) : G B :=
  λ s, match m s with
       | (Ok a, s') => k a s'
       | (Raise e, s') => (Raise e, s')
       end.

Definition gtry {A} (m : G A) (h : exn → G A) : G A :=
  λ s, match m s with
       | (Ok a, s') => (Ok a, s')
       | (Raise e, s') => h e s'
       end.

Declare Scope gui_scope.
Notation "x ← y ; z" := (gbind y (λ x, z))
  (at level 20, y at level 100, z at level 200, only parsing) : gui_scope.
Notation "y ;; z" := (gbind y (λ _, z))
  (at level 100, z at level 200, only parsing, right associativity) : gui_scope.
Local Open Scope gui_scope.

(** A call into [batch_ocr] or on an object of the store. *)
Definition of_batch {A} (m : M A) : G A :=
  λ s, let '(o, b) := m (base s) in
       (o, mkSession b (cfg_trace s) (gui_trace s) (app s)).

(** A call into [config]: it acts on the same world. *)
Definition of_config {A} (m : Config.M A) : G A :=
  λ s, let '(o, c) := m (Config.mkState (world (base s)) (cfg_trace s)) in
       (o, mkSession (set_world (Config.world c) (base s)) (Config.trace c)
             (gui_trace s) (app s)).

(** A call into Tk that returns nothing of interest. *)
Definition emit (ev : gui_event) : G unit :=
  λ s, (Ok tt, mkSession (base s) (cfg_trace s) (gui_trace s ++ [ev]) (app s)).

Definition get_app : G App := λ s, (Ok (app s), s).

Definition set_app (a : App) : G unit :=
  λ s, (Ok tt, mkSession (base s) (cfg_trace s) (gui_trace s) a).

Definition ask (f : W → bool) : G bool :=
  λ s, (Ok (f (world (base s))), s).

Fixpoint gfor {A} (xs : list A) (body : A → G unit) : G unit :=
  match xs with
  | [] => gret tt
  | x :: xs' => body x;; gfor xs' body
  end.

(** [x in l], [l.append(x)] and [bool(l)] for a list [l]. *)
Definition list_contains (l : nat) (x : pystr) : M bool :=
  λ s : State W, match heap s !! l with
       | Some (PyList xs) => (Ok (bool_decide (x ∈ xs)), s)
       | _ => (Raise (PyExn TypeError (py "TypeError")), s)
       end.

Definition list_append (l : nat) (x : pystr) : M unit :=
  λ s : State W, match heap s !! l with
       | Some (PyList xs) =>
           (Ok tt, set_heap (<[l := PyList (xs ++ [x])]> (heap s)) s)
       | _ => (Raise (PyExn AttributeError (py "AttributeError")), s)
       end.

Definition list_bool (l : nat) : M bool :=
  λ s : State W, match heap s !! l with
       | Some (PyList []) => (Ok false, s)
       | Some (PyDict []) => (Ok false, s)
       | _ => (Ok true, s)
       end.

(** [if p not in self.selected_files: self.selected_files.append(p);
    self.file_list.insert(tk.END, label)] *)
Definition select (p label : pystr) : G unit :=
  a ← get_app;
  present ← of_batch (list_contains (selected_files a) p);
  if negb present then
    of_batch (list_append (selected_files a) p);;
    emit (ListInsert label)
  else gret tt.

Definition _add_folder_from_path (folder_path : pystr) : G unit :=
  s0 ← (λ s, (Ok s, s));
  gfor (os_walk TK folder_path (world (base s0))) (λ '(root, files),
    gfor files (λ file,
      if endswith_image_extension (str_lower TK file) then
        let full_path := os_path_join TK root file in
        select full_path (basename E full_path)
      else gret tt)).

Definition set_last_input_dir (last_dir : pystr) : G unit :=
  a ← get_app;
  set_app (mkApp (selected_files a) (output_path a) (ocr_processor a)
             (tesseract_path a) last_dir).

Definition _add_files : G unit :=
  a ← get_app;
  files ← (λ s, let '(files, w) :=
                  askopenfilenames TK (last_input_dir a) (world (base s)) in
                (Ok files,
                 mkSession (set_world w (base s)) (cfg_trace s) (gui_trace s)
                   (app s)));
  match files with
  | [] => gret tt
  | first :: _ =>
      let last_dir := os_path_dirname TK first in
      set_last_input_dir last_dir;;
      of_config (Config.update_config CE (py "last_input_dir")
                   (Config.JStr last_dir));;
      gfor files (λ file, select file (basename E file))
  end.

Definition _clear_selection : G unit :=
  l ← of_batch (alloc (PyList []));
  a ← get_app;
  set_app (mkApp l (output_path a) (ocr_processor a) (tesseract_path a)
             (last_input_dir a));;
  emit ListClear.

Definition _drop_files (event_data : pystr) : G unit :=
  let file_paths := splitlist TK event_data in
  gfor file_paths (λ file_path,
    isdir ← ask (os_path_isdir TK file_path);
    if isdir then _add_folder_from_path file_path
    else if endswith_image_extension (str_lower TK file_path) then
      select file_path (basename E file_path)
    else
      emit (ShowWarning (py "Unsupported File Type")
              (py "Skipping non-image file: " ++ basename E file_path)));;
  match file_paths with
  | [] => gret tt
  | first_path :: _ =>
      isfile ← ask (os_path_isfile TK first_path);
      let last_dir := if isfile then os_path_dirname TK first_path
                      else first_path in
      set_last_input_dir last_dir;;
      of_config (Config.update_config CE (py "last_input_dir")
                   (Config.JStr last_dir));;
      gret tt
  end.

Definition _set_ui_state (enabled : bool) : G unit :=
  emit (SetState add_btn enabled);;
  emit (SetState add_folder_btn enabled);;
  emit (SetState paste_btn enabled);;
  emit (SetState clear_btn enabled);;
  emit (SetState output_btn enabled);;
  emit (SetState display_output_checkbox enabled);;
  emit (SetState tesseract_btn enabled);;
  emit (SetState process_btn enabled).

Definition _process_images : G unit :=
  a ← get_app;
  nonempty ← of_batch (list_bool (selected_files a));
  if negb nonempty then
    emit (ShowWarning (py "No Images")
            (py "Please select at least one image to process."))
  else
    no_output ← (if negb (truthy (output_path a))
                 then display ← ask (display_output_var_get TK);
                      gret (negb display)
                 else gret false);
    if no_output then
      emit (ShowWarning (py "No Output")
              (py "Please select an output file location or choose to display in GUI."))
    else
      _set_ui_state false;;
      emit ThreadStart.

(** [{os.path.basename(k): v for k, v in results.items()}] *)
Definition format_results (results : nat) : M (W := W) nat :=
  bind (items results) (λ kvs,
  bind (alloc (PyDict [])) (λ formatted_results,
  bind (for_each kvs (λ '(k, v), setitem formatted_results (basename E k) v))
    (λ _, ret formatted_results))).

(** [self.ocr_processor.save_to_json(results, self.output_path)].  With
    [output_path] being [None], [open] raises [TypeError] once the
    dictionary has been built. *)
Definition save_results (self results : nat) (path : option pystr)
  : M (W := W) bool :=
  match path with
  | Some output_path => save_to_json E self results output_path
  | None =>
      try_except
        (bind (format_results results) (λ _,
           raise (PyExn TypeError (py "TypeError"))))
        (λ e, bind (print (py "Error saving results to None: " ++ exn_str e))
                (λ _, ret false))
  end.

(** [self._update_progress], the observer of the run: calls into Tk, taken
    to return. *)
Definition _update_progress : Callback (W := W) :=
  λ current total filename w,
    (None, update_progress TK current total filename w).

Definition _run_processing : G unit :=
  gtry
    (a ← get_app;
     results ← of_batch (process_batch E (ocr_processor a) (selected_files a)
                           (Some _update_progress));
     display ← ask (display_output_var_get TK);
     if display then
       formatted_results ← of_batch (format_results results);
       d ← of_batch (items formatted_results);
       let output_text := json_dumps d in
       emit (AfterDisplay output_text);;
       emit (AfterComplete true true)
     else
       a ← get_app;
       success ← of_batch (save_results (ocr_processor a) results
                             (output_path a));
       emit (AfterComplete success false))
    (λ e, emit AfterError).

Definition _set_tesseract_path : G unit :=
  file ← (λ s, let '(file, w) := askopenfilename TK (world (base s)) in
               (Ok file,
                mkSession (set_world w (base s)) (cfg_trace s) (gui_trace s)
                  (app s)));
  match file with
  | [] => gret tt
  | _ :: _ =>
      a ← get_app;
      set_app (mkApp (selected_files a) (output_path a) (ocr_processor a)
                 (Some file) (last_input_dir a));;
      emit (TesseractVarSet (py "Using Tesseract at: " ++ file));;
      processor ← of_batch (BatchOCR E (Some file));
      a ← get_app;
      set_app (mkApp (selected_files a) (output_path a) processor
                 (tesseract_path a) (last_input_dir a));;
      available ← of_batch (get_tesseract_available processor);
      if available then
        of_config (Config.update_config CE (py "tesseract_path")
                     (Config.JStr file));;
        emit (ShowInfo (py "Tesseract Configured")
                (py "Tesseract OCR has been successfully configured and saved for future use."))
      else
        emit (ShowError (py "Configuration Error")
                (py "The selected file does not appear to be a valid Tesseract executable."))
  end.

(** The selection and the list box agree: the selection is a list
    without repetition, and the list box shows the basenames of its
    elements, in its order. *)
Definition synced (s : Session W) : Prop :=
  ∃ xs, heap (base s) !! selected_files (app s) = Some (PyList xs)
        ∧ NoDup xs
        ∧ listbox (gui_trace s) = basename E <$> xs.

(** The selection of a session. *)
Definition selection (s : Session W) : list pystr :=
  match heap (base s) !! selected_files (app s) with
  | Some (PyList xs) => xs
  | _ => []
  end.

(** What [select] appends, one candidate after the other, to a selection
    that starts as [xs]. *)
Definition selected_from (xs candidates : list pystr) : list pystr :=
  foldl (λ acc p, if bool_decide (p ∈ acc) then acc else acc ++ [p])
    xs candidates.

(** The paths [_add_folder_from_path] offers for selection. *)
Definition walked_images (folder_path : pystr) (w : W) : list pystr :=
  concat
    (map (λ rf : pystr * list pystr,
            map (os_path_join TK rf.1)
              (List.filter (λ file, endswith_image_extension (str_lower TK file))
                 rf.2))
       (os_walk TK folder_path w)).

(** What one step of a selection loop does: offer a path for
    selection, or warn with a title and a message. *)
Definition act (a : pystr + pystr * pystr) : G unit :=
  match a with
  | inl p => select p (basename E p)
  | inr (title, message) => emit (ShowWarning title message)
  end.

(** The paths offered and the warnings given by a list of steps. *)
Definition offered (steps : list (pystr + pystr * pystr)) : list pystr :=
  omap (λ a, match a with inl p => Some p | inr _ => None end) steps.

Definition warned (steps : list (pystr + pystr * pystr))
  : list (pystr * pystr) :=
  omap (λ a, match a with inl _ => None | inr m => Some m end) steps.

(** The steps of [_drop_files] for one dropped path. *)
Definition drop_steps (w : W) (file_path : pystr)
  : list (pystr + pystr * pystr) :=
  if os_path_isdir TK file_path w then inl <$> walked_images file_path w
  else if endswith_image_extension (str_lower TK file_path) then [inl file_path]
  else [inr (py "Unsupported File Type",
             py "Skipping non-image file: " ++ basename E file_path)].

End Methods.

(** A toolkit for the concrete environment: the file dialog offers two
    files, the folders hold three, ASCII letters are lowered, and the
    display box is ticked at even times. *)
Definition demo_toolkit : Toolkit nat := {|
  askopenfilenames := λ _ w, ([py "/in/a.png"; py "/in/b.txt"], S w);
  askopenfilename := λ w, (py "/opt/missing/tesseract", S w);
  os_walk := λ folder _, [(folder, [py "a.PNG"; py "notes.txt"; py "b.gif"])];
  os_path_join := λ a b, a ++ py "/" ++ b;
  os_path_dirname := λ p, take (Z.to_nat (rfind 47 p)) p;
  os_path_isdir := λ p _, bool_decide (p = py "/in/dir");
  os_path_isfile := λ p _, negb (bool_decide (p = py "/in/dir"));
  str_lower := map (λ c, if ((65 <=? c) && (c <=? 90))%N then (c + 32)%N else c);
  splitlist := λ data, [data];
  display_output_var_get := λ w, Nat.even w;
  update_progress := λ _ _ _ w, S w;
|}.

(** A session whose engine is available or not, with a selection. *)
Definition demo_session (available : bool) (paths : list pystr)
    (output : option pystr) : Session nat :=
  mkSession (demo_state available paths) [] (ListInsert <$> (posix_basename <$> paths))
    (mkApp 1 output 0 None (py "/in")).

(** The same over the idealised file system of [config]. *)
Definition disk_env : Env Config.disk pystr := {|
  platform_system := λ _, py "Linux";
  os_path_exists := λ path w, Config.os_path_exists Config.memory_env path w;
  os_path_basename := posix_basename;
  get_tesseract_version := λ cmd w,
    if bool_decide (cmd = py "tesseract") then (None, w)
    else (Some (PyExn ExternalError (py "tesseract is not installed")), w);
  Image_open := λ path w, (inr path, w);
  image_to_string := λ _ img w, (inr img, w);
  open_w := λ _ w, (None, w);
  write_close := λ _ _ w, (None, w);
|}.

Definition disk_toolkit : Toolkit Config.disk := {|
  askopenfilenames := λ _ w, ([py "/in/a.png"; py "/in/b.txt"], w);
  askopenfilename := λ w, (py "/opt/missing/tesseract", w);
  os_walk := λ folder _, [(folder, [py "a.PNG"; py "notes.txt"; py "b.gif"])];
  os_path_join := λ a b, a ++ py "/" ++ b;
  os_path_dirname := λ p, take (Z.to_nat (rfind 47 p)) p;
  os_path_isdir := λ p _, bool_decide (p = py "/in/dir");
  os_path_isfile := λ p _, negb (bool_decide (p = py "/in/dir"));
  str_lower := map (λ c, if ((65 <=? c) && (c <=? 90))%N then (c + 32)%N else c);
  splitlist := λ data, [data];
  display_output_var_get := λ _, false;
  update_progress := λ _ _ _ w, w;
|}.

Definition disk_session (paths : list pystr) : Session Config.disk :=
  mkSession
    (mkState [PyBatchOCR (Some true); PyList paths] (py "tesseract")
       (Config.mkDisk [] []) [])
    [] (ListInsert <$> (posix_basename <$> paths))
    (mkApp 1 None 0 None (py "/in")).

End Gui.

(** * Properties *)

(** Case analysis on the first [decide] of the goal. *)
Ltac goal_decide H :=
  match goal with
  | |- context [decide ?P] => destruct (decide P) as [H|H]
  end.

(** ** Strings *)

Lemma lstrip_split s :
  ∃ ws, s = ws ++ lstrip s ∧ Forall (λ c, isspace c = true) ws.
Proof.
  induction s as [|c s [ws [Hs Hws]]]; simpl.
  - by exists [].
  - destruct (isspace c) eqn:Hc.
    + exists (c :: ws). split; [simpl; by f_equal | by constructor].
    + by exists [].
Qed.

Lemma lstrip_head s c s' : lstrip s = c :: s' → isspace c = false.
Proof.
  induction s as [|a s IH]; simpl; [done|].
  destruct (isspace a) eqn:Ha; [done|]. by intros [= -> _].
Qed.

Lemma rstrip_split s :
  ∃ ws, s = rstrip s ++ ws ∧ Forall (λ c, isspace c = true) ws.
Proof.
  unfold rstrip. destruct (lstrip_split (reverse s)) as [ws [Hs Hws]].
  exists (reverse ws). split; [|by apply Forall_reverse].
  rewrite <- reverse_app, <- Hs. by rewrite reverse_involutive.
Qed.

Lemma rstrip_last s s' c : rstrip s = s' ++ [c] → isspace c = false.
Proof.
  unfold rstrip. intros H. apply (f_equal reverse) in H.
  rewrite reverse_involutive, reverse_snoc in H. by eapply lstrip_head.
Qed.

Lemma rstrip_lstrip_head s c s' :
  rstrip (lstrip s) = c :: s' → isspace c = false.
Proof.
  intros H. destruct (rstrip_split (lstrip s)) as [ws [Hs _]].
  rewrite H in Hs. by eapply lstrip_head.
Qed.

(** ** Dictionaries *)

Lemma dict_get_set_eq k v d : dict_get (dict_set k v d) k = Some v.
Proof.
  induction d as [|[k' v'] d IH]; simpl.
  - by rewrite decide_True.
  - destruct (decide (k' = k)) as [->|Hne]; simpl.
    + by rewrite decide_True.
    + by rewrite decide_False.
Qed.

Lemma dict_get_set_ne k k' v d :
  k ≠ k' → dict_get (dict_set k v d) k' = dict_get d k'.
Proof.
  intros Hne. induction d as [|[k0 v0] d IH]; simpl.
  - by rewrite decide_False.
  - destruct (decide (k0 = k)) as [->|Hne0]; simpl.
    + by rewrite !decide_False.
    + by rewrite IH.
Qed.

Lemma dict_keys_set k v d :
  dict_keys (dict_set k v d) =
    if decide (k ∈ dict_keys d) then dict_keys d else dict_keys d ++ [k].
Proof.
  unfold dict_keys. induction d as [|[k' v'] d IH].
  - goal_decide H; [by apply elem_of_nil in H | done].
  - cbn [dict_set].
    destruct (decide (k' = k)) as [->|Hne]; cbn [fmap list_fmap fst].
    + goal_decide H; [done | exfalso; apply H, list_elem_of_here].
    + fold (@fmap list _ _ _ (@fst pystr pystr) (dict_set k v d)).
      fold (@fmap list _ _ _ (@fst pystr pystr) d).
      rewrite IH.
      destruct (decide (k ∈ d.*1)) as [Hin|Hnin].
      * goal_decide H; [done | exfalso; by apply H, list_elem_of_further].
      * goal_decide H; [|done].
        apply elem_of_cons in H as [->|H]; done.
Qed.

Lemma dict_get_None d k : dict_get d k = None ↔ k ∉ dict_keys d.
Proof.
  unfold dict_keys. induction d as [|[k' v'] d IH]; simpl.
  - split; [intros _; apply not_elem_of_nil | done].
  - destruct (decide (k' = k)) as [->|Hne].
    + split; [done | intros H; exfalso; apply H, list_elem_of_here].
    + rewrite IH. rewrite not_elem_of_cons. naive_solver.
Qed.

Lemma dict_update_snoc d kvs k v :
  dict_update d (kvs ++ [(k, v)]) = dict_set k v (dict_update d kvs).
Proof. unfold dict_update. by rewrite foldl_snoc. Qed.

Lemma dict_update_cons d kvs k v :
  dict_update d ((k, v) :: kvs) = dict_update (dict_set k v d) kvs.
Proof. done. Qed.

(** The value of a key is the one assigned last. *)
Lemma dict_get_update_last d kvs j k v :
  kvs !! j = Some (k, v) →
  (∀ j' v', j < j' → kvs !! j' ≠ Some (k, v')) →
  dict_get (dict_update d kvs) k = Some v.
Proof.
  revert j. induction kvs as [|[k0 v0] kvs IH] using rev_ind; intros j Hj Hlast.
  - done.
  - rewrite dict_update_snoc.
    destruct (decide (j = length kvs)) as [->|Hne].
    + rewrite lookup_app_r, Nat.sub_diag in Hj by lia. simpl in Hj.
      injection Hj as -> ->. apply dict_get_set_eq.
    + assert (j < length kvs) as Hlt.
      { apply lookup_lt_Some in Hj. rewrite length_app in Hj. simpl in Hj. lia. }
      rewrite lookup_app_l in Hj by done.
      assert (k0 ≠ k) as Hk.
      { intros ->. apply (Hlast (length kvs) v0 Hlt).
        by rewrite lookup_app_r, Nat.sub_diag by lia. }
      rewrite dict_get_set_ne by done.
      apply (IH j Hj). intros j' v' Hlt' Hj'.
      apply (Hlast j' v' Hlt'). by rewrite lookup_app_l by (by eapply lookup_lt_Some).
Qed.

(** A key that is never assigned keeps its value. *)
Lemma dict_get_update_notin d kvs k :
  k ∉ kvs.*1 → dict_get (dict_update d kvs) k = dict_get d k.
Proof.
  revert d. induction kvs as [|[k0 v0] kvs IH]; intros d Hk; [done|].
  simpl in Hk. apply not_elem_of_cons in Hk as [Hne Hk].
  rewrite dict_update_cons, IH by done. by apply dict_get_set_ne.
Qed.

Lemma filter_all {A} (P : A → Prop) `{!∀ x, Decision (P x)} (l : list A) :
  Forall P l → filter P l = l.
Proof.
  induction 1 as [|x l Hx Hl IH]; [done|].
  by rewrite filter_cons_True, IH.
Qed.


Lemma first_occurrences_NoDup l : NoDup (first_occurrences l).
Proof.
  induction l as [|a l IH]; simpl; [constructor|].
  constructor.
  - rewrite list_elem_of_filter. naive_solver.
  - by apply NoDup_filter.
Qed.


Lemma dict_keys_update d kvs :
  dict_keys (dict_update d kvs) =
    dict_keys d ++ filter (λ k, k ∉ dict_keys d) (first_occurrences kvs.*1).
Proof.
  revert d. induction kvs as [|[k v] kvs IH]; intros d.
  - simpl. by rewrite filter_nil, app_nil_r.
  - rewrite dict_update_cons, IH, dict_keys_set. simpl.
    destruct (decide (k ∈ dict_keys d)) as [Hin|Hnin].
    + rewrite filter_cons_False by naive_solver. f_equal.
      rewrite list_filter_filter. apply list_filter_iff.
      intros y. split; [|naive_solver]. intros Hy. split; [done|]. by intros ->.
    + rewrite filter_cons_True by done. rewrite <- app_assoc. simpl. do 2 f_equal.
      rewrite list_filter_filter. apply list_filter_iff.
      intros y. rewrite elem_of_app, list_elem_of_singleton. naive_solver.
Qed.

Lemma dict_keys_update_empty kvs :
  dict_keys (dict_update [] kvs) = first_occurrences kvs.*1.
Proof.
  rewrite dict_keys_update. simpl. apply filter_all.
  apply Forall_forall. intros y _. apply not_elem_of_nil.
Qed.

(** ** Traces *)



Lemma probes_app evs1 evs2 : probes (evs1 ++ evs2) = probes evs1 ++ probes evs2.
Proof.
  induction evs1 as [|[] evs1 IH]; simpl; by rewrite ?IH.
Qed.

Lemma emitted_app {W} (s s' : State W) evs :
  trace s' = trace s ++ evs → emitted s s' = evs.
Proof. unfold emitted. intros ->. by rewrite drop_app_length. Qed.


Lemma enumerate_from_length {A} (xs : list A) i :
  length (enumerate_from i xs) = length xs.
Proof. revert i. induction xs as [|a xs IH]; intros i; simpl; by rewrite ?IH. Qed.



(** ** Running the methods *)

Section Run.

Context {W image : Type}.
Variable E : Env W image.

Lemma process_image_unavailable s self path :
  heap s !! self = Some (PyBatchOCR (Some false)) →
  process_image E self path s = (Raise EngineUnavailable, s).
Proof.
  intros Hself. unfold process_image, bind, get_tesseract_available.
  by rewrite Hself.
Qed.

Lemma process_image_available s self path :
  heap s !! self = Some (PyBatchOCR (Some true)) →
  process_image E self path s =
    let r := recognise E (tesseract_cmd s) path (world s) in
    (Ok (text_of r.1.1),
     mkState (heap s) (tesseract_cmd s) r.1.2 (trace s ++ r.2)).
Proof.
  intros Hself.
  unfold process_image, bind, get_tesseract_available, try_except, recognise,
    call_Image_open, call_image_to_string, print, ret, log, set_world.
  rewrite Hself. simpl.
  destruct (Image_open E path (world s)) as [[e|img] w1]; simpl.
  - by rewrite <- app_assoc.
  - destruct (image_to_string E (tesseract_cmd s) img w1) as [[e|t] w2]; simpl.
    + by rewrite <- !app_assoc.
    + by rewrite <- !app_assoc.
Qed.

(** One call of the observer, or none: what it leaves alone, what it
    logs, and where it leaves the world when it returns. *)
Lemma observer_step (cb : option (Callback (W := W))) i total label
    (s : State W) :
  let m := match cb with
           | Some f => call_callback f i total label
           | None => ret tt
           end in
  heap (m s).2 = heap s
  ∧ tesseract_cmd (m s).2 = tesseract_cmd s
  ∧ trace (m s).2 = trace s ++ match cb with
                               | Some _ => [EvProgress i total label]
                               | None => []
                               end
  ∧ (m s).1 = match cb with
              | Some f => of_status (f i total label (world s)).1
              | None => Ok tt
              end
  ∧ world (m s).2 = match cb with
                    | Some f => (f i total label (world s)).2
                    | None => world s
                    end.
Proof.
  destruct cb as [f|]; cbv zeta.
  - unfold call_callback. by destruct (f i total label (world s)) as [r w].
  - unfold ret. cbn [fst snd]. by rewrite app_nil_r.
Qed.






Lemma recognise_probes cmd path w : probes (recognise E cmd path w).2 = [].
Proof.
  unfold recognise. destruct (Image_open E path w) as [[e|img] w1]; [done|].
  by destruct (image_to_string E cmd img w1) as [[e|t] w2].
Qed.





Lemma batch_run_probes cb total cmd paths :
  ∀ i w, probes (batch_run E cb total cmd i paths w).2 = [].
Proof.
  induction paths as [|p paths IH]; intros i w; [done|].
  cbn [batch_run fst snd]. rewrite !probes_app, recognise_probes, IH.
  by destruct cb.
Qed.

Lemma process_batch_loop self image_paths cb s paths :
  heap s !! image_paths = Some (PyList paths) →
  process_batch E self image_paths cb s =
    bind (for_each (enumerate paths)
            (loop_body E self (length (heap s)) cb (length paths)))
      (λ _, ret (length (heap s)))
      (set_heap (heap s ++ [PyDict []]) s).
Proof.
  intros Hpaths. unfold process_batch.
  unfold bind at 1. unfold alloc at 1.
  set (s1 := set_heap (heap s ++ [PyDict []]) s).
  assert (heap s1 !! image_paths = Some (PyList paths)) as Hpaths1.
  { subst s1. unfold set_heap. cbn [heap].
    by rewrite lookup_app_l by (by eapply lookup_lt_Some). }
  unfold bind at 1. unfold len at 1. rewrite Hpaths1.
  unfold ret at 1. unfold bind at 1. unfold iter at 1. rewrite Hpaths1.
  unfold ret at 1. done.
Qed.




Lemma process_batch_unavailable s self image_paths path paths cb :
  heap s !! self = Some (PyBatchOCR (Some false)) →
  heap s !! image_paths = Some (PyList (path :: paths)) →
  let r0 := match cb with
            | Some f => f 0 (S (length paths)) (basename E path) (world s)
            | None => (None, world s)
            end in
  process_batch E self image_paths cb s =
    (Raise (default EngineUnavailable r0.1),
     mkState (heap s ++ [PyDict []]) (tesseract_cmd s) r0.2
       (trace s ++ match cb with
                   | Some _ => [EvProgress 0 (S (length paths)) (basename E path)]
                   | None => []
                   end)).
Proof.
  intros Hself Hpaths. cbv zeta.
  rewrite (process_batch_loop _ _ _ _ (path :: paths)) by done.
  unfold enumerate. cbn [enumerate_from for_each length].
  unfold bind at 1. unfold bind at 1. unfold loop_body at 1. unfold bind at 1.
  destruct cb as [f|].
  - unfold call_callback at 1. unfold set_heap at 1. cbn [world].
    destruct (f 0 (S (length paths)) (basename E path) (world s)) as [[e|] w0];
      cbn [of_status fst snd default from_option id].
    + done.
    + unfold bind at 1.
      rewrite process_image_unavailable; [done|].
      unfold log, set_world, set_heap. cbn [heap].
      by rewrite lookup_app_l by (by eapply lookup_lt_Some).
  - unfold ret at 1. unfold bind at 1.
    rewrite process_image_unavailable.
    + unfold set_heap. by rewrite app_nil_r.
    + unfold set_heap. cbn [heap].
      by rewrite lookup_app_l by (by eapply lookup_lt_Some).
Qed.

(** *** [save_to_json] *)

Lemma comprehension_run x kvs :
  ∀ (s : State W) d0,
    heap s !! x = Some (PyDict d0) →
    for_each kvs (λ '(k, v), setitem x (basename E k) v) s =
      (Ok tt, set_heap (<[x := PyDict (dict_update d0 (renamed E kvs))]> (heap s)) s).
Proof.
  induction kvs as [|[k v] kvs IH]; intros s d0 Hx.
  - simpl. unfold ret, set_heap. rewrite list_insert_id by done. by destruct s.
  - cbn [for_each]. unfold bind at 1. unfold setitem at 1. rewrite Hx.
    rewrite IH with (d0 := dict_set (basename E k) v d0).
    + unfold set_heap. cbn [heap tesseract_cmd world trace].
      by rewrite list_insert_insert_eq.
    + unfold set_heap. cbn [heap]. apply list_lookup_insert_eq.
      by eapply lookup_lt_Some.
Qed.

Lemma save_to_json_dict s self results d output_path :
  heap s !! results = Some (PyDict d) →
  save_to_json E self results output_path s =
    let r := save_run E d output_path (world s) in
    (Ok r.1.1,
     mkState (heap s ++ [PyDict (formatted E d)]) (tesseract_cmd s) r.1.2
       (trace s ++ r.2)).
Proof.
  intros Hres. unfold save_to_json, try_except.
  unfold bind at 1. unfold items at 1. rewrite Hres. unfold ret at 1.
  unfold bind at 1. unfold alloc at 1.
  unfold bind at 1.
  rewrite comprehension_run with (d0 := []); cycle 1.
  { unfold set_heap. cbn [heap]. by rewrite lookup_app_r, Nat.sub_diag by done. }
  unfold set_heap. cbn [heap tesseract_cmd world trace].
  rewrite insert_app_r_alt, Nat.sub_diag by done. cbn [insert list_insert].
  fold (formatted E d).
  unfold bind at 1. unfold call_open_w at 1. cbn [world]. unfold save_run.
  destruct (open_w E output_path (world s)) as [[e|] w1]; cbn [of_status].
  - unfold bind, print, ret, log, set_world. cbn [heap tesseract_cmd world trace].
    case_bool_decide; [done|]. by rewrite <- app_assoc.
  - case_bool_decide; [|done].
    unfold bind, items, ret, call_json_dump, print, log, set_world.
    cbn [heap tesseract_cmd world trace].
    rewrite lookup_app_r, Nat.sub_diag by done. cbn [lookup list_lookup].
    cbv zeta. cbn [heap tesseract_cmd world trace].
    destruct (write_close E output_path (json_dumps (formatted E d)) w1)
      as [[e|] w2]; cbn [of_status heap tesseract_cmd world trace].
    + case_bool_decide; [done|]. by rewrite <- !app_assoc.
    + case_bool_decide; [|done]. by rewrite <- !app_assoc.
Qed.

Lemma save_to_json_not_dict s self results output_path :
  (∀ d, heap s !! results ≠ Some (PyDict d)) →
  save_to_json E self results output_path s =
    (Ok false,
     mkState (heap s) (tesseract_cmd s) (world s)
       (trace s ++ [EvPrint (save_error_line output_path
                               (PyExn AttributeError (py "AttributeError")))])).
Proof.
  intros Hres. unfold save_to_json, try_except.
  unfold bind at 1. unfold items at 1.
  destruct (heap s !! results) as [[xs|d|b]|] eqn:Hx; try done.
  by specialize (Hres d).
Qed.

(** *** Construction *)

Lemma first_existing_run paths cmd (s : State W) :
  first_existing E paths cmd s = (Ok (first_existing_in E (world s) paths cmd), s).
Proof.
  induction paths as [|path paths IH]; [done|].
  cbn [first_existing first_existing_in].
  unfold bind, call_os_path_exists.
  by destruct (os_path_exists E path (world s)).
Qed.

Lemma BatchOCR_run cmd (s : State W) :
  BatchOCR E cmd s =
    let c := configured_cmd E cmd s in
    let r := get_tesseract_version E c (world s) in
    let ok := bool_decide (r.1 = None) in
    (Ok (length (heap s)),
     mkState (heap s ++ [PyBatchOCR (Some ok)]) c r.2 (trace s ++ [EvProbe ok])).
Proof.
  unfold BatchOCR. unfold bind at 1. unfold alloc at 1.
  set (s1 := set_heap (heap s ++ [PyBatchOCR None]) s).
  assert (heap s1 !! length (heap s) = Some (PyBatchOCR None)) as Hself.
  { subst s1. unfold set_heap. cbn [heap].
    by rewrite lookup_app_r, Nat.sub_diag by done. }
  unfold bind at 1. unfold __init__. unfold bind at 1.
  assert ((if negb (truthy cmd)
           then bind (call_platform_system E)
                  (λ system, if bool_decide (system = py "Windows")
                             then first_existing E possible_paths cmd
                             else ret cmd)
           else ret cmd) s1 = (Ok (discovered_cmd E cmd (world s)), s1)) as ->.
  { unfold discovered_cmd. destruct (negb (truthy cmd)); [|done].
    unfold bind, call_platform_system.
    replace (world s1) with (world s) by done.
    destruct (bool_decide _); [|done].
    by rewrite first_existing_run. }
  unfold configured_cmd. cbv zeta.
  set (c := discovered_cmd E cmd (world s)).
  subst s1.
  destruct (truthy c);
    unfold try_except, bind, call_get_tesseract_version, set_tesseract_available,
      ret, log, set_world, set_heap, set_tesseract_cmd;
    cbn [heap tesseract_cmd world trace];
    (match goal with
     | |- context [get_tesseract_version E ?x ?w] =>
         destruct (get_tesseract_version E x w) as [[e|] w1]
     end);
    cbn [of_status heap tesseract_cmd world trace fst snd];
    rewrite lookup_app_r, Nat.sub_diag by done; cbn [lookup list_lookup];
    cbn [heap tesseract_cmd world trace];
    rewrite insert_app_r_alt, Nat.sub_diag by done;
    repeat case_bool_decide; done.
Qed.

(** Reading the attribute changes nothing. *)
Lemma get_tesseract_available_run (s : State W) self b :
  heap s !! self = Some (PyBatchOCR (Some b)) →
  get_tesseract_available self s = (Ok b, s).
Proof. intros H. unfold get_tesseract_available. by rewrite H. Qed.

(** *** What the methods leave alone *)

Lemma process_image_frame self path (s : State W) :
  heap (process_image E self path s).2 = heap s
  ∧ tesseract_cmd (process_image E self path s).2 = tesseract_cmd s
  ∧ ∃ evs, trace (process_image E self path s).2 = trace s ++ evs
           ∧ probes evs = [].
Proof.
  destruct (heap s !! self) as [[xs|d|[[|]|]]|] eqn:Hself.
  1,2,5,6: unfold process_image, bind, get_tesseract_available; rewrite Hself;
    repeat split; exists []; by rewrite app_nil_r.
  - rewrite process_image_available by done. cbv zeta. cbn [snd heap tesseract_cmd trace].
    repeat split. eexists. split; [done|]. apply recognise_probes.
  - rewrite process_image_unavailable by done.
    repeat split. exists []. by rewrite app_nil_r.
Qed.

Lemma loop_body_heap self results cb total x (s : State W) d :
  heap s !! results = Some (PyDict d) →
  ∃ d', heap (loop_body E self results cb total x s).2
        = <[results := PyDict d']> (heap s).
Proof.
  intros Hres. destruct x as [i path]. unfold loop_body.
  unfold bind at 1.
  destruct (observer_step cb i total (basename E path) s) as (Hh0 & _).
  destruct ((match cb with
             | Some f => call_callback f i total (basename E path)
             | None => ret tt
             end) s) as [[[]|e0] s0]; cbn [snd] in Hh0.
  2: { exists d. cbn [snd]. by rewrite Hh0, list_insert_id. }
  unfold bind at 1.
  destruct (process_image_frame self path s0) as (Hh1 & _ & _).
  destruct (process_image E self path s0) as [[text|e] s1]; cbn [snd] in *.
  - unfold setitem. rewrite Hh1, Hh0, Hres. cbn [snd set_heap heap].
    by eexists.
  - exists d. cbn [snd]. by rewrite Hh1, Hh0, list_insert_id.
Qed.

Lemma loop_heap self results cb total xs :
  ∀ (s : State W) d,
    heap s !! results = Some (PyDict d) →
    ∃ d', heap (for_each xs (loop_body E self results cb total) s).2
          = <[results := PyDict d']> (heap s).
Proof.
  induction xs as [|x xs IH]; intros s d Hres.
  - exists d. simpl. by rewrite list_insert_id.
  - cbn [for_each]. unfold bind.
    destruct (loop_body_heap self results cb total x s d Hres) as [d1 Hd1].
    destruct (loop_body E self results cb total x s) as [[[]|e] s1]; cbn [snd] in *.
    + destruct (IH s1 d1) as [d2 Hd2].
      { rewrite Hd1. apply list_lookup_insert_eq. by eapply lookup_lt_Some. }
      exists d2. by rewrite Hd2, Hd1, list_insert_insert_eq.
    + by exists d1.
Qed.

Lemma process_batch_heap self image_paths cb (s : State W) :
  ∃ d, heap (process_batch E self image_paths cb s).2 = heap s ++ [PyDict d].
Proof.
  unfold process_batch. unfold bind at 1. unfold alloc at 1.
  set (s1 := set_heap (heap s ++ [PyDict []]) s).
  assert (heap s1 = heap s ++ [PyDict []]) as Hh1 by done.
  assert (heap s1 !! length (heap s) = Some (PyDict [])) as Hres.
  { rewrite Hh1. by rewrite lookup_app_r, Nat.sub_diag by done. }
  assert (∀ total xs,
    ∃ d, heap (bind (for_each (enumerate xs)
                       (loop_body E self (length (heap s)) cb total))
                 (λ _, ret (length (heap s))) s1).2 = heap s ++ [PyDict d])
    as Hloop.
  { intros total xs. unfold bind.
    destruct (loop_heap self (length (heap s)) cb total (enumerate xs) s1 [] Hres)
      as [d Hd].
    destruct (for_each _ _ s1) as [[[]|e] s2]; unfold ret; cbn [snd] in *;
      exists d; rewrite Hd, Hh1;
      by rewrite insert_app_r_alt, Nat.sub_diag by done. }
  unfold bind at 1. unfold len at 1.
  destruct (heap s1 !! image_paths) as [[xs|d0|b]|] eqn:Hpaths;
    try (by exists []).
  - unfold ret at 1. unfold bind at 1. unfold iter at 1. rewrite Hpaths.
    unfold ret at 1. apply Hloop.
  - unfold ret at 1. unfold bind at 1. unfold iter at 1. rewrite Hpaths.
    unfold ret at 1. apply Hloop.
Qed.

Lemma save_to_json_heap self results output_path (s : State W) :
  ∃ suffix, heap (save_to_json E self results output_path s).2 = heap s ++ suffix.
Proof.
  destruct (heap s !! results) as [[xs|d|b]|] eqn:Hres.
  2: { rewrite (save_to_json_dict _ _ _ d) by done. by eexists. }
  all: rewrite save_to_json_not_dict by (intros d; congruence);
    exists []; by rewrite app_nil_r.
Qed.

End Run.

(** ** The concrete environment at work *)

Example posix_basename_nested : posix_basename (py "dir1/sub/x.png") = py "x.png".
Proof. reflexivity. Qed.

Example posix_basename_plain : posix_basename (py "x.png") = py "x.png".
Proof. reflexivity. Qed.

Example strip_example : strip (py "  a b " ++ [10%N]) = py "a b".
Proof. reflexivity. Qed.

Example json_dumps_example :
  json_dumps [(py "a.png", py "hello"); (py "b.png", [])] =
    py "{" ++ [10%N] ++ py "    " ++ [34%N] ++ py "a.png" ++ [34%N] ++ py ": "
    ++ [34%N] ++ py "hello" ++ [34%N] ++ py "," ++ [10%N]
    ++ py "    " ++ [34%N] ++ py "b.png" ++ [34%N] ++ py ": " ++ [34%N; 34%N]
    ++ [10%N] ++ py "}".
Proof. reflexivity. Qed.

Example demo_batch :
  let r := process_batch demo_env 0 1 (Some tick)
             (demo_state true [py "d/a.png"; py "d/corrupt.png"; py "d/a.png"]) in
  r.1 = Ok 2
  ∧ heap r.2 !! 2 = Some (PyDict [(py "d/a.png", py "text of a.png at 7");
                                   (py "d/corrupt.png", [])])
  ∧ progress_events (trace r.2) =
      [(0, 3, py "a.png"); (1, 3, py "corrupt.png"); (2, 3, py "a.png")].
Proof. vm_compute. done. Qed.

(** ** The engine is unavailable *)



(** C1, as the code has it: on a non-empty input with the availability
    flag false, [process_batch] raises at the first item:
    [EngineUnavailable] when there is no observer or the observer returns
    from the notification of item 0, the observer's own exception when
    it raises there.  No image is opened and no text is recognised; the
    observer, when there is one, has by then been called once, for item
    0, and nothing has happened when there is none. *)
Theorem process_batch_unavailable_aborts {W image} (E : Env W image)
    (s : State W) self image_paths path paths cb :
  heap s !! self = Some (PyBatchOCR (Some false)) →
  heap s !! image_paths = Some (PyList (path :: paths)) →
  let r := process_batch E self image_paths cb s in
  let first := match cb with
               | Some f => (f 0 (length (path :: paths)) (basename E path)
                              (world s)).1
               | None => None
               end in
  r.1 = Raise (default EngineUnavailable first)
  ∧ (returns cb → r.1 = Raise EngineUnavailable)
  ∧ attempts (emitted s r.2) = []
  ∧ emitted s r.2 =
      match cb with
      | Some _ => [EvProgress 0 (length (path :: paths)) (basename E path)]
      | None => []
      end.
Proof.
  intros Hself Hpaths r first. subst r first.
  rewrite (process_batch_unavailable E s self image_paths path paths cb) by done.
  cbv zeta. cbn [fst snd length].
  split; [by destruct cb|]. split.
  { intros Hret. destruct cb as [f|]; [|done]. by rewrite (Hret f). }
  erewrite emitted_app by done. by destruct cb.
Qed.

Lemma process_batch_unavailable_aborts_witness :
  let s := demo_state false [py "d/a.png"; py "d/b.png"] in
  let r := process_batch demo_env 0 1 (Some tick) s in
  r.1 = Raise EngineUnavailable
  ∧ attempts (emitted s r.2) = []
  ∧ emitted s r.2 = [EvProgress 0 2 (py "a.png")].
Proof.
  destruct (process_batch_unavailable_aborts demo_env
              (demo_state false [py "d/a.png"; py "d/b.png"]) 0 1
              (py "d/a.png") [py "d/b.png"] (Some tick))
    as (Hr & _ & Ha & He); [reflexivity|reflexivity|].
  split; [exact Hr|]. split; [exact Ha|exact He].
Defined.

(** With an observer, an unavailable engine and two images, the run ends
    in [EngineUnavailable] after one progress notification, not after
    none. *)
Lemma unavailable_emits_first_progress :
  let s := demo_state false [py "d/a.png"; py "d/b.png"] in
  let r := process_batch demo_env 0 1 (Some tick) s in
  r.1 = Raise EngineUnavailable
  ∧ progress_events (emitted s r.2) = [(0, 2, py "a.png")]
  ∧ progress_events (emitted s r.2) ≠ [].
Proof. vm_compute. done. Qed.

(** ** Progress notifications *)





(** An observer that raises when told of the second of three images ends
    the batch there, with its own exception: the first image has been
    attempted, the second announced, the third neither. *)
Example observer_raise_ends_batch :
  let paths := [py "d/a.png"; py "d/b.png"; py "d/c.png"] in
  let s := demo_state true paths in
  let r := process_batch demo_env 0 1 (Some (stop_at 1)) s in
  r.1 = Raise (PyExn ExternalError (py "observer failed"))
  ∧ progress_events (emitted s r.2) = [(0, 3, py "a.png"); (1, 3, py "b.png")]
  ∧ (attempts (emitted s r.2)).*1 = [py "d/a.png"].
Proof. vm_compute. done. Qed.

(** ** The empty batch *)

(** C4: on the empty list [process_batch] returns a new, empty
    dictionary and emits nothing, whatever the availability flag: the
    state differs only by the new dictionary. *)
Theorem process_batch_empty {W image} (E : Env W image)
    (s : State W) self image_paths cb :
  heap s !! image_paths = Some (PyList []) →
  let r := process_batch E self image_paths cb s in
  r.1 = Ok (length (heap s))
  ∧ heap r.2 = heap s ++ [PyDict []]
  ∧ emitted s r.2 = []
  ∧ world r.2 = world s.
Proof.
  intros Hpaths r. subst r.
  rewrite (process_batch_loop E self image_paths cb s []) by done.
  unfold enumerate, bind, ret, set_heap. cbn [enumerate_from for_each fst snd].
  unfold ret. cbn [heap trace world]. repeat split.
  unfold emitted. cbn [trace]. by rewrite drop_all.
Qed.

Lemma process_batch_empty_witness :
  let s := demo_state false [] in
  let r := process_batch demo_env 0 1 (Some tick) s in
  r.1 = Ok 2
  ∧ heap r.2 = heap s ++ [PyDict []]
  ∧ emitted s r.2 = []
  ∧ world r.2 = world s.
Proof.
  apply (process_batch_empty demo_env (demo_state false []) 0 1 (Some tick)).
  reflexivity.
Defined.

(** ** The result mapping *)







(** On the duplicate input above the two attempts on [d/a.png] return
    different texts, and the mapping keeps the second. *)
Example duplicates_keep_last :
  let paths := [py "d/a.png"; py "d/b.png"; py "d/a.png"] in
  let r := process_batch demo_env 0 1 None (demo_state true paths) in
  attempts (trace r.2) =
    [(py "d/a.png", Some (py "  text of a.png at 1" ++ [10%N]));
     (py "d/b.png", Some (py "  text of b.png at 3" ++ [10%N]));
     (py "d/a.png", Some (py "  text of a.png at 5" ++ [10%N]))]
  ∧ heap r.2 !! 2 = Some (PyDict [(py "d/a.png", py "text of a.png at 5");
                                   (py "d/b.png", py "text of b.png at 3")]).
Proof. vm_compute. done. Qed.

(** ** Trimming *)

Lemma strip_spec text :
  (∃ l r, text = l ++ strip text ++ r
          ∧ Forall (λ c, isspace c = true) l
          ∧ Forall (λ c, isspace c = true) r)
  ∧ (∀ c t, strip text = c :: t → isspace c = false)
  ∧ (∀ t c, strip text = t ++ [c] → isspace c = false).
Proof.
  unfold strip. split; [|split].
  - destruct (lstrip_split text) as [l [Hl Hwl]].
    destruct (rstrip_split (lstrip text)) as [r [Hr Hwr]].
    exists l, r. split; [|done]. by rewrite <- Hr.
  - intros c t. apply rstrip_lstrip_head.
  - intros t c. apply rstrip_last.
Qed.



(** ** Saving *)

Lemma dict_get_Some_elem_of d k v : dict_get d k = Some v → k ∈ dict_keys d.
Proof.
  intros H. destruct (decide (k ∈ dict_keys d)) as [|Hn]; [done|].
  apply dict_get_None in Hn. congruence.
Qed.

Lemma formatted_NoDup {W image} (E : Env W image) d :
  NoDup (dict_keys (formatted E d)).
Proof.
  unfold formatted. rewrite dict_keys_update_empty.
  apply first_occurrences_NoDup.
Qed.

Lemma formatted_keys {W image} (E : Env W image) d :
  dict_keys (formatted E d) = first_occurrences (basename E <$> dict_keys d).
Proof.
  unfold formatted, renamed, dict_keys. rewrite dict_keys_update_empty.
  f_equal. rewrite <- !list_fmap_compose. by apply list_fmap_ext.
Qed.

(** C5: when two references at positions [j1 < j2] of the results have
    the same basename, and no later reference has it, the dictionary
    that [save_to_json] encodes has this basename as a key once, with
    the value of the reference at [j2]; this dictionary, encoded, is
    what a successful call writes. *)
Theorem save_to_json_last_write_wins {W image} (E : Env W image)
    (s : State W) self results d output_path j1 j2 p1 p2 v1 v2 :
  heap s !! results = Some (PyDict d) →
  d !! j1 = Some (p1, v1) →
  d !! j2 = Some (p2, v2) →
  j1 < j2 →
  p1 ≠ p2 →
  basename E p1 = basename E p2 →
  (∀ j p v, j2 < j → d !! j = Some (p, v) → basename E p ≠ basename E p2) →
  let r := save_to_json E self results output_path s in
  ∃ fmt,
    heap r.2 !! length (heap s) = Some (PyDict fmt)
    ∧ NoDup (dict_keys fmt)
    ∧ basename E p2 ∈ dict_keys fmt
    ∧ dict_get fmt (basename E p2) = Some v2
    ∧ (r.1 = Ok true →
       emitted s r.2 = [EvOpenW output_path true;
                        EvDump output_path (json_dumps fmt) true]).
Proof.
  intros Hres Hj1 Hj2 Hlt Hne Hbase Hlast r. subst r.
  rewrite (save_to_json_dict E s self results d output_path) by done.
  cbv zeta. cbn [fst snd heap]. exists (formatted E d).
  assert (dict_get (formatted E d) (basename E p2) = Some v2) as Hget.
  { unfold formatted. apply dict_get_update_last with (j := j2).
    - unfold renamed. by rewrite list_lookup_fmap, Hj2.
    - intros j' v' Hlt' Hj'. unfold renamed in Hj'.
      rewrite list_lookup_fmap in Hj'.
      destruct (d !! j') as [[p v]|] eqn:Hd; [|done].
      simpl in Hj'. injection Hj' as Hb _. by apply (Hlast j' p v). }
  split; [by rewrite lookup_app_r, Nat.sub_diag by done|].
  split; [apply formatted_NoDup|].
  split; [by eapply dict_get_Some_elem_of|].
  split; [done|].
  erewrite emitted_app by done. unfold save_run.
  destruct (open_w E output_path (world s)) as [[e|] w1]; [done|].
  by destruct (write_close E output_path _ w1) as [[e|] w2].
Qed.

Lemma save_to_json_last_write_wins_witness :
  let d := [(py "dir1/x.png", py "first"); (py "dir2/x.png", py "second")] in
  let s := demo_results d in
  let r := save_to_json demo_env 0 1 (py "out.json") s in
  ∃ fmt,
    heap r.2 !! 2 = Some (PyDict fmt)
    ∧ NoDup (dict_keys fmt)
    ∧ posix_basename (py "dir2/x.png") ∈ dict_keys fmt
    ∧ dict_get fmt (posix_basename (py "dir2/x.png")) = Some (py "second")
    ∧ (r.1 = Ok true →
       emitted s r.2 = [EvOpenW (py "out.json") true;
                        EvDump (py "out.json") (json_dumps fmt) true]).
Proof.
  apply (save_to_json_last_write_wins demo_env
           (demo_results [(py "dir1/x.png", py "first");
                          (py "dir2/x.png", py "second")])
           0 1 [(py "dir1/x.png", py "first"); (py "dir2/x.png", py "second")]
           (py "out.json") 0 1 (py "dir1/x.png") (py "dir2/x.png")
           (py "first") (py "second")).
  - reflexivity.
  - reflexivity.
  - reflexivity.
  - lia.
  - vm_compute. discriminate.
  - reflexivity.
  - intros [|[|j]] p v Hlt; [lia | lia | done].
Defined.

Example save_collision :
  let d := [(py "dir1/x.png", py "first"); (py "dir2/x.png", py "second")] in
  let r := save_to_json demo_env 0 1 (py "out.json") (demo_results d) in
  r.1 = Ok true
  ∧ trace r.2 =
      [EvOpenW (py "out.json") true;
       EvDump (py "out.json")
         (py "{" ++ [10%N] ++ py "    " ++ [34%N] ++ py "x.png" ++ [34%N]
          ++ py ": " ++ [34%N] ++ py "second" ++ [34%N] ++ [10%N] ++ py "}")
         true].
Proof. vm_compute. done. Qed.



(** The unwritable destination: [False], an error line, no exception. *)
Example save_unwritable :
  let r := save_to_json demo_env 0 1 []
             (demo_results [(py "d/a.png", py "hello")]) in
  r.1 = Ok false
  ∧ trace r.2 =
      [EvOpenW [] false;
       EvPrint (py "Error saving results to : No such file or directory")].
Proof. vm_compute. done. Qed.

(** ** Construction and the availability flag *)

(** C9: [BatchOCR(cmd)] returns a new object and never raises; it probes
    the engine once, and [tesseract_available] holds whether that probe
    returned without an exception.  Reading the attribute afterwards
    returns this value and changes nothing, and [process_image] makes no
    probe. *)
Theorem construction_probes_once {W image} (E : Env W image)
    (s : State W) cmd :
  let r := BatchOCR E cmd s in
  ∃ ok,
    r.1 = Ok (length (heap s))
    ∧ heap s !! length (heap s) = None
    ∧ heap r.2 !! length (heap s) = Some (PyBatchOCR (Some ok))
    ∧ probes (emitted s r.2) = [ok]
    ∧ (ok = true ↔
       (get_tesseract_version E (configured_cmd E cmd s) (world s)).1 = None)
    ∧ (∀ s' : State W,
         heap s' !! length (heap s) = Some (PyBatchOCR (Some ok)) →
         get_tesseract_available (length (heap s)) s' = (Ok ok, s'))
    ∧ (∀ (s' : State W) path,
         probes (emitted s' (process_image E (length (heap s)) path s').2) = []).
Proof.
  intros r. subst r. rewrite BatchOCR_run. cbv zeta. cbn [fst snd heap].
  eexists. split; [done|].
  split; [by apply lookup_ge_None_2|].
  split; [by rewrite lookup_app_r, Nat.sub_diag by done|].
  split; [by erewrite emitted_app by done|].
  split; [apply bool_decide_eq_true|].
  split; [intros s'; apply get_tesseract_available_run|].
  intros s' path.
  destruct (process_image_frame E (length (heap s)) path s')
    as (_ & _ & evs & Hevs & Hprobes).
  by erewrite emitted_app by done.
Qed.

(** A probe that fails: the object is built, flagged unavailable. *)
Example construction_probe_fails :
  let r := BatchOCR demo_env (Some (py "/opt/missing/tesseract"))
             (mkState [] (py "tesseract") 0 []) in
  r.1 = Ok 0
  ∧ heap r.2 = [PyBatchOCR (Some false)]
  ∧ tesseract_cmd r.2 = py "/opt/missing/tesseract"
  ∧ trace r.2 = [EvProbe false].
Proof. vm_compute. done. Qed.

Example construction_probe_succeeds :
  let r := BatchOCR demo_env None (mkState [] (py "tesseract") 0 []) in
  r.1 = Ok 0 ∧ heap r.2 = [PyBatchOCR (Some true)] ∧ trace r.2 = [EvProbe true].
Proof. vm_compute. done. Qed.

(** ** What the methods leave alone *)

(** C10: every object of the store is the same after [process_image],
    [process_batch] and [save_to_json] as before, whatever the arguments:
    in particular the receiver with its availability flag, the list of
    paths and the results.  The dictionary [save_to_json] encodes is a new
    object, keyed by the basenames of the results' keys. *)
Theorem methods_frame {W image} (E : Env W image)
    (s : State W) self image_paths cb path results output_path l o :
  heap s !! l = Some o →
  heap (process_image E self path s).2 !! l = Some o
  ∧ heap (process_batch E self image_paths cb s).2 !! l = Some o
  ∧ heap (save_to_json E self results output_path s).2 !! l = Some o
  ∧ (∀ d, heap s !! results = Some (PyDict d) →
       heap s !! length (heap s) = None
       ∧ length (heap s) ≠ results
       ∧ heap (save_to_json E self results output_path s).2 !! length (heap s)
           = Some (PyDict (formatted E d))
       ∧ dict_keys (formatted E d)
           = first_occurrences (basename E <$> dict_keys d)).
Proof.
  intros Hl. split; [|split; [|split]].
  - destruct (process_image_frame E self path s) as (-> & _). done.
  - destruct (process_batch_heap E self image_paths cb s) as [d ->].
    by apply lookup_app_l_Some.
  - destruct (save_to_json_heap E self results output_path s) as [suffix ->].
    by apply lookup_app_l_Some.
  - intros d Hres.
    split; [by apply lookup_ge_None_2|].
    split; [apply lookup_lt_Some in Hres; lia|].
    split; [|apply formatted_keys].
    rewrite (save_to_json_dict E s self results d output_path) by done.
    cbv zeta. cbn [snd heap]. by rewrite lookup_app_r, Nat.sub_diag by done.
Qed.

Lemma methods_frame_witness :
  let d := [(py "dir1/x.png", py "first"); (py "dir2/y.png", py "second")] in
  let s := mkState [PyBatchOCR (Some true); PyDict d; PyList [py "dir1/x.png"]]
             (py "tesseract") 0 [] in
  let o := PyBatchOCR (Some true) in
  heap (process_image demo_env 0 (py "dir1/x.png") s).2 !! 0 = Some o
  ∧ heap (process_batch demo_env 0 2 (Some tick) s).2 !! 0 = Some o
  ∧ heap (save_to_json demo_env 0 1 (py "out.json") s).2 !! 0 = Some o
  ∧ (∀ d', heap s !! 1 = Some (PyDict d') →
       heap s !! length (heap s) = None
       ∧ length (heap s) ≠ 1
       ∧ heap (save_to_json demo_env 0 1 (py "out.json") s).2 !! length (heap s)
           = Some (PyDict (formatted demo_env d'))
       ∧ dict_keys (formatted demo_env d')
           = first_occurrences (basename demo_env <$> dict_keys d')).
Proof.
  apply (methods_frame demo_env
           (mkState [PyBatchOCR (Some true);
                     PyDict [(py "dir1/x.png", py "first");
                             (py "dir2/y.png", py "second")];
                     PyList [py "dir1/x.png"]] (py "tesseract") 0 [])
           0 2 (Some tick) (py "dir1/x.png") 1 (py "out.json") 0
           (PyBatchOCR (Some true))).
  reflexivity.
Defined.

(** * Further properties of [batch_ocr.py] *)

(** ** Construction: which command is probed *)

Lemma first_existing_in_found {W image} (E : Env W image) w paths cmd i p :
  paths !! i = Some p →
  os_path_exists E p w = true →
  (∀ j q, j < i → paths !! j = Some q → os_path_exists E q w = false) →
  first_existing_in E w paths cmd = Some p.
Proof.
  revert i. induction paths as [|q paths IH]; intros i Hi Hp Hbefore; [done|].
  destruct i as [|i]; simpl in *.
  - injection Hi as ->. by rewrite Hp.
  - rewrite (Hbefore 0 q) by (done || lia).
    apply (IH i); [done..|].
    intros j q' Hlt Hj. apply (Hbefore (S j) q'); [lia | done].
Qed.

Lemma first_existing_in_none {W image} (E : Env W image) w paths cmd :
  (∀ q, q ∈ paths → os_path_exists E q w = false) →
  first_existing_in E w paths cmd = cmd.
Proof.
  induction paths as [|q paths IH]; intros Hnone; [done|]. simpl.
  rewrite Hnone by apply list_elem_of_here.
  apply IH. intros q' Hq'. apply Hnone. by apply list_elem_of_further.
Qed.

(** X1. [BatchOCR(cmd)] with a non-empty [cmd] makes [cmd] the command of
    [pytesseract] and probes with it; the platform and the installation
    paths are not looked at, and the world changes by the probe only. *)
Theorem construction_uses_given_command {W image} (E : Env W image)
    (s : State W) c :
  c ≠ [] →
  let r := BatchOCR E (Some c) s in
  let probe := get_tesseract_version E c (world s) in
  r.1 = Ok (length (heap s))
  ∧ tesseract_cmd r.2 = c
  ∧ heap r.2 !! length (heap s)
      = Some (PyBatchOCR (Some (bool_decide (probe.1 = None))))
  ∧ world r.2 = probe.2.
Proof.
  intros Hc r probe. subst r probe. rewrite BatchOCR_run. cbv zeta.
  assert (configured_cmd E (Some c) s = c) as ->.
  { unfold configured_cmd, discovered_cmd. by destruct c. }
  cbn [fst snd heap tesseract_cmd world]. repeat split.
  by rewrite lookup_app_r, Nat.sub_diag by done.
Qed.

Lemma construction_uses_given_command_witness :
  let s := mkState [] (py "tesseract") 0 [] in
  let r := BatchOCR windows_env (Some (py "/usr/local/bin/tesseract")) s in
  let probe := get_tesseract_version windows_env
                 (py "/usr/local/bin/tesseract") (world s) in
  r.1 = Ok (length (heap s))
  ∧ tesseract_cmd r.2 = py "/usr/local/bin/tesseract"
  ∧ heap r.2 !! length (heap s)
      = Some (PyBatchOCR (Some (bool_decide (probe.1 = None))))
  ∧ world r.2 = probe.2.
Proof.
  apply (construction_uses_given_command windows_env
           (mkState [] (py "tesseract") 0 []) (py "/usr/local/bin/tesseract")).
  vm_compute. discriminate.
Defined.

(** X2. Without a command ([None] or the empty string) on Windows, the first
    of the common installation paths that exists becomes the command and
    is the one probed. *)
Theorem construction_discovers_first_existing {W image} (E : Env W image)
    (s : State W) cmd i p :
  truthy cmd = false →
  platform_system E (world s) = py "Windows" →
  possible_paths !! i = Some p →
  os_path_exists E p (world s) = true →
  (∀ j q, j < i → possible_paths !! j = Some q →
          os_path_exists E q (world s) = false) →
  let r := BatchOCR E cmd s in
  let probe := get_tesseract_version E p (world s) in
  tesseract_cmd r.2 = p
  ∧ heap r.2 !! length (heap s)
      = Some (PyBatchOCR (Some (bool_decide (probe.1 = None)))).
Proof.
  intros Hcmd Hwin Hi Hp Hbefore r probe. subst r probe.
  rewrite BatchOCR_run. cbv zeta.
  assert (configured_cmd E cmd s = p) as ->.
  { unfold configured_cmd, discovered_cmd. rewrite Hcmd. cbn [negb].
    rewrite bool_decide_eq_true_2 by done.
    rewrite (first_existing_in_found E (world s) possible_paths cmd i p) by done.
    destruct i as [|[|i]]; simpl in Hi; [by injection Hi as <-.. | done]. }
  cbn [fst snd heap tesseract_cmd]. split; [done|].
  by rewrite lookup_app_r, Nat.sub_diag by done.
Qed.

Lemma construction_discovers_first_existing_witness :
  let s := mkState [] (py "tesseract") 0 [] in
  let p := py "C:\Program Files (x86)\Tesseract-OCR\tesseract.exe" in
  let r := BatchOCR windows_env None s in
  let probe := get_tesseract_version windows_env p (world s) in
  tesseract_cmd r.2 = p
  ∧ heap r.2 !! length (heap s)
      = Some (PyBatchOCR (Some (bool_decide (probe.1 = None)))).
Proof.
  apply (construction_discovers_first_existing windows_env
           (mkState [] (py "tesseract") 0 []) None 1
           (py "C:\Program Files (x86)\Tesseract-OCR\tesseract.exe")).
  - reflexivity.
  - reflexivity.
  - reflexivity.
  - reflexivity.
  - intros [|j] q Hlt Hq; [|lia]. injection Hq as <-. reflexivity.
Defined.

(** X3. Without a command, off Windows or when none of the common paths
    exists, the command of [pytesseract] stays what it was, and that is
    what is probed. *)
Theorem construction_keeps_command {W image} (E : Env W image)
    (s : State W) cmd :
  truthy cmd = false →
  (platform_system E (world s) ≠ py "Windows"
   ∨ ∀ q, q ∈ possible_paths → os_path_exists E q (world s) = false) →
  let r := BatchOCR E cmd s in
  let probe := get_tesseract_version E (tesseract_cmd s) (world s) in
  tesseract_cmd r.2 = tesseract_cmd s
  ∧ heap r.2 !! length (heap s)
      = Some (PyBatchOCR (Some (bool_decide (probe.1 = None)))).
Proof.
  intros Hcmd Hcase r probe. subst r probe. rewrite BatchOCR_run. cbv zeta.
  assert (configured_cmd E cmd s = tesseract_cmd s) as ->.
  { unfold configured_cmd, discovered_cmd. rewrite Hcmd. cbn [negb].
    destruct Hcase as [Hplat|Hnone].
    - by rewrite bool_decide_eq_false_2, Hcmd by done.
    - rewrite first_existing_in_none by done.
      destruct (bool_decide _); by rewrite Hcmd. }
  cbn [fst snd heap tesseract_cmd]. split; [done|].
  by rewrite lookup_app_r, Nat.sub_diag by done.
Qed.

Lemma construction_keeps_command_witness :
  let s := mkState [] (py "tesseract") 0 [] in
  let r := BatchOCR demo_env (Some []) s in
  let probe := get_tesseract_version demo_env (tesseract_cmd s) (world s) in
  tesseract_cmd r.2 = tesseract_cmd s
  ∧ heap r.2 !! length (heap s)
      = Some (PyBatchOCR (Some (bool_decide (probe.1 = None)))).
Proof.
  apply (construction_keeps_command demo_env
           (mkState [] (py "tesseract") 0 []) (Some [])).
  - reflexivity.
  - left. vm_compute. discriminate.
Defined.

(** ** [process_image]: failures that are swallowed *)



Lemma lstrip_blank s : Forall (λ c, isspace c = true) s → lstrip s = [].
Proof. induction 1 as [|c s Hc Hs IH]; simpl; [done|]. by rewrite Hc. Qed.

Lemma strip_nil_iff text : strip text = [] ↔ Forall (λ c, isspace c = true) text.
Proof.
  split.
  - intros Hnil. destruct (strip_spec text) as [(l & r & Htext & Hl & Hr) _].
    rewrite Hnil in Htext. rewrite Htext. simpl. by apply Forall_app.
  - intros Hblank. unfold strip. by rewrite lstrip_blank.
Qed.

(** X5. A text the engine returns is turned into the empty string exactly
    when it consists of white space only: for such an image the result of
    [process_image] is the one of a failure. *)
Theorem blank_text_gives_empty {W image} (E : Env W image)
    (s : State W) self path img w1 text w2 :
  heap s !! self = Some (PyBatchOCR (Some true)) →
  Image_open E path (world s) = (inr img, w1) →
  image_to_string E (tesseract_cmd s) img w1 = (inr text, w2) →
  (process_image E self path s).1 = Ok []
  ↔ Forall (λ c, isspace c = true) text.
Proof.
  intros Hself Hopen Hocr.
  rewrite process_image_available by done. cbv zeta. cbn [fst].
  unfold recognise. rewrite Hopen, Hocr. cbn [fst text_of].
  rewrite <- strip_nil_iff. split; [by intros [= ->] | by intros ->].
Qed.

Lemma blank_text_gives_empty_witness :
  (process_image windows_env 0 [32%N; 10%N] (demo_state true [])).1 = Ok []
  ↔ Forall (λ c, isspace c = true) [32%N; 10%N].
Proof.
  apply (blank_text_gives_empty windows_env (demo_state true []) 0
           [32%N; 10%N] [32%N; 10%N] 1 [32%N; 10%N] 2); reflexivity.
Defined.

(** ** [process_batch]: what it never does *)

Lemma recognise_events {W image} (E : Env W image) cmd path w :
  Forall (λ ev, recognition_event ev = true) (recognise E cmd path w).2.
Proof.
  unfold recognise. destruct (Image_open E path w) as [[e|img] w1].
  - by repeat constructor.
  - destruct (image_to_string E cmd img w1) as [[e|t] w2];
      by repeat constructor.
Qed.

Lemma process_image_events {W image} (E : Env W image) self path (s : State W) :
  ∃ evs, trace (process_image E self path s).2 = trace s ++ evs
         ∧ Forall (λ ev, recognition_event ev = true) evs.
Proof.
  destruct (heap s !! self) as [[xs|d|[[|]|]]|] eqn:Hself.
  1,2,5,6: unfold process_image, bind, get_tesseract_available; rewrite Hself;
    exists []; by rewrite app_nil_r.
  - rewrite process_image_available by done. cbv zeta. cbn [snd trace].
    eexists. split; [done|]. apply recognise_events.
  - rewrite process_image_unavailable by done. exists []. by rewrite app_nil_r.
Qed.

Lemma loop_body_events {W image} (E : Env W image) self results cb total x
    (s : State W) :
  ∃ evs, trace (loop_body E self results cb total x s).2 = trace s ++ evs
         ∧ Forall (λ ev, recognition_event ev = true) evs
         ∧ tesseract_cmd (loop_body E self results cb total x s).2
           = tesseract_cmd s.
Proof.
  destruct x as [i path].
  destruct (loop_body E self results cb total (i, path) s) as [o s'] eqn:Hrun.
  cbn [snd]. unfold loop_body, bind in Hrun.
  destruct (observer_step cb i total (basename E path) s)
    as (_ & Hc0 & Ht0 & _).
  set (evs0 := match cb with
               | Some _ => [EvProgress i total (basename E path)]
               | None => []
               end) in Ht0.
  assert (Forall (λ ev, recognition_event ev = true) evs0) as Hev0
    by (subst evs0; destruct cb; by repeat constructor).
  destruct ((match cb with
             | Some f => call_callback f i total (basename E path)
             | None => ret tt
             end) s) as [[[]|e0] s0]; cbn [snd] in Hc0, Ht0.
  2: { injection Hrun as <- <-. by exists evs0. }
  destruct (process_image_events E self path s0) as (evs1 & Ht1 & Hev1).
  destruct (process_image_frame E self path s0) as (_ & Hc1 & _).
  destruct (process_image E self path s0) as [[text|e] s1]; cbn [snd] in *.
  - unfold setitem, type_error, raise in Hrun.
    exists (evs0 ++ evs1). rewrite app_assoc, <- Ht0, <- Ht1.
    destruct (heap s1 !! results) as [[xs|d|b]|];
      injection Hrun as <- <-; cbn [trace tesseract_cmd set_heap];
      (split; [done|]; split; [by apply Forall_app | congruence]).
  - injection Hrun as <- <-.
    exists (evs0 ++ evs1). rewrite app_assoc, <- Ht0, <- Ht1.
    split; [done|]. split; [by apply Forall_app | congruence].
Qed.

Lemma loop_events {W image} (E : Env W image) self results cb total xs :
  ∀ s : State W,
    ∃ evs, trace (for_each xs (loop_body E self results cb total) s).2
           = trace s ++ evs
           ∧ Forall (λ ev, recognition_event ev = true) evs
           ∧ tesseract_cmd (for_each xs (loop_body E self results cb total) s).2
             = tesseract_cmd s.
Proof.
  induction xs as [|x xs IH]; intros s.
  - exists []. simpl. by rewrite app_nil_r.
  - cbn [for_each]. unfold bind.
    destruct (loop_body_events E self results cb total x s)
      as (evs1 & Ht1 & Hev1 & Hc1).
    destruct (loop_body E self results cb total x s) as [[[]|e] s1];
      cbn [snd] in *.
    + destruct (IH s1) as (evs2 & Ht2 & Hev2 & Hc2).
      exists (evs1 ++ evs2). rewrite app_assoc, <- Ht1, <- Ht2.
      split; [done|]. split; [by apply Forall_app | congruence].
    + by exists evs1.
Qed.

Lemma recognition_events_no_writes evs :
  Forall (λ ev, recognition_event ev = true) evs →
  disk_writes evs = [] ∧ probes evs = [].
Proof.
  induction 1 as [|ev evs Hev Hevs [IH1 IH2]]; [done|].
  by destruct ev.
Qed.

Lemma process_batch_events {W image} (E : Env W image)
    (s : State W) self image_paths cb :
  ∃ evs, trace (process_batch E self image_paths cb s).2 = trace s ++ evs
         ∧ Forall (λ ev, recognition_event ev = true) evs
         ∧ tesseract_cmd (process_batch E self image_paths cb s).2
           = tesseract_cmd s.
Proof.
  destruct (process_batch E self image_paths cb s) as [o s'] eqn:Hrun.
  cbn [snd]. unfold process_batch in Hrun.
  unfold bind at 1 in Hrun. unfold alloc at 1 in Hrun.
  set (s1 := set_heap (heap s ++ [PyDict []]) s) in Hrun.
  assert (∀ total xs o s',
    bind (for_each (enumerate xs)
            (loop_body E self (length (heap s)) cb total))
      (λ _, ret (length (heap s))) s1 = (o, s') →
    ∃ evs, trace s' = trace s ++ evs
           ∧ Forall (λ ev, recognition_event ev = true) evs
           ∧ tesseract_cmd s' = tesseract_cmd s) as Hloop.
  { intros total xs o0 s0 Hfor. unfold bind in Hfor.
    destruct (loop_events E self (length (heap s)) cb total (enumerate xs) s1)
      as (evs & Ht & Hev & Hc).
    destruct (for_each _ _ s1) as [[[]|e] s2]; unfold ret in Hfor;
      injection Hfor as <- <-; cbn [snd] in *; by exists evs. }
  unfold bind at 1 in Hrun. unfold len at 1 in Hrun.
  destruct (heap s1 !! image_paths) as [[xs|d0|b]|] eqn:Hpaths;
    try (injection Hrun as <- <-; exists []; by rewrite app_nil_r).
  - unfold ret at 1 in Hrun. unfold bind at 1 in Hrun.
    unfold iter at 1 in Hrun. rewrite Hpaths in Hrun.
    unfold ret at 1 in Hrun. by eapply Hloop.
  - unfold ret at 1 in Hrun. unfold bind at 1 in Hrun.
    unfold iter at 1 in Hrun. rewrite Hpaths in Hrun.
    unfold ret at 1 in Hrun. by eapply Hloop.
Qed.

(** X6. Whatever its arguments and whether it returns or raises,
    [process_batch] only notifies the observer, opens images, recognises
    and prints: it opens no file for writing, writes nothing, does not
    probe the engine and leaves the command of [pytesseract] alone. *)
Theorem process_batch_only_recognises {W image} (E : Env W image)
    (s : State W) self image_paths cb :
  let r := process_batch E self image_paths cb s in
  (∃ evs, trace r.2 = trace s ++ evs)
  ∧ Forall (λ ev, recognition_event ev = true) (emitted s r.2)
  ∧ disk_writes (emitted s r.2) = []
  ∧ probes (emitted s r.2) = []
  ∧ tesseract_cmd r.2 = tesseract_cmd s.
Proof.
  intros r. subst r.
  destruct (process_batch_events E s self image_paths cb) as (evs & Ht & Hev & Hc).
  split; [by exists evs|]. erewrite emitted_app by done.
  split; [done|].
  destruct (recognition_events_no_writes evs Hev). done.
Qed.

(** ** [save_to_json]: when the projection loses nothing *)

Lemma dict_set_fresh k v d :
  k ∉ dict_keys d → dict_set k v d = d ++ [(k, v)].
Proof.
  unfold dict_keys. induction d as [|[k' v'] d IH]; intros Hk; [done|].
  cbn [fmap list_fmap fst] in Hk. apply not_elem_of_cons in Hk as [Hne Hk].
  cbn [dict_set]. rewrite decide_False by done. by rewrite IH.
Qed.

Lemma dict_update_distinct d kvs :
  NoDup (dict_keys d ++ kvs.*1) → dict_update d kvs = d ++ kvs.
Proof.
  revert d. induction kvs as [|[k v] kvs IH]; intros d Hnd.
  - by rewrite app_nil_r.
  - rewrite dict_update_cons. cbn [fmap list_fmap fst] in Hnd.
    assert (k ∉ dict_keys d) as Hk.
    { apply NoDup_app in Hnd as (_ & Hdisj & _). intros Hin.
      apply (Hdisj k Hin). apply list_elem_of_here. }
    rewrite dict_set_fresh by done. rewrite IH.
    + by rewrite <- app_assoc.
    + unfold dict_keys. rewrite fmap_app. cbn [fmap list_fmap fst].
      rewrite <- app_assoc. done.
Qed.

(** X7. When the keys of the results have pairwise different basenames,
    [save_to_json] encodes one entry per result, in the order of the
    results: the basename of the key with the value unchanged. *)
Theorem save_to_json_keeps_distinct_basenames {W image} (E : Env W image)
    (s : State W) self results d output_path :
  heap s !! results = Some (PyDict d) →
  NoDup (basename E <$> dict_keys d) →
  let r := save_to_json E self results output_path s in
  let fmt := (λ kv, (basename E kv.1, kv.2)) <$> d in
  heap r.2 !! length (heap s) = Some (PyDict fmt)
  ∧ length fmt = length d
  ∧ (∀ k v, (k, v) ∈ d → dict_get fmt (basename E k) = Some v)
  ∧ (r.1 = Ok true →
     emitted s r.2 = [EvOpenW output_path true;
                      EvDump output_path (json_dumps fmt) true]).
Proof.
  intros Hres Hnd r fmt. subst r fmt.
  assert (formatted E d = (λ kv, (basename E kv.1, kv.2)) <$> d) as Hfmt.
  { unfold formatted. rewrite dict_update_distinct; [done|].
    simpl. replace ((renamed E d).*1) with (basename E <$> dict_keys d); [done|].
    unfold renamed, dict_keys. rewrite <- !list_fmap_compose.
    by apply list_fmap_ext. }
  rewrite (save_to_json_dict E s self results d output_path) by done.
  cbv zeta. cbn [fst snd heap]. rewrite Hfmt.
  split; [by rewrite lookup_app_r, Nat.sub_diag by done|].
  split; [by rewrite length_fmap|].
  split.
  - intros k v Hin. apply list_elem_of_lookup in Hin as [j Hj].
    rewrite <- Hfmt. unfold formatted.
    apply dict_get_update_last with (j := j).
    + unfold renamed. by rewrite list_lookup_fmap, Hj.
    + intros j' v' Hlt Hj'. unfold renamed in Hj'.
      rewrite list_lookup_fmap in Hj'.
      destruct (d !! j') as [[k' v'']|] eqn:Hd; [|done].
      simpl in Hj'. injection Hj' as Hb _.
      assert ((basename E <$> dict_keys d) !! j = Some (basename E k)) as H1.
      { unfold dict_keys. by rewrite !list_lookup_fmap, Hj. }
      assert ((basename E <$> dict_keys d) !! j' = Some (basename E k)) as H2.
      { unfold dict_keys. rewrite !list_lookup_fmap, Hd. simpl. by rewrite Hb. }
      pose proof (NoDup_lookup _ _ _ _ Hnd H1 H2). lia.
  - erewrite emitted_app by done. unfold save_run. rewrite Hfmt.
    destruct (open_w E output_path (world s)) as [[e|] w1]; [done|].
    by destruct (write_close E output_path _ w1) as [[e|] w2].
Qed.

Lemma save_to_json_keeps_distinct_basenames_witness :
  let d := [(py "dir1/x.png", py "first"); (py "dir2/y.png", py "second")] in
  let s := demo_results d in
  let r := save_to_json demo_env 0 1 (py "out.json") s in
  let fmt := (λ kv, (basename demo_env kv.1, kv.2)) <$> d in
  heap r.2 !! length (heap s) = Some (PyDict fmt)
  ∧ length fmt = length d
  ∧ (∀ k v, (k, v) ∈ d → dict_get fmt (basename demo_env k) = Some v)
  ∧ (r.1 = Ok true →
     emitted s r.2 = [EvOpenW (py "out.json") true;
                      EvDump (py "out.json") (json_dumps fmt) true]).
Proof.
  apply (save_to_json_keeps_distinct_basenames demo_env
           (demo_results [(py "dir1/x.png", py "first");
                          (py "dir2/y.png", py "second")]) 0 1
           [(py "dir1/x.png", py "first"); (py "dir2/y.png", py "second")]
           (py "out.json")).
  - reflexivity.
  - apply (bool_decide_unpack (NoDup _)). vm_compute. exact I.
Defined.

Lemma not_elem_of_short (ev : event) evs :
  ev ∈ evs → Forall (λ ev', ev' ≠ ev) evs → False.
Proof.
  intros Hin Hall. rewrite Forall_forall in Hall. by apply (Hall ev Hin).
Qed.

(** X8. Whatever its arguments, [save_to_json] does one of four things
    and nothing else: it prints an error without opening anything; it
    fails to open [output_path] and prints an error; it opens
    [output_path], fails to write and prints an error; or it opens
    [output_path] and writes to it.  So no other file is opened or
    written, the file is opened at most once and written at most once, a
    failed open is followed by no write; no image is opened, nothing is
    recognised, no observer is notified, the engine is not probed and the
    command of [pytesseract] stays. *)
Theorem save_to_json_only_saves {W image} (E : Env W image)
    (s : State W) self results output_path :
  let r := save_to_json E self results output_path s in
  (∃ evs, trace r.2 = trace s ++ evs)
  ∧ Forall (λ ev, saving_event ev = true) (emitted s r.2)
  ∧ ((∃ line, emitted s r.2 = [EvPrint line])
     ∨ (∃ line, emitted s r.2 = [EvOpenW output_path false; EvPrint line])
     ∨ (∃ text line,
          emitted s r.2 = [EvOpenW output_path true;
                           EvDump output_path text false; EvPrint line])
     ∨ (∃ text,
          emitted s r.2 = [EvOpenW output_path true;
                           EvDump output_path text true]))
  ∧ tesseract_cmd r.2 = tesseract_cmd s.
Proof.
  intros r. subst r.
  destruct (heap s !! results) as [[xs|d|b]|] eqn:Hres.
  2: { rewrite (save_to_json_dict E s self results d output_path) by done.
       cbv zeta. cbn [snd trace tesseract_cmd].
       split; [by eexists|]. erewrite emitted_app by done.
       unfold save_run.
       destruct (open_w E output_path (world s)) as [[e|] w1]; cbn [snd].
       - split; [by repeat constructor|]. split; [|done].
         right; left. by eexists.
       - destruct (write_close E output_path _ w1) as [[e|] w2]; cbn [snd];
           (split; [by repeat constructor|]); (split; [|done]).
         + right; right; left. by eexists _, _.
         + right; right; right. by eexists. }
  all: rewrite save_to_json_not_dict by (intros d; congruence);
    cbn [snd trace tesseract_cmd]; (split; [by eexists|]);
    erewrite emitted_app by done;
    (split; [by repeat constructor|]); (split; [|done]);
    left; by eexists.
Qed.

(** ** Construction, then a batch *)



(** * Properties of [config.py] *)

Section ConfigRuns.

Context {W : Type}.
Variable E : Config.Env W.

Import Config.

Lemma cfg_emitted_app (s s' : Config.State W) evs :
  Config.trace s' = Config.trace s ++ evs → Config.emitted s s' = evs.
Proof. unfold Config.emitted. intros ->. by rewrite drop_app_length. Qed.

Lemma ensure_config_dir_run (s : Config.State W) :
  Config.ensure_config_dir E s =
    (Ok tt,
     Config.mkState (Config.ensure_run E (Config.world s)).1
       (Config.trace s ++ (Config.ensure_run E (Config.world s)).2)).
Proof.
  unfold Config.ensure_config_dir, Config.ensure_run, Config.bind,
    Config.call_exists, Config.try_except, Config.call_makedirs, Config.print,
    Config.ret, Config.log.
  destruct (Config.os_path_exists E (Config.CONFIG_DIR E) (Config.world s));
    cbn [negb].
  - rewrite app_nil_r. by destruct s.
  - destruct (Config.os_makedirs E (Config.CONFIG_DIR E) (Config.world s))
      as [[e|] w1]; cbn [of_status fst snd Config.world Config.trace].
    + case_bool_decide; [done|]. by rewrite <- app_assoc.
    + case_bool_decide; [|done]. done.
Qed.

Lemma fill_missing_run defaults :
  ∀ config (s : Config.State W),
    Config.fill_missing defaults config s
    = (of_sum (Config.filled defaults config), s).
Proof.
  induction defaults as [|[key value] defaults IH]; intros config s; [done|].
  cbn [Config.fill_missing Config.filled].
  unfold Config.bind at 1. unfold Config.lift at 1.
  destruct (Config.py_in key config) as [e|[|]]; cbn [of_sum negb]; [done|..].
  - unfold Config.bind, Config.ret. apply IH.
  - unfold Config.bind at 1. unfold Config.lift at 1.
    destruct (Config.py_setitem config key value) as [e|config']; cbn [of_sum];
      [done|]. apply IH.
Qed.

Lemma load_config_run (s : Config.State W) :
  Config.load_config E s =
    let r := Config.load_run E (Config.world s) in
    (Ok r.1.1, Config.mkState r.1.2 (Config.trace s ++ r.2)).
Proof.
  unfold Config.load_config, Config.load_run.
  unfold Config.bind at 1. rewrite ensure_config_dir_run.
  destruct (Config.ensure_run E (Config.world s)) as [w0 evs0]. cbn [fst snd].
  unfold Config.bind at 1. unfold Config.call_exists at 1. cbn [Config.world].
  destruct (Config.os_path_exists E (Config.CONFIG_FILE E) w0); cbn [negb].
  - unfold Config.try_except, Config.bind at 1 2, Config.call_json_load.
    cbn [Config.world].
    destruct (Config.json_load E (Config.CONFIG_FILE E) w0) as [[e|v] w1];
      cbn [of_sum].
    + unfold Config.bind, Config.print, Config.ret, Config.log.
      cbn [fst snd Config.world Config.trace]. by rewrite <- !app_assoc.
    + unfold Config.bind at 1. rewrite fill_missing_run.
      destruct (Config.filled Config.DEFAULT_CONFIG v) as [e|v']; cbn [of_sum].
      * unfold Config.bind, Config.print, Config.ret, Config.log.
        cbn [fst snd Config.world Config.trace]. by rewrite <- !app_assoc.
      * unfold Config.ret, Config.log. cbn [fst snd Config.world Config.trace].
        by rewrite <- !app_assoc.
  - done.
Qed.

Lemma save_config_run config (s : Config.State W) :
  Config.save_config E config s =
    let r := Config.save_run E config (Config.world s) in
    (Ok r.1.1, Config.mkState r.1.2 (Config.trace s ++ r.2)).
Proof.
  unfold Config.save_config, Config.save_run.
  unfold Config.bind at 1. rewrite ensure_config_dir_run.
  destruct (Config.ensure_run E (Config.world s)) as [w0 evs0]. cbn [fst snd].
  unfold Config.try_except, Config.bind, Config.call_json_dump, Config.print,
    Config.ret, Config.log.
  cbn [Config.world Config.trace].
  destruct (Config.json_dump E (Config.CONFIG_FILE E) config w0) as [[e|] w1];
    cbn [of_status fst snd Config.world Config.trace].
  - case_bool_decide; [done|]. by rewrite <- !app_assoc.
  - case_bool_decide; [|done]. by rewrite <- !app_assoc.
Qed.

End ConfigRuns.

(** ** Dictionaries of settings *)

Lemma cfg_dict_get_set_eq k v d :
  Config.dict_get (Config.dict_set k v d) k = Some v.
Proof.
  induction d as [|[k' v'] d IH]; simpl.
  - by rewrite decide_True.
  - destruct (decide (k' = k)) as [->|Hne]; simpl.
    + by rewrite decide_True.
    + by rewrite decide_False.
Qed.

Lemma cfg_dict_get_set_ne k k' v d :
  k ≠ k' → Config.dict_get (Config.dict_set k v d) k' = Config.dict_get d k'.
Proof.
  intros Hne. induction d as [|[k0 v0] d IH]; simpl.
  - by rewrite decide_False.
  - destruct (decide (k0 = k)) as [->|Hne0]; simpl.
    + by rewrite !decide_False.
    + by rewrite IH.
Qed.

Lemma cfg_dict_get_Some d k : k ∈ d.*1 → ∃ v, Config.dict_get d k = Some v.
Proof.
  induction d as [|[k' v'] d IH]; simpl; intros Hin.
  - by apply elem_of_nil in Hin.
  - destruct (decide (k' = k)) as [->|Hne]; [by eexists|].
    apply elem_of_cons in Hin as [->|Hin]; [done | by apply IH].
Qed.

Lemma cfg_dict_set_fresh k v (d : list (pystr * Config.json)) :
  k ∉ d.*1 → Config.dict_set k v d = d ++ [(k, v)].
Proof.
  induction d as [|[k' v'] d IH]; intros Hk; [done|].
  cbn [fmap list_fmap fst] in Hk. apply not_elem_of_cons in Hk as [Hne Hk].
  cbn [Config.dict_set]. rewrite decide_False by done. by rewrite IH.
Qed.

Lemma cfg_dict_set_keys k v (d : list (pystr * Config.json)) k' :
  k' ∈ d.*1 ∨ k' = k → k' ∈ (Config.dict_set k v d).*1.
Proof.
  induction d as [|[k0 v0] d IH]; simpl.
  - intros [Hin| ->]; [by apply elem_of_nil in Hin | apply list_elem_of_here].
  - destruct (decide (k0 = k)) as [->|Hne]; simpl.
    + intros [Hin| ->]; [done | apply list_elem_of_here].
    + intros [Hin| ->].
      * apply elem_of_cons in Hin as [->|Hin]; [apply list_elem_of_here|].
        apply list_elem_of_further, IH. by left.
      * apply list_elem_of_further, IH. by right.
Qed.

Lemma completed_keys defaults :
  ∀ d k, k ∈ d.*1 ∨ k ∈ defaults.*1 → k ∈ (Config.completed defaults d).*1.
Proof.
  unfold Config.completed.
  induction defaults as [|[k0 v0] defaults IH]; intros d k; simpl.
  - intros [Hin|Hin]; [done | by apply elem_of_nil in Hin].
  - intros Hk. apply IH. case_bool_decide as Hin0.
    + destruct Hk as [Hk|Hk]; [by left|].
      apply elem_of_cons in Hk as [->|Hk]; [by left | by right].
    + destruct Hk as [Hk|Hk].
      * left. apply cfg_dict_set_keys. by left.
      * apply elem_of_cons in Hk as [->|Hk]; [|by right].
        left. apply cfg_dict_set_keys. by right.
Qed.

Lemma completed_get defaults :
  ∀ d k, k ∈ d.*1 →
         Config.dict_get (Config.completed defaults d) k = Config.dict_get d k.
Proof.
  unfold Config.completed.
  induction defaults as [|[k0 v0] defaults IH]; intros d k Hk; [done|]. simpl.
  case_bool_decide as Hin0.
  - by apply IH.
  - rewrite IH by (apply cfg_dict_set_keys; by left).
    apply cfg_dict_get_set_ne. by intros ->.
Qed.

Lemma filter_ext_in {A} (P Q : A → Prop) `{!∀ x, Decision (P x)}
    `{!∀ x, Decision (Q x)} (l : list A) :
  (∀ x, x ∈ l → (P x ↔ Q x)) → filter P l = filter Q l.
Proof.
  induction l as [|a l IH]; intros Hext; [done|].
  rewrite !filter_cons.
  rewrite IH by (intros x Hx; apply Hext; by apply list_elem_of_further).
  pose proof (Hext a (list_elem_of_here a l)) as Ha.
  destruct (decide (P a)), (decide (Q a)); (done || (exfalso; tauto)).
Qed.

Lemma completed_append defaults :
  ∀ d, NoDup defaults.*1 →
       Config.completed defaults d
       = d ++ filter (λ kv, kv.1 ∉ d.*1) defaults.
Proof.
  unfold Config.completed.
  induction defaults as [|[k0 v0] defaults IH]; intros d Hnd.
  - by rewrite filter_nil, app_nil_r.
  - cbn [fmap list_fmap fst] in Hnd. apply NoDup_cons in Hnd as [Hk0 Hnd].
    simpl. case_bool_decide as Hin0.
    + rewrite IH by done. by rewrite filter_cons_False by (simpl; tauto).
    + rewrite IH by done. rewrite filter_cons_True by done.
      rewrite cfg_dict_set_fresh by done. rewrite <- app_assoc. simpl.
      do 2 f_equal. apply filter_ext_in. intros [k v] Hkv. simpl.
      rewrite fmap_app, elem_of_app. simpl. rewrite list_elem_of_singleton.
      split; [intros Hk Hin; apply Hk; by left|].
      intros Hk [Hin| ->]; [done|].
      apply Hk0. apply list_elem_of_fmap. by exists (k0, v).
Qed.

Lemma filled_dict defaults :
  ∀ d, Config.filled defaults (Config.JDict d)
       = inr (Config.JDict (Config.completed defaults d)).
Proof.
  unfold Config.completed.
  induction defaults as [|[k0 v0] defaults IH]; intros d; [done|].
  cbn [Config.filled Config.py_in Config.py_setitem foldl fst snd].
  case_bool_decide; apply IH.
Qed.

Lemma filled_not_dict defaults config v :
  (∀ d, config ≠ Config.JDict d) →
  Config.filled defaults config = inr v →
  v = config ∧ ∀ key, key ∈ defaults.*1 → Config.py_in key config = inr true.
Proof.
  intros Hnd. induction defaults as [|[k0 v0] defaults IH]; simpl.
  - intros [= <-]. split; [done|]. intros key Hin. by apply elem_of_nil in Hin.
  - destruct (Config.py_in k0 config) as [e|[|]] eqn:Hin0; [done|..].
    + intros Hf. destruct (IH Hf) as [-> Hall]. split; [done|].
      intros key Hin. apply elem_of_cons in Hin as [->|Hin]; [done|].
      by apply Hall.
    + destruct config; try done. by specialize (Hnd d).
Qed.

Lemma filled_has_keys defaults config v :
  Config.filled defaults config = inr v →
  ∀ key, key ∈ defaults.*1 → Config.py_in key v = inr true.
Proof.
  intros Hf key Hkey.
  assert ((∃ d, config = Config.JDict d) ∨ ∀ d, config ≠ Config.JDict d)
    as [[d ->]|Hnd] by (destruct config; eauto).
  - rewrite filled_dict in Hf. injection Hf as <-. simpl. f_equal.
    apply bool_decide_eq_true_2. apply completed_keys. by right.
  - destruct (filled_not_dict defaults config v Hnd Hf) as [-> Hall].
    by apply Hall.
Qed.

Lemma cfg_loads_app evs1 evs2 :
  Config.loads (evs1 ++ evs2) = Config.loads evs1 ++ Config.loads evs2.
Proof. induction evs1 as [|[] evs1 IH]; simpl; by rewrite ?IH. Qed.

Lemma cfg_dumps_app evs1 evs2 :
  Config.dumps (evs1 ++ evs2) = Config.dumps evs1 ++ Config.dumps evs2.
Proof. induction evs1 as [|[] evs1 IH]; simpl; by rewrite ?IH. Qed.

Lemma ensure_run_quiet {W} (E : Config.Env W) w :
  Config.loads (Config.ensure_run E w).2 = []
  ∧ Config.dumps (Config.ensure_run E w).2 = [].
Proof.
  unfold Config.ensure_run.
  destruct (Config.os_path_exists E (Config.CONFIG_DIR E) w); [done|].
  by destruct (Config.os_makedirs E (Config.CONFIG_DIR E) w) as [[e|] w1].
Qed.

(** The cases of a run of [load_config]. *)
Lemma load_run_cases {W} (E : Config.Env W) w :
  let r := Config.load_run E w in
  Config.dumps r.2 = []
  ∧ ((Config.loads r.2 = [] ∧ r.1.1 = Config.JDict Config.DEFAULT_CONFIG)
     ∨ (Config.loads r.2 = [None]
        ∧ r.1.1 = Config.JDict Config.DEFAULT_CONFIG
        ∧ ∃ e, last r.2 = Some (Config.Print (Config.load_warning e)))
     ∨ (∃ v, Config.loads r.2 = [Some v]
             ∧ ((Config.filled Config.DEFAULT_CONFIG v = inr r.1.1)
                ∨ (∃ e, Config.filled Config.DEFAULT_CONFIG v = inl e
                        ∧ r.1.1 = Config.JDict Config.DEFAULT_CONFIG
                        ∧ last r.2
                          = Some (Config.Print (Config.load_warning e)))))).
Proof.
  intros r. subst r. unfold Config.load_run.
  destruct (ensure_run_quiet E w) as [Hl Hd].
  destruct (Config.ensure_run E w) as [w0 evs0]. cbn [snd] in Hl, Hd.
  destruct (Config.os_path_exists E (Config.CONFIG_FILE E) w0); cbn [fst snd].
  2: { split; [done|]. by left. }
  destruct (Config.json_load E (Config.CONFIG_FILE E) w0) as [[e|v] w1];
    cbn [fst snd].
  - rewrite cfg_dumps_app, cfg_loads_app, Hl, Hd. split; [done|].
    right; left. split; [done|]. split; [done|]. exists e.
    by rewrite last_app.
  - destruct (Config.filled Config.DEFAULT_CONFIG v) as [e|v'] eqn:Hf;
      cbn [fst snd]; rewrite cfg_dumps_app, cfg_loads_app, Hl, Hd;
      (split; [done|]); right; right; exists v; (split; [done|]).
    + right. exists e. split; [done|]. split; [done|].
      by rewrite last_app.
    + by left.
Qed.

Lemma load_run_has_keys {W} (E : Config.Env W) w key :
  key ∈ Config.DEFAULT_CONFIG.*1 →
  Config.py_in key (Config.load_run E w).1.1 = inr true.
Proof.
  intros Hkey.
  assert (Config.py_in key (Config.JDict Config.DEFAULT_CONFIG) = inr true)
    as Hdef.
  { simpl. f_equal. by apply bool_decide_eq_true_2. }
  destruct (load_run_cases E w) as [_ [[_ ->]|[(_ & -> & _)|(v & _ & Hv)]]];
    [done..|].
  destruct Hv as [Hf|(e & _ & -> & _)]; [|done].
  by apply (filled_has_keys Config.DEFAULT_CONFIG v).
Qed.

(** ** [ensure_config_dir] *)


(** ** [load_config] *)




(** X13. When the settings file holds a JSON object, [load_config] returns
    its entries unchanged and in their order, followed by the entries of
    [DEFAULT_CONFIG] whose keys the object lacks, set to [None]. *)
Theorem load_config_completes_object {W} (E : Config.Env W)
    (s : Config.State W) d :
  let r := Config.load_config E s in
  Config.loads (Config.emitted s r.2) = [Some (Config.JDict d)] →
  r.1 = Ok (Config.JDict
              (d ++ filter (λ kv, kv.1 ∉ d.*1) Config.DEFAULT_CONFIG))
  ∧ Config.dumps (Config.emitted s r.2) = [].
Proof.
  intros r. subst r. rewrite load_config_run. cbv zeta. cbn [fst snd].
  erewrite cfg_emitted_app by done. intros Hloads.
  destruct (load_run_cases E (Config.world s))
    as [Hd [[Hl _]|[(Hl & _)|(v & Hl & Hv)]]]; [congruence..|].
  split; [|done]. rewrite Hl in Hloads. injection Hloads as ->.
  rewrite filled_dict in Hv. destruct Hv as [Hv|(e & He & _)]; [|congruence].
  assert ((Config.load_run E (Config.world s)).1.1
          = Config.JDict (Config.completed Config.DEFAULT_CONFIG d)) as ->
    by congruence.
  rewrite completed_append; [done|].
  apply (bool_decide_unpack (NoDup _)). vm_compute. exact I.
Qed.

Lemma load_config_completes_object_witness :
  let d := [(py "last_input_dir", Config.JStr (py "/data"));
            (py "theme", Config.JStr (py "dark"))] in
  let s := Config.mkState
             (Config.mkDisk [] [(py "/home/u/.batch_image_ocr/config.json",
                                 Config.JDict d)]) [] in
  let r := Config.load_config Config.memory_env s in
  r.1 = Ok (Config.JDict
              (d ++ filter (λ kv, kv.1 ∉ d.*1) Config.DEFAULT_CONFIG))
  ∧ Config.dumps (Config.emitted s r.2) = [].
Proof.
  apply (load_config_completes_object Config.memory_env
           (Config.mkState
              (Config.mkDisk [] [(py "/home/u/.batch_image_ocr/config.json",
                                  Config.JDict
                                    [(py "last_input_dir", Config.JStr (py "/data"));
                                     (py "theme", Config.JStr (py "dark"))])]) [])).
  vm_compute. reflexivity.
Defined.

Example load_config_completes_example :
  (Config.load_config Config.memory_env
     (Config.mkState
        (Config.mkDisk [] [(py "/home/u/.batch_image_ocr/config.json",
                            Config.JDict
                              [(py "last_input_dir", Config.JStr (py "/data"));
                               (py "theme", Config.JStr (py "dark"))])]) [])).1
  = Ok (Config.JDict [(py "last_input_dir", Config.JStr (py "/data"));
                      (py "theme", Config.JStr (py "dark"));
                      (py "tesseract_path", Config.JNull);
                      (py "last_output_dir", Config.JNull)]).
Proof. vm_compute. done. Qed.



(** ** [get_config_value] *)

(** X15. For the three keys of [DEFAULT_CONFIG] the argument [default] has no
    effect: [load_config] has already put [None] where the file has
    nothing. *)
Theorem get_config_value_ignores_default {W} (E : Config.Env W)
    (s : Config.State W) key default :
  key ∈ Config.DEFAULT_CONFIG.*1 →
  Config.get_config_value E key default s
  = Config.get_config_value E key Config.JNull s.
Proof.
  intros Hkey. unfold Config.get_config_value, Config.bind.
  rewrite load_config_run. cbv zeta.
  pose proof (load_run_has_keys E (Config.world s) key Hkey) as Hin.
  destruct (Config.load_run E (Config.world s)).1.1 as [| | | |l|d] eqn:Hc;
    try done.
  unfold Config.lift, Config.py_get. simpl in Hin. injection Hin as Hin.
  apply bool_decide_eq_true_1 in Hin.
  destruct (cfg_dict_get_Some d key Hin) as [v ->]. done.
Qed.

Lemma get_config_value_ignores_default_witness :
  let s := Config.mkState (Config.mkDisk [] []) [] in
  Config.get_config_value Config.memory_env (py "tesseract_path")
    (Config.JStr (py "/usr/bin/tesseract")) s
  = Config.get_config_value Config.memory_env (py "tesseract_path")
      Config.JNull s.
Proof.
  apply (get_config_value_ignores_default Config.memory_env
           (Config.mkState (Config.mkDisk [] []) []) (py "tesseract_path")
           (Config.JStr (py "/usr/bin/tesseract"))).
  apply (bool_decide_unpack (_ ∈ _)). vm_compute. exact I.
Defined.



(** ** A settings file that is not an object *)

Lemma existsb_is_str key l :
  Config.JStr key ∈ l → existsb (Config.is_str key) l = true.
Proof.
  induction l as [|v l IH]; intros Hin; [by apply elem_of_nil in Hin|].
  simpl. apply elem_of_cons in Hin as [<-|Hin].
  - simpl. by rewrite bool_decide_eq_true_2.
  - rewrite IH by done. by destruct (Config.is_str key v).
Qed.

Lemma filled_list defaults l :
  (∀ key, key ∈ defaults.*1 → Config.JStr key ∈ l) →
  Config.filled defaults (Config.JList l) = inr (Config.JList l).
Proof.
  induction defaults as [|[k0 v0] defaults IH]; intros Hall; [done|].
  cbn [Config.filled Config.py_in].
  rewrite existsb_is_str by (apply Hall, list_elem_of_here).
  apply IH. intros key Hkey. by apply Hall, list_elem_of_further.
Qed.

(** X17. When the settings file holds a JSON array in which the three keys of
    [DEFAULT_CONFIG] occur as elements, [load_config] returns that array;
    [get_config_value] then raises [AttributeError] and [update_config]
    raises [TypeError] without writing anything. *)
Theorem array_settings_break_the_accessors {W} (E : Config.Env W)
    (s : Config.State W) l key default value :
  Config.loads (Config.emitted s (Config.load_config E s).2)
    = [Some (Config.JList l)] →
  (∀ k, k ∈ Config.DEFAULT_CONFIG.*1 → Config.JStr k ∈ l) →
  (Config.load_config E s).1 = Ok (Config.JList l)
  ∧ Config.emitted s (Config.load_config E s).2
    = Config.emitted s (Config.ensure_config_dir E s).2
      ++ [Config.Load (Config.CONFIG_FILE E) (Some (Config.JList l))]
  ∧ (Config.get_config_value E key default s).1 = Raise Config.AttributeError_
  ∧ (Config.update_config E key value s).1 = Raise Config.TypeError_
  ∧ Config.dumps (Config.emitted s (Config.update_config E key value s).2) = [].
Proof.
  intros Hloads Hall.
  assert (Config.emitted s (Config.load_config E s).2
          = Config.emitted s (Config.ensure_config_dir E s).2
            ++ [Config.Load (Config.CONFIG_FILE E) (Some (Config.JList l))])
    as Hquiet.
  { rewrite load_config_run, ensure_config_dir_run in *.
    cbv zeta in *. cbn [fst snd] in *.
    erewrite !cfg_emitted_app in * by done.
    unfold Config.load_run in *.
    destruct (ensure_run_quiet E (Config.world s)) as [Hl _].
    destruct (Config.ensure_run E (Config.world s)) as [w0 evs0].
    cbn [fst snd] in *.
    destruct (Config.os_path_exists E (Config.CONFIG_FILE E) w0);
      [|cbn [snd] in Hloads; congruence].
    destruct (Config.json_load E (Config.CONFIG_FILE E) w0) as [[e|v] w1].
    - cbn [snd] in Hloads. rewrite cfg_loads_app, Hl in Hloads. done.
    - assert (v = Config.JList l) as ->.
      { destruct (Config.filled Config.DEFAULT_CONFIG v); cbn [snd] in Hloads;
          rewrite cfg_loads_app, Hl in Hloads; cbn in Hloads; congruence. }
      by rewrite filled_list by done. }
  split; [|split; [exact Hquiet|]]; clear Hquiet.
  all: unfold Config.get_config_value, Config.update_config, Config.bind.
  all: rewrite load_config_run in *.
  all: cbv zeta in *; cbn [fst snd] in *.
  all: erewrite cfg_emitted_app in Hloads by done.
  all: destruct (load_run_cases E (Config.world s))
    as [Hd [[Hl _]|[(Hl & _)|(v & Hl & Hv)]]]; [congruence..|].
  all: rewrite Hl in Hloads; injection Hloads as ->.
  all: rewrite filled_list in Hv by exact Hall.
  all: destruct Hv as [Hv|(e & He & _)]; [|congruence].
  all: assert ((Config.load_run E (Config.world s)).1.1 = Config.JList l) as ->
    by congruence.
  all: unfold Config.lift;
    cbn [Config.py_get Config.py_setitem of_sum fst snd].
  - done.
  - repeat split. by erewrite cfg_emitted_app by done.
Qed.

Lemma array_settings_break_the_accessors_witness :
  let l := [Config.JStr (py "tesseract_path");
            Config.JStr (py "last_output_dir");
            Config.JStr (py "last_input_dir")] in
  let s := Config.mkState
             (Config.mkDisk [] [(py "/home/u/.batch_image_ocr/config.json",
                                 Config.JList l)]) [] in
  let key := py "tesseract_path" in
  let value := Config.JStr (py "/usr/bin/tesseract") in
  (Config.load_config Config.memory_env s).1 = Ok (Config.JList l)
  ∧ Config.emitted s (Config.load_config Config.memory_env s).2
    = Config.emitted s (Config.ensure_config_dir Config.memory_env s).2
      ++ [Config.Load (Config.CONFIG_FILE Config.memory_env)
            (Some (Config.JList l))]
  ∧ (Config.get_config_value Config.memory_env key Config.JNull s).1
    = Raise Config.AttributeError_
  ∧ (Config.update_config Config.memory_env key value s).1
    = Raise Config.TypeError_
  ∧ Config.dumps
      (Config.emitted s (Config.update_config Config.memory_env key value s).2)
    = [].
Proof.
  apply (array_settings_break_the_accessors Config.memory_env
           (Config.mkState
              (Config.mkDisk [] [(py "/home/u/.batch_image_ocr/config.json",
                                  Config.JList
                                    [Config.JStr (py "tesseract_path");
                                     Config.JStr (py "last_output_dir");
                                     Config.JStr (py "last_input_dir")])]) [])
           [Config.JStr (py "tesseract_path");
            Config.JStr (py "last_output_dir");
            Config.JStr (py "last_input_dir")]
           (py "tesseract_path") Config.JNull
           (Config.JStr (py "/usr/bin/tesseract"))).
  - vm_compute. reflexivity.
  - intros k Hk. cbn in Hk.
    repeat (apply elem_of_cons in Hk as [->|Hk];
            [repeat (apply list_elem_of_here || apply list_elem_of_further)|]).
    by apply elem_of_nil in Hk.
Defined.

(** ** [save_config] and [update_config] *)


Lemma save_run_dumps {W} (E : Config.Env W) config w :
  Config.dumps (Config.save_run E config w).2 = [config]
  ∧ Config.loads (Config.save_run E config w).2 = [].
Proof.
  unfold Config.save_run. destruct (ensure_run_quiet E w) as [Hl Hd].
  destruct (Config.ensure_run E w) as [w0 evs0]. cbn [snd] in Hl, Hd.
  destruct (Config.json_dump E (Config.CONFIG_FILE E) config w0) as [[e|] w1];
    cbn [snd]; by rewrite cfg_dumps_app, cfg_loads_app, Hl, Hd.
Qed.

(** The run of [update_config] when [load_config] returns a dictionary. *)
Lemma update_config_run {W} (E : Config.Env W) (s : Config.State W) key value d :
  (Config.load_config E s).1 = Ok (Config.JDict d) →
  let written := Config.JDict (Config.dict_set key value d) in
  let r := Config.update_config E key value s in
  r = Config.save_config E written (Config.load_config E s).2
  ∧ Config.dumps (Config.emitted s r.2) = [written].
Proof.
  intros Hload written r. subst written r.
  assert (Config.update_config E key value s
          = Config.save_config E (Config.JDict (Config.dict_set key value d))
              (Config.load_config E s).2) as Heq.
  { unfold Config.update_config, Config.bind.
    destruct (Config.load_config E s) as [o s1]. cbn [fst snd] in *.
    by subst o. }
  split; [done|]. rewrite Heq.
  rewrite load_config_run. cbv zeta. cbn [snd].
  rewrite save_config_run. cbv zeta. cbn [snd Config.world Config.trace].
  rewrite <- app_assoc. erewrite cfg_emitted_app by done.
  rewrite cfg_dumps_app.
  destruct (load_run_cases E (Config.world s)) as [-> _].
  by destruct (save_run_dumps E (Config.JDict (Config.dict_set key value d))
                 (Config.load_run E (Config.world s)).1.2) as [-> _].
Qed.



(** X20. A setting that was updated is read back: when [update_config key
    value] returned [True] and the next [get_config_value key] reads from
    the file what that update wrote, it returns [value], whatever
    [default] is. *)
Theorem updated_setting_is_read_back {W} (E : Config.Env W)
    (s : Config.State W) key value default :
  let r1 := Config.update_config E key value s in
  let r2 := Config.get_config_value E key default r1.2 in
  r1.1 = Ok true →
  Config.loads (Config.emitted r1.2 r2.2)
    = Some <$> Config.dumps (Config.emitted s r1.2) →
  r2.1 = Ok value.
Proof.
  intros r1 r2 Hok Hread. subst r2.
  assert (∃ d, (Config.load_config E s).1 = Ok (Config.JDict d)) as [d Hload].
  { subst r1. unfold Config.update_config, Config.bind in Hok.
    rewrite load_config_run in *. cbv zeta in *. cbn [fst] in *.
    destruct (Config.load_run E (Config.world s)).1.1; try done. by eexists. }
  destruct (update_config_run E s key value d Hload) as [_ Hdumps].
  fold r1 in Hdumps. rewrite Hdumps in Hread. cbn [fmap list_fmap] in Hread.
  unfold Config.get_config_value, Config.bind in *.
  rewrite load_config_run in *. cbv zeta in *. cbn [fst snd] in *.
  erewrite cfg_emitted_app in Hread by done.
  destruct (load_run_cases E (Config.world r1.2))
    as [_ [[Hl _]|[(Hl & _)|(v & Hl & Hv)]]]; [congruence..|].
  rewrite Hl in Hread. injection Hread as ->.
  rewrite filled_dict in Hv. destruct Hv as [Hv|(e & He & _)]; [|congruence].
  assert ((Config.load_run E (Config.world r1.2)).1.1
          = Config.JDict (Config.completed Config.DEFAULT_CONFIG
                            (Config.dict_set key value d))) as ->
    by congruence.
  unfold Config.lift. cbn [Config.py_get of_sum fst].
  rewrite completed_get by (apply cfg_dict_set_keys; by right).
  by rewrite cfg_dict_get_set_eq.
Qed.

Lemma updated_setting_is_read_back_witness :
  let s := Config.mkState (Config.mkDisk [] []) [] in
  let key := py "tesseract_path" in
  let value := Config.JStr (py "/usr/bin/tesseract") in
  let r1 := Config.update_config Config.memory_env key value s in
  let r2 := Config.get_config_value Config.memory_env key Config.JNull r1.2 in
  r2.1 = Ok value.
Proof.
  apply (updated_setting_is_read_back Config.memory_env
           (Config.mkState (Config.mkDisk [] []) []) (py "tesseract_path")
           (Config.JStr (py "/usr/bin/tesseract")) Config.JNull).
  - vm_compute. reflexivity.
  - vm_compute. reflexivity.
Defined.

(** * Properties of [gui.py] *)

Ltac gui_unfold :=
  unfold Gui.gbind, Gui.gret, Gui.gtry, Gui.of_batch, Gui.of_config, Gui.emit,
    Gui.get_app, Gui.set_app, Gui.ask, Gui.set_last_input_dir;
  cbn [Gui.base Gui.cfg_trace Gui.gui_trace Gui.app].

Ltac gui_unfold_in H :=
  unfold Gui.gbind, Gui.gret, Gui.gtry, Gui.of_batch, Gui.of_config, Gui.emit,
    Gui.get_app, Gui.set_app, Gui.ask, Gui.set_last_input_dir in H;
  cbn [Gui.base Gui.cfg_trace Gui.gui_trace Gui.app] in H.

Ltac gui_simpl :=
  cbn [fst snd Gui.base Gui.cfg_trace Gui.gui_trace Gui.app].


Lemma gui_emitted_app {W} (s s' : Gui.Session W) evs :
  Gui.gui_trace s' = Gui.gui_trace s ++ evs → Gui.gui_emitted s s' = evs.
Proof. unfold Gui.gui_emitted. intros ->. by rewrite drop_app_length. Qed.

Lemma save_to_json_returns {W image} (E : Env W image) (s : State W)
    self results output_path :
  ∃ b, (save_to_json E self results output_path s).1 = Ok b.
Proof.
  destruct (heap s !! results) as [[xs|d|b]|] eqn:Hres.
  2: { rewrite (save_to_json_dict E s self results d output_path) by done.
       by eexists. }
  all: rewrite save_to_json_not_dict by (intros d; congruence); by eexists.
Qed.

Lemma save_results_returns {W image} (E : Env W image) (s : State W)
    self results path :
  ∃ b, (Gui.save_results E self results path s).1 = Ok b.
Proof.
  destruct path as [output_path|]; [apply save_to_json_returns|].
  unfold Gui.save_results, try_except, bind.
  destruct (Gui.format_results E results s) as [[l|e] s1];
    unfold raise, print, ret; by eexists.
Qed.

(** ** [_run_processing] *)

(** X21. [_run_processing] never raises, and it schedules the end of the run
    exactly once: the error handler alone, or the completion handler,
    preceded in display mode by the text to show. *)
Theorem run_processing_schedules_one_ending {W image} (E : Env W image)
    (TK : Gui.Toolkit W) (s : Gui.Session W) :
  let r := Gui._run_processing E TK s in
  r.1 = Ok tt
  ∧ Gui.app r.2 = Gui.app s
  ∧ Gui.cfg_trace r.2 = Gui.cfg_trace s
  ∧ (Gui.gui_emitted s r.2 = [Gui.AfterError]
     ∨ (∃ text, Gui.gui_emitted s r.2
                = [Gui.AfterDisplay text; Gui.AfterComplete true true])
     ∨ (∃ success, Gui.gui_emitted s r.2 = [Gui.AfterComplete success false])).
Proof.
  intros r. subst r. destruct s as [b c g a].
  unfold Gui._run_processing. gui_unfold.
  destruct (process_batch E (Gui.ocr_processor a) (Gui.selected_files a)
              (Some (Gui._update_progress TK)) b) as [[results|e] b1];
    gui_simpl.
  2: { repeat split. left. by apply gui_emitted_app. }
  destruct (Gui.display_output_var_get TK (world b1)); gui_simpl.
  - destruct (Gui.format_results E results b1) as [[fr|e] b2]; gui_simpl.
    2: { repeat split. left. by apply gui_emitted_app. }
    destruct (items fr b2) as [[d|e] b3]; gui_simpl; repeat split.
    + right; left. eexists. apply gui_emitted_app. cbn [Gui.gui_trace].
      by rewrite <- app_assoc.
    + left. by apply gui_emitted_app.
  - destruct (save_results_returns E b1 (Gui.ocr_processor a) results
                (Gui.output_path a)) as [success Hsave].
    destruct (Gui.save_results E (Gui.ocr_processor a) results
                (Gui.output_path a) b1) as [o b2]. cbn [fst] in Hsave. subst o.
    gui_simpl. repeat split.
    right; right. exists success. by apply gui_emitted_app.
Qed.

(** X22. With an unavailable engine and a non-empty selection the run ends in
    the error handler: nothing is displayed, nothing is saved, and the
    only thing that happened is the progress notification of the first
    image. *)
Theorem run_processing_unavailable {W image} (E : Env W image)
    (TK : Gui.Toolkit W) (s : Gui.Session W) path paths :
  heap (Gui.base s) !! Gui.ocr_processor (Gui.app s)
    = Some (PyBatchOCR (Some false)) →
  heap (Gui.base s) !! Gui.selected_files (Gui.app s)
    = Some (PyList (path :: paths)) →
  let r := Gui._run_processing E TK s in
  r.1 = Ok tt
  ∧ Gui.gui_emitted s r.2 = [Gui.AfterError]
  ∧ emitted (Gui.base s) (Gui.base r.2)
    = [EvProgress 0 (S (length paths)) (basename E path)]
  ∧ disk_writes (emitted (Gui.base s) (Gui.base r.2)) = [].
Proof.
  intros Hproc Hsel r. subst r. destruct s as [b c g a].
  cbn [Gui.base Gui.app] in *.
  unfold Gui._run_processing. gui_unfold.
  rewrite (process_batch_unavailable E b _ _ path paths) by done.
  cbv zeta. unfold Gui._update_progress. gui_simpl.
  split; [done|]. split; [by apply gui_emitted_app|].
  erewrite emitted_app by done. done.
Qed.

Lemma run_processing_unavailable_witness :
  let s := Gui.demo_session false [py "/in/a.png"; py "/in/b.png"]
             (Some (py "out.json")) in
  let r := Gui._run_processing demo_env Gui.demo_toolkit s in
  r.1 = Ok tt
  ∧ Gui.gui_emitted s r.2 = [Gui.AfterError]
  ∧ emitted (Gui.base s) (Gui.base r.2)
    = [EvProgress 0 2 (basename demo_env (py "/in/a.png"))]
  ∧ disk_writes (emitted (Gui.base s) (Gui.base r.2)) = [].
Proof.
  apply (run_processing_unavailable demo_env Gui.demo_toolkit
           (Gui.demo_session false [py "/in/a.png"; py "/in/b.png"]
              (Some (py "out.json")))
           (py "/in/a.png") [py "/in/b.png"]); reflexivity.
Defined.




Example run_processing_saves :
  let s := Gui.demo_session true [py "/in/a.png"] (Some (py "out.json")) in
  let r := Gui._run_processing demo_env Gui.demo_toolkit s in
  Gui.gui_emitted s r.2 = [Gui.AfterComplete true false]
  ∧ disk_writes (trace (Gui.base r.2)) = [py "out.json"; py "out.json"].
Proof. vm_compute. done. Qed.

(** ** [_process_images] *)

(** X24. [_process_images] starts the processing thread exactly when the
    selection is not empty and an output is configured (a path, or the
    display box ticked).  It then first disables the eight controls;
    otherwise it shows one warning and changes nothing. *)
Theorem process_images_starts_when_ready {W} (TK : Gui.Toolkit W)
    (s : Gui.Session W) xs :
  heap (Gui.base s) !! Gui.selected_files (Gui.app s) = Some (PyList xs) →
  let r := Gui._process_images TK s in
  let ready :=
    bool_decide (xs ≠ [])
    && (truthy (Gui.output_path (Gui.app s))
        || Gui.display_output_var_get TK (world (Gui.base s))) in
  r.1 = Ok tt
  ∧ Gui.base r.2 = Gui.base s
  ∧ Gui.app r.2 = Gui.app s
  ∧ Gui.cfg_trace r.2 = Gui.cfg_trace s
  ∧ (ready = true →
     Gui.gui_emitted s r.2
     = ((λ w, Gui.SetState w false)
          <$> [Gui.add_btn; Gui.add_folder_btn; Gui.paste_btn; Gui.clear_btn;
               Gui.output_btn; Gui.display_output_checkbox; Gui.tesseract_btn;
               Gui.process_btn])
       ++ [Gui.ThreadStart])
  ∧ (ready = false →
     ∃ title message,
       Gui.gui_emitted s r.2 = [Gui.ShowWarning title message]).
Proof.
  intros Hsel r ready. subst r ready. destruct s as [b c g a].
  cbn [Gui.base Gui.app] in *.
  unfold Gui._process_images, Gui._set_ui_state. gui_unfold.
  unfold Gui.list_bool. rewrite Hsel.
  destruct xs as [|x xs]; gui_simpl.
  - repeat split; [done|]. intros _. eexists _, _. by apply gui_emitted_app.
  - rewrite bool_decide_eq_true_2 by done. cbn [negb andb].
    destruct (truthy (Gui.output_path a)); cbn [negb orb]; gui_simpl.
    + repeat split; [|done]. intros _. apply gui_emitted_app.
      cbn [Gui.gui_trace]. by rewrite <- !app_assoc.
    + destruct (Gui.display_output_var_get TK (world b)); cbn [negb];
        gui_simpl.
      * repeat split; [|done]. intros _. apply gui_emitted_app.
        cbn [Gui.gui_trace]. by rewrite <- !app_assoc.
      * repeat split; [done|]. intros _. eexists _, _.
        by apply gui_emitted_app.
Qed.

Lemma process_images_starts_when_ready_witness :
  let s := Gui.demo_session true [py "/in/a.png"] None in
  let r := Gui._process_images Gui.demo_toolkit s in
  let ready :=
    bool_decide ([py "/in/a.png"] ≠ [])
    && (truthy (Gui.output_path (Gui.app s))
        || Gui.display_output_var_get Gui.demo_toolkit (world (Gui.base s))) in
  r.1 = Ok tt
  ∧ Gui.base r.2 = Gui.base s
  ∧ Gui.app r.2 = Gui.app s
  ∧ Gui.cfg_trace r.2 = Gui.cfg_trace s
  ∧ (ready = true →
     Gui.gui_emitted s r.2
     = ((λ w, Gui.SetState w false)
          <$> [Gui.add_btn; Gui.add_folder_btn; Gui.paste_btn; Gui.clear_btn;
               Gui.output_btn; Gui.display_output_checkbox; Gui.tesseract_btn;
               Gui.process_btn])
       ++ [Gui.ThreadStart])
  ∧ (ready = false →
     ∃ title message,
       Gui.gui_emitted s r.2 = [Gui.ShowWarning title message]).
Proof.
  apply (process_images_starts_when_ready Gui.demo_toolkit
           (Gui.demo_session true [py "/in/a.png"] None) [py "/in/a.png"]).
  reflexivity.
Defined.

(** ** [_set_tesseract_path] *)

(** X25. When an executable is chosen, the application switches to a new
    [BatchOCR] built for it, whether the probe of that executable
    succeeds or not, and the command of [pytesseract] becomes the chosen
    file.  The settings are touched only when the probe succeeded; when
    it failed an error is shown and nothing is saved. *)
Theorem set_tesseract_path_saves_only_a_working_engine {W image}
    (E : Env W image) (CE : Config.Env W) (TK : Gui.Toolkit W)
    (s : Gui.Session W) file w1 :
  Gui.askopenfilename TK (world (Gui.base s)) = (file, w1) →
  file ≠ [] →
  let r := Gui._set_tesseract_path E CE TK s in
  let ok := bool_decide ((get_tesseract_version E file w1).1 = None) in
  Gui.ocr_processor (Gui.app r.2) = length (heap (Gui.base s))
  ∧ Gui.tesseract_path (Gui.app r.2) = Some file
  ∧ Gui.selected_files (Gui.app r.2) = Gui.selected_files (Gui.app s)
  ∧ heap (Gui.base r.2) = heap (Gui.base s) ++ [PyBatchOCR (Some ok)]
  ∧ tesseract_cmd (Gui.base r.2) = file
  ∧ probes (emitted (Gui.base s) (Gui.base r.2)) = [ok]
  ∧ (ok = false →
     r.1 = Ok tt
     ∧ Gui.cfg_trace r.2 = Gui.cfg_trace s
     ∧ last (Gui.gui_emitted s r.2)
       = Some (Gui.ShowError (py "Configuration Error")
                 (py "The selected file does not appear to be a valid Tesseract executable.")))
  ∧ (ok = true →
     let saved := Config.update_config CE (py "tesseract_path") (Config.JStr file)
                    (Config.mkState (get_tesseract_version E file w1).2
                       (Gui.cfg_trace s)) in
     Gui.cfg_trace r.2 = Config.trace saved.2
     ∧ (is_raise saved.1 = false → r.1 = Ok tt)).
Proof.
  intros Hask Hfile r ok. subst r ok. destruct s as [b c g a].
  cbn [Gui.base Gui.app Gui.cfg_trace] in *.
  unfold Gui._set_tesseract_path. gui_unfold. rewrite Hask.
  destruct file as [|ch file]; [done|]. gui_simpl.
  rewrite BatchOCR_run. cbv zeta.
  unfold configured_cmd, discovered_cmd. cbn [truthy negb from_option id].
  cbn [world set_world heap tesseract_cmd trace]. gui_simpl.
  set (probe := get_tesseract_version E (ch :: file) w1).
  set (ok := bool_decide (probe.1 = None)).
  unfold get_tesseract_available. cbn [heap].
  rewrite lookup_app_r, Nat.sub_diag by done. cbn [lookup list_lookup].
  unfold ret. gui_simpl. cbn [Gui.ocr_processor Gui.tesseract_path Gui.selected_files].
  destruct ok eqn:Hok; gui_simpl;
    cbn [world set_world heap tesseract_cmd trace].
  - destruct (Config.update_config CE (py "tesseract_path")
                (Config.JStr (ch :: file)) (Config.mkState probe.2 c))
      as [[saved|e] c1] eqn:Hsaved; gui_simpl; unfold set_world;
      cbn [Gui.ocr_processor Gui.tesseract_path Gui.selected_files
           world heap tesseract_cmd trace];
      (split; [done|]); (split; [done|]); (split; [done|]);
      (split; [done|]); (split; [done|]);
      (split; [by erewrite emitted_app by done|]);
      (split; [done|]); intros _; cbv zeta; cbn [fst snd is_raise];
      (split; [reflexivity | intros H; first [reflexivity | discriminate H]]).
  - split; [done|]. split; [done|]. split; [done|]. split; [done|].
    split; [done|]. split; [by erewrite emitted_app by done|].
    split; [|done]. intros _. split; [done|]. split; [done|].
    erewrite gui_emitted_app
      by (cbn [Gui.gui_trace]; by rewrite <- app_assoc).
    done.
Qed.

Lemma set_tesseract_path_saves_only_a_working_engine_witness :
  let s := Gui.disk_session [py "/in/a.png"] in
  let file := py "/opt/missing/tesseract" in
  let w1 := Config.mkDisk [] [] in
  let r := Gui._set_tesseract_path Gui.disk_env Config.memory_env
             Gui.disk_toolkit s in
  let ok := bool_decide ((get_tesseract_version Gui.disk_env file w1).1 = None) in
  Gui.ocr_processor (Gui.app r.2) = length (heap (Gui.base s))
  ∧ Gui.tesseract_path (Gui.app r.2) = Some file
  ∧ Gui.selected_files (Gui.app r.2) = Gui.selected_files (Gui.app s)
  ∧ heap (Gui.base r.2) = heap (Gui.base s) ++ [PyBatchOCR (Some ok)]
  ∧ tesseract_cmd (Gui.base r.2) = file
  ∧ probes (emitted (Gui.base s) (Gui.base r.2)) = [ok]
  ∧ (ok = false →
     r.1 = Ok tt
     ∧ Gui.cfg_trace r.2 = Gui.cfg_trace s
     ∧ last (Gui.gui_emitted s r.2)
       = Some (Gui.ShowError (py "Configuration Error")
                 (py "The selected file does not appear to be a valid Tesseract executable.")))
  ∧ (ok = true →
     let saved := Config.update_config Config.memory_env (py "tesseract_path")
                    (Config.JStr file)
                    (Config.mkState (get_tesseract_version Gui.disk_env file w1).2
                       (Gui.cfg_trace s)) in
     Gui.cfg_trace r.2 = Config.trace saved.2
     ∧ (is_raise saved.1 = false → r.1 = Ok tt)).
Proof.
  apply (set_tesseract_path_saves_only_a_working_engine Gui.disk_env
           Config.memory_env Gui.disk_toolkit
           (Gui.disk_session [py "/in/a.png"]) (py "/opt/missing/tesseract")
           (Config.mkDisk [] [])).
  - reflexivity.
  - vm_compute. discriminate.
Defined.

(** ** Selecting files *)

Section Selecting.

Context {W image : Type}.
Variable E : Env W image.
Variable CE : Config.Env W.
Variable TK : Gui.Toolkit W.

Lemma selected_from_snoc xs cs p :
  Gui.selected_from xs (cs ++ [p])
  = (if bool_decide (p ∈ Gui.selected_from xs cs) then Gui.selected_from xs cs
     else Gui.selected_from xs cs ++ [p]).
Proof. unfold Gui.selected_from. by rewrite foldl_snoc. Qed.

(** What [selected_from] adds: only candidates that were not selected,
    each once, and every candidate ends up selected. *)
Lemma selected_from_spec cs :
  ∀ xs, ∃ new, Gui.selected_from xs cs = xs ++ new
               ∧ (∀ p, p ∈ new → p ∈ cs ∧ p ∉ xs)
               ∧ (∀ p, p ∈ cs → p ∈ xs ++ new)
               ∧ (NoDup xs → NoDup (xs ++ new)).
Proof.
  induction cs as [|c cs IH] using rev_ind; intros xs.
  - exists []. rewrite app_nil_r. split; [done|]. split; [|split; [|done]].
    + intros p Hp. by apply elem_of_nil in Hp.
    + intros p Hp. by apply elem_of_nil in Hp.
  - rewrite selected_from_snoc.
    destruct (IH xs) as (new & -> & Hsub & Hall & Hnd).
    case_bool_decide as Hin.
    + exists new. split; [done|]. split; [|split; [|done]].
      * intros p Hp. destruct (Hsub p Hp) as [? ?]. split; [|done].
        apply elem_of_app. by left.
      * intros p Hp. apply elem_of_app in Hp as [Hp|Hp]; [by apply Hall|].
        by apply list_elem_of_singleton in Hp as ->.
    + exists (new ++ [c]). split; [by rewrite app_assoc|].
      split; [|split].
      * intros p Hp. apply elem_of_app in Hp as [Hp|Hp].
        -- destruct (Hsub p Hp) as [? ?]. split; [|done].
           apply elem_of_app. by left.
        -- apply list_elem_of_singleton in Hp as ->. split.
           ++ apply elem_of_app. right. apply list_elem_of_here.
           ++ intros Hc. apply Hin. apply elem_of_app. by left.
      * intros p Hp. rewrite app_assoc. apply elem_of_app.
        apply elem_of_app in Hp as [Hp|Hp]; [left; by apply Hall|by right].
      * intros Hxs. rewrite app_assoc. apply NoDup_app. split; [by apply Hnd|].
        split; [|apply NoDup_singleton].
        intros p Hp Hpc. by apply list_elem_of_singleton in Hpc as ->.
Qed.

Lemma listbox_snoc_insert evs label :
  Gui.listbox (evs ++ [Gui.ListInsert label]) = Gui.listbox evs ++ [label].
Proof. unfold Gui.listbox. by rewrite foldl_snoc. Qed.

Lemma listbox_snoc_warning evs title message :
  Gui.listbox (evs ++ [Gui.ShowWarning title message]) = Gui.listbox evs.
Proof. unfold Gui.listbox. by rewrite foldl_snoc. Qed.

Lemma drop_selected_from xs p cs :
  drop (length xs) (Gui.selected_from (xs ++ [p]) cs)
  = p :: drop (length (xs ++ [p])) (Gui.selected_from (xs ++ [p]) cs).
Proof.
  destruct (selected_from_spec cs (xs ++ [p])) as (new & -> & _).
  rewrite drop_app_length. rewrite <- app_assoc. by rewrite drop_app_length.
Qed.

Lemma selected_from_cons xs p cs :
  Gui.selected_from xs (p :: cs)
  = Gui.selected_from (if bool_decide (p ∈ xs) then xs else xs ++ [p]) cs.
Proof. reflexivity. Qed.

Lemma offered_inl p steps : Gui.offered (inl p :: steps) = p :: Gui.offered steps.
Proof. reflexivity. Qed.

Lemma offered_inr m steps : Gui.offered (inr m :: steps) = Gui.offered steps.
Proof. reflexivity. Qed.

Lemma warned_inl p steps : Gui.warned (inl p :: steps) = Gui.warned steps.
Proof. reflexivity. Qed.

Lemma warned_inr m steps : Gui.warned (inr m :: steps) = m :: Gui.warned steps.
Proof. reflexivity. Qed.

(** The run of a list of steps on a session whose selection is [xs]. *)
Lemma act_loop steps :
  ∀ (b : State W) c g a xs,
    heap b !! Gui.selected_files a = Some (PyList xs) →
    ∃ evs,
      Gui.gfor steps (Gui.act E) (Gui.mkSession b c g a)
      = (Ok tt,
         Gui.mkSession
           (set_heap (<[Gui.selected_files a :=
                          PyList (Gui.selected_from xs (Gui.offered steps))]>
                        (heap b)) b)
           c (g ++ evs) a)
      ∧ Gui.warnings evs = Gui.warned steps
      ∧ length evs
        = length (drop (length xs) (Gui.selected_from xs (Gui.offered steps)))
          + length (Gui.warned steps)
      ∧ Gui.listbox (g ++ evs)
        = Gui.listbox g
          ++ (basename E
                <$> drop (length xs) (Gui.selected_from xs (Gui.offered steps))).
Proof.
  induction steps as [|step steps IH]; intros b c g a xs Hsel.
  - exists []. simpl. unfold Gui.gret, set_heap. rewrite list_insert_id by done.
    rewrite drop_all, !app_nil_r. by destruct b.
  - pose proof (lookup_lt_Some _ _ _ Hsel) as Hlt.
    destruct step as [p|[title message]].
    + cbn [Gui.gfor Gui.act]. unfold Gui.select. gui_unfold.
      unfold Gui.list_contains, Gui.list_append. rewrite Hsel.
      rewrite offered_inl, selected_from_cons.
      case_bool_decide as Hin; cbn [negb]; gui_simpl.
      * destruct (IH b c g a xs Hsel) as (evs & -> & Hw & Hn & Hl).
        by exists evs.
      * rewrite Hsel. gui_simpl.
        destruct (IH (set_heap (<[Gui.selected_files a := PyList (xs ++ [p])]>
                                  (heap b)) b)
                    c (g ++ [Gui.ListInsert (basename E p)]) a (xs ++ [p]))
          as (evs & -> & Hw & Hn & Hl).
        { unfold set_heap. cbn [heap]. by rewrite list_lookup_insert_eq. }
        exists (Gui.ListInsert (basename E p) :: evs).
        unfold set_heap. cbn [heap tesseract_cmd world trace].
        rewrite list_insert_insert_eq.
        rewrite <- app_assoc in Hl. rewrite <- !app_assoc. cbn [app].
        split; [done|]. split; [by rewrite warned_inl|].
        split.
        { rewrite drop_selected_from, warned_inl. cbn [length]. by rewrite Hn. }
        cbn [app] in Hl. rewrite Hl. rewrite listbox_snoc_insert.
        rewrite drop_selected_from. rewrite fmap_cons.
        by rewrite <- app_assoc.
    + cbn [Gui.gfor Gui.act]. gui_unfold.
      rewrite offered_inr, warned_inr.
      destruct (IH b c (g ++ [Gui.ShowWarning title message]) a xs Hsel)
        as (evs & -> & Hw & Hn & Hl).
      exists (Gui.ShowWarning title message :: evs).
      rewrite <- app_assoc in Hl. rewrite <- !app_assoc. cbn [app] in *.
      split; [done|]. split; [|split].
      * cbn [Gui.warnings]. by rewrite Hw.
      * cbn [length]. rewrite Hn. lia.
      * rewrite Hl. by rewrite listbox_snoc_warning.
Qed.

Lemma synced_frame (s s' : Gui.Session W) :
  heap (Gui.base s') = heap (Gui.base s) →
  Gui.selected_files (Gui.app s') = Gui.selected_files (Gui.app s) →
  Gui.gui_trace s' = Gui.gui_trace s →
  Gui.synced E s → Gui.synced E s'.
Proof. unfold Gui.synced. by intros -> -> ->. Qed.

Lemma selection_frame (s s' : Gui.Session W) :
  heap (Gui.base s') = heap (Gui.base s) →
  Gui.selected_files (Gui.app s') = Gui.selected_files (Gui.app s) →
  Gui.selection s' = Gui.selection s.
Proof. unfold Gui.selection. by intros -> ->. Qed.

(** The same, for a session as a whole. *)
Lemma steps_spec steps (s : Gui.Session W) xs :
  heap (Gui.base s) !! Gui.selected_files (Gui.app s) = Some (PyList xs) →
  let r := Gui.gfor steps (Gui.act E) s in
  ∃ new,
    r.1 = Ok tt
    ∧ Gui.selected_from xs (Gui.offered steps) = xs ++ new
    ∧ heap (Gui.base r.2)
      = <[Gui.selected_files (Gui.app s) := PyList (xs ++ new)]>
          (heap (Gui.base s))
    ∧ Gui.selection r.2 = xs ++ new
    ∧ Gui.listbox (Gui.gui_trace r.2)
      = Gui.listbox (Gui.gui_trace s) ++ (basename E <$> new)
    ∧ Gui.warnings (Gui.gui_emitted s r.2) = Gui.warned steps
    ∧ length (Gui.gui_emitted s r.2) = length new + length (Gui.warned steps)
    ∧ (Gui.synced E s → Gui.synced E r.2)
    ∧ Gui.app r.2 = Gui.app s
    ∧ Gui.cfg_trace r.2 = Gui.cfg_trace s
    ∧ world (Gui.base r.2) = world (Gui.base s)
    ∧ trace (Gui.base r.2) = trace (Gui.base s)
    ∧ tesseract_cmd (Gui.base r.2) = tesseract_cmd (Gui.base s)
    ∧ heap (Gui.base r.2) !! Gui.selected_files (Gui.app r.2)
      = Some (PyList (xs ++ new)).
Proof.
  intros Hsel r. subst r. destruct s as [b c g a]. cbn [Gui.base Gui.app] in *.
  destruct (act_loop steps b c g a xs Hsel) as (evs & -> & Hw & Hn & Hl).
  destruct (selected_from_spec (Gui.offered steps) xs)
    as (new & Hnew & Hsub & Hall & Hnd).
  rewrite Hnew in *. rewrite drop_app_length in *.
  pose proof (lookup_lt_Some _ _ _ Hsel) as Hlt.
  exists new. gui_simpl. unfold set_heap. cbn [heap tesseract_cmd world trace].
  assert (Gui.gui_emitted (Gui.mkSession b c g a)
            (Gui.mkSession (mkState (<[Gui.selected_files a := PyList (xs ++ new)]>
                                       (heap b))
                              (tesseract_cmd b) (world b) (trace b))
               c (g ++ evs) a) = evs) as Hem by (by apply gui_emitted_app).
  rewrite Hem.
  repeat split; try done.
  - unfold Gui.selection. gui_simpl. cbn [heap].
    by rewrite list_lookup_insert_eq.
  - intros (xs' & Hxs' & Hnd' & Hbox). cbn [Gui.base Gui.app] in Hxs'.
    assert (xs' = xs) as -> by congruence.
    exists (xs ++ new). gui_simpl. cbn [heap].
    rewrite list_lookup_insert_eq by done. split; [done|].
    split; [by apply Hnd|]. cbn [Gui.gui_trace] in Hbox.
    by rewrite Hl, Hbox, fmap_app.
  - by rewrite list_lookup_insert_eq.
Qed.

Lemma gbind_ret_tt (m : Gui.G (W := W) unit) s :
  Gui.gbind m (λ _, Gui.gret tt) s = m s.
Proof. unfold Gui.gbind, Gui.gret. by destruct (m s) as [[[]|e] s']. Qed.

Lemma gfor_app {A} (xs ys : list A) (body : A → Gui.G (W := W) unit) s :
  Gui.gfor (xs ++ ys) body s
  = Gui.gbind (Gui.gfor xs body) (λ _, Gui.gfor ys body) s.
Proof.
  revert s. induction xs as [|x xs IH]; intros s.
  { cbn [app Gui.gfor]. unfold Gui.gbind, Gui.gret. done. }
  cbn [app Gui.gfor]. unfold Gui.gbind.
  destruct (body x s) as [[[]|e] s']; [|done]. by rewrite IH.
Qed.

(** The two loops of [_add_folder_from_path] offer the image files of
    the walk, folder after folder. *)
Lemma folder_files_steps root files (s : Gui.Session W) :
  Gui.gfor files
    (λ file,
       if Gui.endswith_image_extension (Gui.str_lower TK file) then
         Gui.select (Gui.os_path_join TK root file)
           (basename E (Gui.os_path_join TK root file))
       else Gui.gret tt) s
  = Gui.gfor
      (inl <$> map (Gui.os_path_join TK root)
                 (List.filter
                    (λ file, Gui.endswith_image_extension (Gui.str_lower TK file))
                    files))
      (Gui.act E) s.
Proof.
  revert s. induction files as [|file files IH]; intros s; [done|].
  cbn [Gui.gfor List.filter].
  destruct (Gui.endswith_image_extension (Gui.str_lower TK file)).
  - cbn [map fmap list_fmap Gui.gfor Gui.act]. unfold Gui.gbind.
    destruct (Gui.select _ _ s) as [[[]|e] s']; [|done]. apply IH.
  - unfold Gui.gbind, Gui.gret. apply IH.
Qed.

Lemma add_folder_steps folder (s : Gui.Session W) :
  Gui._add_folder_from_path E TK folder s
  = Gui.gfor (inl <$> Gui.walked_images TK folder (world (Gui.base s)))
      (Gui.act E) s.
Proof.
  unfold Gui._add_folder_from_path, Gui.walked_images. unfold Gui.gbind at 1.
  generalize (Gui.os_walk TK folder (world (Gui.base s))). intros walk.
  revert s. induction walk as [|[root files] walk IH]; intros s; [done|].
  cbn [Gui.gfor map concat fst snd]. rewrite fmap_app, gfor_app.
  unfold Gui.gbind. rewrite folder_files_steps.
  destruct (Gui.gfor _ (Gui.act E) s) as [[[]|e] s']; [|done]. apply IH.
Qed.

Lemma offered_inl_fmap ps : Gui.offered (inl <$> ps) = ps.
Proof. induction ps as [|p ps IH]; [done|]. cbn [fmap list_fmap]. by rewrite offered_inl, IH. Qed.

Lemma warned_inl_fmap (ps : list pystr) : Gui.warned (inl <$> ps) = [].
Proof. induction ps as [|p ps IH]; [done|]. cbn [fmap list_fmap]. by rewrite warned_inl. Qed.

(** X26. [_add_folder_from_path] returns normally and appends to the
    selection, in the order of the walk, the walked files with an image
    extension that are not selected yet: each of them ends up selected,
    nothing else is added, the list box receives the basenames of the
    added paths, no warning is shown, and a selection that agrees with
    the list box stays so. *)
Theorem add_folder_from_path_selects_new_images (s : Gui.Session W) folder xs :
  heap (Gui.base s) !! Gui.selected_files (Gui.app s) = Some (PyList xs) →
  let r := Gui._add_folder_from_path E TK folder s in
  let found := Gui.walked_images TK folder (world (Gui.base s)) in
  r.1 = Ok tt
  ∧ Gui.selection r.2 = Gui.selected_from xs found
  ∧ (∃ new, Gui.selection r.2 = xs ++ new
            ∧ (∀ p, p ∈ new → p ∈ found ∧ p ∉ xs)
            ∧ Gui.listbox (Gui.gui_trace r.2)
              = Gui.listbox (Gui.gui_trace s) ++ (basename E <$> new)
            ∧ length (Gui.gui_emitted s r.2) = length new)
  ∧ (∀ p, p ∈ found → p ∈ Gui.selection r.2)
  ∧ Gui.warnings (Gui.gui_emitted s r.2) = []
  ∧ (Gui.synced E s → Gui.synced E r.2)
  ∧ Gui.app r.2 = Gui.app s
  ∧ Gui.cfg_trace r.2 = Gui.cfg_trace s
  ∧ world (Gui.base r.2) = world (Gui.base s).
Proof.
  intros Hsel r found. subst r found. rewrite add_folder_steps.
  destruct (steps_spec (inl <$> Gui.walked_images TK folder (world (Gui.base s)))
              s xs Hsel)
    as (new & Hok & Hnew & Hheap & Hsel' & Hbox & Hwarn & Hlen & Hsync
        & Happ & Hcfg & Hworld & _).
  rewrite offered_inl_fmap in Hnew. rewrite warned_inl_fmap in Hwarn, Hlen.
  destruct (selected_from_spec
              (Gui.walked_images TK folder (world (Gui.base s))) xs)
    as (new' & Hnew' & Hsub & Hall & _).
  assert (new' = new) as -> by (rewrite Hnew in Hnew'; by simplify_list_eq).
  split; [done|]. split; [by rewrite Hsel', Hnew|]. split.
  { exists new. split; [done|]. split; [done|]. split; [done|].
    cbn [length] in Hlen. lia. }
  split; [intros p Hp; rewrite Hsel'; by apply Hall|]. done.
Qed.

Lemma selected_from_all_in cs :
  ∀ xs, (∀ p, p ∈ cs → p ∈ xs) → Gui.selected_from xs cs = xs.
Proof.
  induction cs as [|c cs IH]; intros xs Hin; [done|].
  rewrite selected_from_cons.
  rewrite bool_decide_eq_true_2 by (apply Hin; apply list_elem_of_here).
  apply IH. intros p Hp. apply Hin. by apply list_elem_of_further.
Qed.

(** X27. Adding the same folder a second time, right after the first,
    changes nothing: the selection is the same and Tk is not called. *)
Theorem add_folder_from_path_twice_adds_nothing (s : Gui.Session W) folder xs :
  heap (Gui.base s) !! Gui.selected_files (Gui.app s) = Some (PyList xs) →
  let r1 := Gui._add_folder_from_path E TK folder s in
  let r2 := Gui._add_folder_from_path E TK folder r1.2 in
  r2.1 = Ok tt
  ∧ Gui.selection r2.2 = Gui.selection r1.2
  ∧ Gui.gui_emitted r1.2 r2.2 = [].
Proof.
  intros Hsel r1 r2. subst r1 r2. rewrite !add_folder_steps.
  destruct (steps_spec (inl <$> Gui.walked_images TK folder (world (Gui.base s)))
              s xs Hsel)
    as (new & Hok & Hnew & Hheap & Hsel' & Hbox & Hwarn & Hlen & Hsync
        & Happ & Hcfg & Hworld & Htrace & Hcmd & Hsel1).
  rewrite Hworld.
  destruct (steps_spec (inl <$> Gui.walked_images TK folder (world (Gui.base s)))
              _ (xs ++ new) Hsel1)
    as (new2 & Hok2 & Hnew2 & _ & Hsel2 & _ & _ & Hlen2 & _).
  rewrite offered_inl_fmap in Hnew, Hnew2. rewrite warned_inl_fmap in Hlen2.
  destruct (selected_from_spec
              (Gui.walked_images TK folder (world (Gui.base s))) xs)
    as (new' & Hnew' & _ & Hall & _).
  assert (new' = new) as -> by (rewrite Hnew in Hnew'; by simplify_list_eq).
  rewrite selected_from_all_in in Hnew2 by done.
  assert (new2 = []) as ->.
  { apply nil_length_inv. apply (f_equal length) in Hnew2.
    rewrite !length_app in Hnew2. lia. }
  split; [done|]. split; [by rewrite Hsel2, Hsel', app_nil_r|].
  cbn [length] in Hlen2. by apply nil_length_inv.
Qed.

Lemma files_steps files (s : Gui.Session W) :
  Gui.gfor files (λ file, Gui.select file (basename E file)) s
  = Gui.gfor (inl <$> files) (Gui.act E) s.
Proof.
  revert s. induction files as [|file files IH]; intros s; [done|].
  cbn [fmap list_fmap Gui.gfor Gui.act]. unfold Gui.gbind.
  destruct (Gui.select _ _ s) as [[[]|e] s']; [|done]. apply IH.
Qed.

(** X28. [_add_files] does nothing when the dialog returns no file.
    Otherwise it sets and saves [last_input_dir], the folder of the first
    file; when saving raises nothing is selected, and when it does not,
    every chosen file that is not selected yet is appended, whatever its
    extension.  A selection that agrees with the list box stays so. *)
Theorem add_files_selects_what_is_chosen (s : Gui.Session W) xs files w1 :
  heap (Gui.base s) !! Gui.selected_files (Gui.app s) = Some (PyList xs) →
  Gui.askopenfilenames TK (Gui.last_input_dir (Gui.app s)) (world (Gui.base s))
  = (files, w1) →
  let r := Gui._add_files E CE TK s in
  (files = [] →
   r.1 = Ok tt ∧ Gui.selection r.2 = xs ∧ Gui.gui_trace r.2 = Gui.gui_trace s
   ∧ Gui.cfg_trace r.2 = Gui.cfg_trace s ∧ Gui.app r.2 = Gui.app s)
  ∧ (∀ first rest, files = first :: rest →
     let last_dir := Gui.os_path_dirname TK first in
     let saved := Config.update_config CE (py "last_input_dir")
                    (Config.JStr last_dir)
                    (Config.mkState w1 (Gui.cfg_trace s)) in
     Gui.last_input_dir (Gui.app r.2) = last_dir
     ∧ Gui.cfg_trace r.2 = Config.trace saved.2
     ∧ (∀ e, saved.1 = Raise e →
        r.1 = Raise e ∧ Gui.selection r.2 = xs
        ∧ Gui.gui_trace r.2 = Gui.gui_trace s)
     ∧ (is_raise saved.1 = false →
        r.1 = Ok tt
        ∧ Gui.selection r.2 = Gui.selected_from xs files
        ∧ (∀ p, p ∈ files → p ∈ Gui.selection r.2)
        ∧ ∃ new, Gui.selection r.2 = xs ++ new
                 ∧ (∀ p, p ∈ new → p ∈ files ∧ p ∉ xs)
                 ∧ Gui.listbox (Gui.gui_trace r.2)
                   = Gui.listbox (Gui.gui_trace s) ++ (basename E <$> new)))
  ∧ (Gui.synced E s → Gui.synced E r.2).
Proof.
  intros Hsel Hask r. subst r. destruct s as [b c g a].
  cbn [Gui.base Gui.app Gui.cfg_trace Gui.gui_trace] in *.
  destruct (Gui._add_files E CE TK _) as [o s'] eqn:Hrun.
  unfold Gui._add_files, Gui.set_last_input_dir in Hrun.
  gui_unfold_in Hrun. rewrite Hask in Hrun.
  unfold set_world in Hrun.
  cbn [Gui.base Gui.cfg_trace Gui.gui_trace Gui.app
       heap tesseract_cmd world trace] in Hrun.
  destruct files as [|first rest].
  { injection Hrun as <- <-. unfold Gui.selection. gui_simpl. cbn [heap].
    rewrite Hsel. split; [done|]. split; [done|]. apply synced_frame; done. }
  cbn [Gui.base Gui.cfg_trace Gui.gui_trace Gui.app
       heap tesseract_cmd world trace] in Hrun.
  destruct (Config.update_config CE (py "last_input_dir")
              (Config.JStr (Gui.os_path_dirname TK first))
              (Config.mkState w1 c)) as [[ok|e] cs] eqn:Hsaved.
  - rewrite files_steps in Hrun.
    match type of Hrun with
    | Gui.gfor _ _ ?s2 = _ =>
        destruct (steps_spec (inl <$> first :: rest) s2 xs)
          as (new & Hok & Hnew & Hheap & Hsel' & Hbox & Hwarn & Hlen & Hsync
              & Happ & Hcfg & Hworld & _); [exact Hsel|]
    end.
    rewrite Hrun in *. cbn [fst snd Gui.base Gui.app Gui.cfg_trace
                              Gui.gui_trace heap] in *.
    rewrite offered_inl_fmap in Hnew.
    destruct (selected_from_spec (first :: rest) xs)
      as (new' & Hnew' & Hsub & Hall & _).
    assert (new' = new) as -> by (rewrite Hnew in Hnew'; by simplify_list_eq).
    split; [done|]. split.
    + intros first' rest' [= <- <-]. cbv zeta. rewrite Hsaved. gui_simpl.
      rewrite Happ, Hcfg. split; [done|]. split; [done|].
      split; [done|]. intros _. split; [done|].
      split; [by rewrite Hsel', Hnew|].
      split; [intros p Hp; rewrite Hsel'; by apply Hall|].
      exists new. by rewrite Hsel', Hbox.
    + intros Hs. apply Hsync. revert Hs. apply synced_frame; done.
  - injection Hrun as <- <-. split; [done|]. split.
    + intros first' rest' [= <- <-]. cbv zeta. rewrite Hsaved. gui_simpl.
      split; [done|]. split; [done|]. split; [|done].
      intros e' [= <-]. unfold Gui.selection. gui_simpl.
      cbn [heap Gui.selected_files]. by rewrite Hsel.
    + apply synced_frame; done.
Qed.

Lemma gbind_ext_l {A B} (m m' : Gui.G (W := W) A) (k : A → Gui.G B) s :
  m s = m' s → Gui.gbind m k s = Gui.gbind m' k s.
Proof. unfold Gui.gbind. by intros ->. Qed.

Lemma gbind_run {A B} (m : Gui.G (W := W) A) (k : A → Gui.G B) s a s' :
  m s = (Ok a, s') → Gui.gbind m k s = k a s'.
Proof. unfold Gui.gbind. by intros ->. Qed.

(** What [_drop_files] does with one dropped path. *)
Lemma drop_body_steps file_path (s : Gui.Session W) :
  Gui.gbind (Gui.ask (Gui.os_path_isdir TK file_path))
    (λ isdir : bool,
       if isdir then Gui._add_folder_from_path E TK file_path
       else if Gui.endswith_image_extension (Gui.str_lower TK file_path) then
         Gui.select file_path (basename E file_path)
       else
         Gui.emit (Gui.ShowWarning (py "Unsupported File Type")
                     (py "Skipping non-image file: " ++ basename E file_path)))
    s
  = Gui.gfor (Gui.drop_steps E TK (world (Gui.base s)) file_path) (Gui.act E) s.
Proof.
  unfold Gui.gbind at 1, Gui.ask, Gui.drop_steps.
  destruct (Gui.os_path_isdir TK file_path (world (Gui.base s)));
    [apply add_folder_steps|].
  destruct (Gui.endswith_image_extension (Gui.str_lower TK file_path)).
  - symmetry. apply (gbind_ret_tt (Gui.act E (inl file_path))).
  - symmetry.
    apply (gbind_ret_tt
             (Gui.act E
                (inr (py "Unsupported File Type",
                      py "Skipping non-image file: " ++ basename E file_path)))).
Qed.

Lemma drop_loop_steps paths :
  ∀ (s : Gui.Session W) xs,
    heap (Gui.base s) !! Gui.selected_files (Gui.app s) = Some (PyList xs) →
    Gui.gfor paths
      (λ file_path,
         Gui.gbind (Gui.ask (Gui.os_path_isdir TK file_path))
           (λ isdir : bool,
              if isdir then Gui._add_folder_from_path E TK file_path
              else if Gui.endswith_image_extension (Gui.str_lower TK file_path)
              then Gui.select file_path (basename E file_path)
              else
                Gui.emit (Gui.ShowWarning (py "Unsupported File Type")
                            (py "Skipping non-image file: "
                             ++ basename E file_path))))
      s
    = Gui.gfor (concat (map (Gui.drop_steps E TK (world (Gui.base s))) paths))
        (Gui.act E) s.
Proof.
  induction paths as [|path paths IH]; intros s xs Hsel; [done|].
  cbn [Gui.gfor map concat]. rewrite gfor_app.
  erewrite gbind_ext_l by apply drop_body_steps.
  destruct (steps_spec (Gui.drop_steps E TK (world (Gui.base s)) path) s xs Hsel)
    as (new & Hok & _ & _ & _ & _ & _ & _ & _ & _ & _ & Hworld & _ & _ & Hsel').
  destruct (Gui.gfor (Gui.drop_steps E TK (world (Gui.base s)) path)
              (Gui.act E) s) as [o s'] eqn:Hstep.
  cbn [fst snd] in *. subst o.
  erewrite !gbind_run by exact Hstep.
  rewrite <- Hworld. by apply (IH s' (xs ++ new)).
Qed.

(** X29. [_drop_files] takes the dropped paths in order: a folder gives
    its walked image files, a file with an image extension itself, any
    other path one warning.  The selection grows by the offered paths
    that are not selected yet and the list box by their basenames.  When
    a path was dropped, [last_input_dir] becomes the folder of the first
    path, or that path when it is not a file, and is saved, also when
    nothing was selected. *)
Theorem drop_files_selects_images_and_warns (s : Gui.Session W) data xs :
  heap (Gui.base s) !! Gui.selected_files (Gui.app s) = Some (PyList xs) →
  let r := Gui._drop_files E CE TK data s in
  let w := world (Gui.base s) in
  let steps := concat (map (Gui.drop_steps E TK w) (Gui.splitlist TK data)) in
  Gui.selection r.2 = Gui.selected_from xs (Gui.offered steps)
  ∧ Gui.warnings (Gui.gui_emitted s r.2) = Gui.warned steps
  ∧ (∃ new, Gui.selection r.2 = xs ++ new
            ∧ (∀ p, p ∈ new → p ∈ Gui.offered steps ∧ p ∉ xs)
            ∧ Gui.listbox (Gui.gui_trace r.2)
              = Gui.listbox (Gui.gui_trace s) ++ (basename E <$> new)
            ∧ length (Gui.gui_emitted s r.2)
              = length new + length (Gui.warned steps))
  ∧ (Gui.synced E s → Gui.synced E r.2)
  ∧ (Gui.splitlist TK data = [] →
     r.1 = Ok tt ∧ Gui.app r.2 = Gui.app s
     ∧ Gui.cfg_trace r.2 = Gui.cfg_trace s)
  ∧ (∀ first rest, Gui.splitlist TK data = first :: rest →
     let last_dir := if Gui.os_path_isfile TK first w
                     then Gui.os_path_dirname TK first else first in
     let saved := Config.update_config CE (py "last_input_dir")
                    (Config.JStr last_dir)
                    (Config.mkState w (Gui.cfg_trace s)) in
     Gui.last_input_dir (Gui.app r.2) = last_dir
     ∧ Gui.cfg_trace r.2 = Config.trace saved.2
     ∧ is_raise r.1 = is_raise saved.1).
Proof.
  intros Hsel r w steps. subst r w steps.
  remember (Gui.splitlist TK data) as paths eqn:Hpaths.
  destruct (Gui._drop_files E CE TK data s) as [o s'] eqn:Hrun.
  unfold Gui._drop_files in Hrun. cbv zeta in Hrun. rewrite <- Hpaths in Hrun.
  erewrite gbind_ext_l in Hrun by (apply (drop_loop_steps paths s xs); exact Hsel).
  set (steps := concat (map (Gui.drop_steps E TK (world (Gui.base s))) paths))
    in *.
  destruct (steps_spec steps s xs Hsel)
    as (new & Hok & Hnew & Hheap & Hsel' & Hbox & Hwarn & Hlen & Hsync
        & Happ & Hcfg & Hworld & _).
  destruct (Gui.gfor steps (Gui.act E) s) as [o2 s2] eqn:Hloop.
  cbn [fst snd] in *. subst o2.
  erewrite gbind_run in Hrun by exact Hloop.
  destruct (selected_from_spec (Gui.offered steps) xs)
    as (new' & Hnew' & Hsub & _).
  assert (new' = new) as -> by (rewrite Hnew in Hnew'; by simplify_list_eq).
  assert (heap (Gui.base s') = heap (Gui.base s2)
          ∧ Gui.selected_files (Gui.app s') = Gui.selected_files (Gui.app s2)
          ∧ Gui.gui_trace s' = Gui.gui_trace s2
          ∧ (paths = [] → o = Ok tt ∧ s' = s2)
          ∧ (∀ first rest, paths = first :: rest →
             let last_dir := if Gui.os_path_isfile TK first (world (Gui.base s2))
                             then Gui.os_path_dirname TK first else first in
             let saved := Config.update_config CE (py "last_input_dir")
                            (Config.JStr last_dir)
                            (Config.mkState (world (Gui.base s2))
                               (Gui.cfg_trace s2)) in
             Gui.last_input_dir (Gui.app s') = last_dir
             ∧ Gui.cfg_trace s' = Config.trace saved.2
             ∧ is_raise o = is_raise saved.1))
    as (Hh & Hf & Hg & Hnil & Hcons).
  { clear -Hrun. destruct s2 as [b2 c2 g2 a2]. destruct paths as [|first rest].
    - injection Hrun as <- <-. done.
    - unfold Gui.set_last_input_dir in Hrun.
      gui_unfold_in Hrun. unfold set_world in Hrun.
      cbn [Gui.base Gui.cfg_trace Gui.gui_trace Gui.app
           heap tesseract_cmd world trace] in Hrun.
      gui_simpl.
      destruct (Config.update_config CE (py "last_input_dir")
                  (Config.JStr (if Gui.os_path_isfile TK first (world b2)
                                then Gui.os_path_dirname TK first else first))
                  (Config.mkState (world b2) c2))
        as [[ok|e] cs] eqn:Hsaved; injection Hrun as <- <-;
        (do 4 (split; [done|])); intros first' rest' [= <- <-]; cbv zeta;
        rewrite Hsaved; done. }
  gui_simpl.
  assert (Gui.gui_emitted s s' = Gui.gui_emitted s s2) as Hem
    by (unfold Gui.gui_emitted; by rewrite Hg).
  rewrite Hem, Hg.
  rewrite (selection_frame s2 s') by done.
  split; [by rewrite Hsel', Hnew|]. split; [done|]. split.
  { exists new. done. }
  split; [intros Hs; apply (synced_frame s2 s'); [done..|by apply Hsync]|].
  split.
  - intros ->. destruct Hnil as [-> ->]; done.
  - intros first rest ->. rewrite <- Hworld, <- Hcfg.
    exact (Hcons first rest eq_refl).
Qed.

(** X30. [_clear_selection] binds [selected_files] to a new, empty list
    and clears the list box; the old list, like every other object, keeps
    its contents.  Afterwards the selection and the list box agree, and
    [_process_images] only shows the warning that no image is selected. *)
Theorem clear_selection_starts_a_new_list (s : Gui.Session W) :
  let r := Gui._clear_selection s in
  r.1 = Ok tt
  ∧ Gui.selection r.2 = []
  ∧ Gui.listbox (Gui.gui_trace r.2) = []
  ∧ Gui.synced E r.2
  ∧ heap (Gui.base r.2) = heap (Gui.base s) ++ [PyList []]
  ∧ Gui.selected_files (Gui.app r.2) = length (heap (Gui.base s))
  ∧ (∀ l o, heap (Gui.base s) !! l = Some o → heap (Gui.base r.2) !! l = Some o)
  ∧ Gui.gui_emitted r.2 (Gui._process_images TK r.2).2
    = [Gui.ShowWarning (py "No Images")
         (py "Please select at least one image to process.")].
Proof.
  intros r. subst r. destruct s as [b c g a].
  unfold Gui._clear_selection. gui_unfold. unfold alloc.
  cbn [fst snd Gui.base Gui.cfg_trace Gui.gui_trace Gui.app].
  unfold set_heap. cbn [heap tesseract_cmd world trace].
  assert (Gui.listbox (g ++ [Gui.ListClear]) = []) as Hbox
    by (unfold Gui.listbox; by rewrite foldl_snoc).
  assert ((heap b ++ [PyList []]) !! length (heap b) = Some (PyList []))
    as Hnew by (by rewrite lookup_app_r, Nat.sub_diag).
  split; [done|]. split.
  { unfold Gui.selection. gui_simpl. cbn [heap Gui.selected_files].
    by rewrite Hnew. }
  split; [done|]. split.
  { exists []. gui_simpl. cbn [heap Gui.selected_files].
    split; [done|]. split; [apply NoDup_nil_2|]. by rewrite Hbox. }
  split; [done|]. split; [done|]. split.
  { intros l o Hl. by apply lookup_app_l_Some. }
  unfold Gui._process_images. gui_unfold. unfold Gui.list_bool.
  cbn [heap Gui.selected_files]. rewrite Hnew. gui_simpl.
  by apply gui_emitted_app.
Qed.

End Selecting.

Lemma add_folder_from_path_selects_new_images_witness :
  let s := Gui.demo_session true [py "/in/dir/a.PNG"] None in
  let r := Gui._add_folder_from_path demo_env Gui.demo_toolkit (py "/in/dir") s in
  Gui.selection r.2 = [py "/in/dir/a.PNG"; py "/in/dir/b.gif"]
  ∧ Gui.listbox (Gui.gui_trace r.2) = [py "a.PNG"; py "b.gif"].
Proof.
  destruct (add_folder_from_path_selects_new_images demo_env Gui.demo_toolkit
              (Gui.demo_session true [py "/in/dir/a.PNG"] None) (py "/in/dir")
              [py "/in/dir/a.PNG"])
    as (_ & Hsel & _); [reflexivity|].
  split; [exact Hsel|reflexivity].
Defined.

Lemma add_folder_from_path_twice_adds_nothing_witness :
  let s := Gui.demo_session true [py "/in/x.png"] None in
  let r1 := Gui._add_folder_from_path demo_env Gui.demo_toolkit (py "/in/dir") s in
  let r2 := Gui._add_folder_from_path demo_env Gui.demo_toolkit (py "/in/dir")
              r1.2 in
  r2.1 = Ok tt
  ∧ Gui.selection r2.2 = Gui.selection r1.2
  ∧ Gui.gui_emitted r1.2 r2.2 = [].
Proof.
  apply (add_folder_from_path_twice_adds_nothing demo_env Gui.demo_toolkit
           (Gui.demo_session true [py "/in/x.png"] None) (py "/in/dir")
           [py "/in/x.png"]).
  reflexivity.
Defined.

Lemma add_files_selects_what_is_chosen_witness :
  let s := Gui.disk_session [py "/in/a.png"] in
  let r := Gui._add_files Gui.disk_env Config.memory_env Gui.disk_toolkit s in
  r.1 = Ok tt
  ∧ Gui.selection r.2 = [py "/in/a.png"; py "/in/b.txt"]
  ∧ Gui.last_input_dir (Gui.app r.2) = py "/in".
Proof.
  destruct (add_files_selects_what_is_chosen Gui.disk_env Config.memory_env
              Gui.disk_toolkit (Gui.disk_session [py "/in/a.png"])
              [py "/in/a.png"] [py "/in/a.png"; py "/in/b.txt"]
              (Config.mkDisk [] []))
    as (_ & Hfiles & _); [reflexivity|reflexivity|].
  destruct (Hfiles (py "/in/a.png") [py "/in/b.txt"] eq_refl)
    as (Hdir & _ & _ & Hok).
  destruct Hok as (Hr & Hsel & _); [reflexivity|].
  split; [exact Hr|]. split; [exact Hsel|exact Hdir].
Defined.

Lemma drop_files_selects_images_and_warns_witness :
  let s := Gui.disk_session [py "/in/a.png"] in
  let r := Gui._drop_files Gui.disk_env Config.memory_env Gui.disk_toolkit
             (py "/in/notes.txt") s in
  Gui.selection r.2 = [py "/in/a.png"]
  ∧ Gui.warnings (Gui.gui_emitted s r.2)
    = [(py "Unsupported File Type", py "Skipping non-image file: notes.txt")]
  ∧ Gui.last_input_dir (Gui.app r.2) = py "/in".
Proof.
  destruct (drop_files_selects_images_and_warns Gui.disk_env Config.memory_env
              Gui.disk_toolkit (Gui.disk_session [py "/in/a.png"])
              (py "/in/notes.txt") [py "/in/a.png"])
    as (Hsel & Hwarn & _ & _ & _ & Hdir); [reflexivity|].
  destruct (Hdir (py "/in/notes.txt") [] eq_refl) as (Hlast & _).
  split; [exact Hsel|]. split; [exact Hwarn|exact Hlast].
Defined.
